(** * OncoTree snapshot validation and reconciliation

    A shallow embedding of [scripts/validate_new_tree_and_output_rdf.py].

    Conventions of the embedding.
    - A Python [str] is a [string]; each [ascii] stands for the character
      with the same code point (code points below 256).
    - A Python [dict] is an association list in insertion order: assigning
      to an existing key keeps its position, a new key goes to the end.
    - A Python [set] of strings is a duplicate-free list; the order in which
      a [for] loop visits a set depends on the hash seed of the process and
      is an explicit input ([hash_order]).
    - [print] appends a line to the standard output; [sys.exit] and an
      uncaught [KeyError] end the computation ([outcome]).
    - A row of [csv.DictReader] is a record of the cells under the expected
      columns; the optional column [PARENT_ONCOTREE_CODE] is an [option]. *)

From Stdlib Require Import String Ascii List Bool Arith.
From Stdlib Require Import Permutation Sorted.
Import ListNotations.
Local Open Scope string_scope.
Local Open Scope list_scope.

(** ** Python strings *)

Module PyStr.

Definition nl : string := String (ascii_of_nat 10) EmptyString.
Definition tab : string := String (ascii_of_nat 9) EmptyString.

(** [bool(s)] for a string: non-empty. *)
Definition truthy (s : string) : bool :=
  match s with EmptyString => false | _ => true end.

(** [str.isspace] on one character, for code points below 256. *)
Definition is_space (c : ascii) : bool :=
  let n := nat_of_ascii c in
  (((9 <=? n) && (n <=? 13)) || ((28 <=? n) && (n <=? 32))
   || (n =? 133) || (n =? 160))%nat.

Fixpoint lstrip (s : string) : string :=
  match s with
  | EmptyString => EmptyString
  | String c s' => if is_space c then lstrip s' else s
  end.

Fixpoint rstrip (s : string) : string :=
  match s with
  | EmptyString => EmptyString
  | String c s' =>
      match rstrip s' with
      | EmptyString => if is_space c then EmptyString else String c EmptyString
      | t => String c t
      end
  end.

(** [s.strip()] *)
Definition strip (s : string) : string := rstrip (lstrip s).

(** [s.split()]: maximal runs of non-whitespace characters. *)
Fixpoint split_from (cur : string) (s : string) : list string :=
  match s with
  | EmptyString => if truthy cur then [cur] else []
  | String c s' =>
      if is_space c
      then (if truthy cur then cur :: split_from EmptyString s'
            else split_from EmptyString s')
      else split_from (cur ++ String c EmptyString) s'
  end.

Definition split (s : string) : list string := split_from EmptyString s.

(** [str.lower] on one character, for code points below 256. *)
Definition lower_char (c : ascii) : ascii :=
  let n := nat_of_ascii c in
  if (((65 <=? n) && (n <=? 90))
      || ((192 <=? n) && (n <=? 222) && negb (n =? 215)))%nat
  then ascii_of_nat (n + 32) else c.

Fixpoint lower (s : string) : string :=
  match s with
  | EmptyString => EmptyString
  | String c s' => String (lower_char c) (lower s')
  end.

(** [x in l] for a list of strings. *)
Fixpoint mem (x : string) (l : list string) : bool :=
  match l with
  | [] => false
  | y :: l' => (x =? y) || mem x l'
  end.

(** [sorted(l)]: ascending in the code-point order of [str]. *)
Fixpoint insert_sorted (x : string) (l : list string) : list string :=
  match l with
  | [] => [x]
  | y :: l' => if (x <=? y)%string then x :: l else y :: insert_sorted x l'
  end.

Fixpoint sorted (l : list string) : list string :=
  match l with
  | [] => []
  | x :: l' => insert_sorted x (sorted l')
  end.

End PyStr.
Import PyStr.

(** [bool(c)] for a list, a set or a dict: non-empty. *)
Definition nonempty {A} (l : list A) : bool :=
  match l with [] => false | _ => true end.

(** ** Python sets of strings *)

Module PySet.

Definition t := list string.

Definition empty : t := [].

(** [s.add(x)] *)
Definition add (x : string) (s : t) : t :=
  if mem x s then s else s ++ [x].

(** [set(l)] *)
Fixpoint of_list (l : list string) : t :=
  match l with
  | [] => []
  | x :: l' => let s := of_list l' in if mem x l' then s else x :: s
  end.

(** [a - b] *)
Definition diff (a b : t) : t := filter (fun x => negb (mem x b)) a.

(** [a & b] *)
Definition inter (a b : t) : t := filter (fun x => mem x b) a.

End PySet.

(** The order in which the running process iterates over a set: any
    enumeration of its elements. *)
Record hash_order := {
  iter_ids : list string -> list string;
  iter_ids_perm : forall l, Permutation (iter_ids l) l;
  iter_pairs : list (string * string) -> list (string * string);
  iter_pairs_perm : forall l, Permutation (iter_pairs l) l
}.

(** ** Python dicts with string keys *)

Module PyDict.

Definition t (V : Type) := list (string * V).

Fixpoint get {V} (k : string) (d : t V) : option V :=
  match d with
  | [] => None
  | (k', v) :: d' => if k =? k' then Some v else get k d'
  end.

(** [k in d] *)
Definition has {V} (k : string) (d : t V) : bool :=
  match get k d with Some _ => true | None => false end.

(** [d[k] = v] *)
Fixpoint set {V} (k : string) (v : V) (d : t V) : t V :=
  match d with
  | [] => [(k, v)]
  | (k', v') :: d' =>
      if k =? k' then (k', v) :: d' else (k', v') :: set k v d'
  end.

(** [d.keys()], in iteration order *)
Definition keys {V} (d : t V) : list string := map fst d.

End PyDict.

(** ** Outcomes of a run *)

(** Diagnostics that precede a [sys.exit]; the payload is what the message
    on the standard error names. *)
Inductive error :=
| MissingExpectedFields (missing : list string)
| RequiredFieldEmpty (field_name internal_id : string)
| NotUnique (field_name value : string)
| TissueHasParent
| ValidationErrors
| ParentCodeNotFound (parent_oncotree_code : string)
| ParentReferenceMissing (child_internal_id : string)
| NoCodeForInternalId (internal_id : string)
| NewNodeHasResourceUri (pretty_label : string)
| PrecursorStillCurrent (precursor_id : string)
| RevocationStillCurrent (revocation_id : string)
| RevocationIsPrecursor (revocation_id : string)
| RevokedByNewConcept (revocation_id internal_id : string)
| ResourceUriMissing (pretty_label : string)
| ResourceUriChanged (pretty_label : string)
| NotIntentional.

Inductive outcome (A : Type) :=
| Ok (a : A)
| Exit (code : nat) (e : error)
| KeyError (key : string).

Arguments Ok {A} a.
Arguments Exit {A} code e.
Arguments KeyError {A} key.

(** A computation: its outcome and the lines it printed. *)
Definition M (A : Type) : Type := outcome A * list string.

Definition ret {A} (a : A) : M A := (Ok a, []).

Definition bind {A B} (m : M A) (f : A -> M B) : M B :=
  match m with
  | (Ok a, out) => let (r, out') := f a in (r, out ++ out')
  | (Exit c e, out) => (Exit c e, out)
  | (KeyError k, out) => (KeyError k, out)
  end.

Notation "x <- m ;; k" := (bind m (fun x => k))
  (at level 61, m at next level, right associativity).
Notation "m ;; k" := (bind m (fun _ => k))
  (at level 61, right associativity).

Definition print (line : string) : M unit := (Ok tt, [line]).

Definition sys_exit {A} (code : nat) (e : error) : M A := (Exit code e, []).

(** [d[k]] *)
Definition lookup {V} (k : string) (d : PyDict.t V) : M V :=
  match PyDict.get k d with
  | Some v => ret v
  | None => (KeyError k, [])
  end.

(** [for x in l: s = body(s, x)] *)
Fixpoint foldM {A S} (body : S -> A -> M S) (l : list A) (s : S) : M S :=
  match l with
  | [] => ret s
  | x :: l' => s' <- body s x ;; foldM body l' s'
  end.

(** [for x in l: body(x)] *)
Definition for_each {A} (l : list A) (body : A -> M unit) : M unit :=
  foldM (fun _ x => body x) l tt.

Definition failed {A} (m : M A) : Prop :=
  match fst m with Ok _ => False | _ => True end.

Definition succeeded {A} (m : M A) : Prop :=
  match fst m with Ok _ => True | _ => False end.

(** ** Columns and rows *)

Inductive column :=
| RESOURCE_URI | LABEL | SCHEME_URI | STATUS | INTERNAL_ID | COLOR
| MAIN_TYPE | ONCOTREE_CODE | PRECURSORS | PREFERRED_LABEL | REVOCATIONS
| PARENT_RESOURCE_URI | PARENT_LABEL | PARENT_ONCOTREE_CODE.

Definition column_name (c : column) : string :=
  match c with
  | LABEL => "Primary Concept"
  | RESOURCE_URI => "Resource URI"
  | ONCOTREE_CODE => "notation (SKOS)"
  | SCHEME_URI => "skos:inScheme URI"
  | STATUS => "Status"
  | INTERNAL_ID => "clinicalCasesSubset (OncoTree Tumor Type)"
  | COLOR => "color (OncoTree Tumor Type)"
  | MAIN_TYPE => "mainType (OncoTree Tumor Type)"
  | PRECURSORS => "precursors (OncoTree Tumor Type)"
  | PREFERRED_LABEL => "preferred label (SKOS)"
  | REVOCATIONS => "revocations (OncoTree Tumor Type)"
  | PARENT_RESOURCE_URI => "has broader (SKOS) URI"
  | PARENT_LABEL => "has broader (SKOS)"
  | PARENT_ONCOTREE_CODE => "parent oncotree code"
  end.

Definition EXPECTED_HEADER : list column :=
  [RESOURCE_URI; LABEL; SCHEME_URI; STATUS; INTERNAL_ID; COLOR; MAIN_TYPE;
   ONCOTREE_CODE; PRECURSORS; PREFERRED_LABEL; REVOCATIONS;
   PARENT_RESOURCE_URI; PARENT_LABEL].

Definition EXPECTED_HEADER_MODIFIED_FILE : list column :=
  EXPECTED_HEADER ++ [PARENT_ONCOTREE_CODE].

Definition REQUIRED_FIELDS : list column :=
  [LABEL; SCHEME_URI; STATUS; INTERNAL_ID; COLOR; MAIN_TYPE; ONCOTREE_CODE;
   PREFERRED_LABEL; PARENT_RESOURCE_URI; PARENT_LABEL].

Definition TISSUE_NODE_REQUIRED_FIELDS : list column :=
  [RESOURCE_URI; LABEL; SCHEME_URI; STATUS; INTERNAL_ID; ONCOTREE_CODE;
   PREFERRED_LABEL].

(** One row of [csv.DictReader]. *)
Record Row := {
  resource_uri : string;
  label : string;
  scheme_uri : string;
  status : string;
  internal_id : string;
  color : string;
  main_type : string;
  oncotree_code : string;
  precursors : string;
  preferred_label : string;
  revocations : string;
  parent_resource_uri : string;
  parent_label : string;
  parent_oncotree_code : option string
}.

(** The cell of a row under a column, when the row has that column. *)
Definition cell (row : Row) (c : column) : option string :=
  match c with
  | RESOURCE_URI => Some (resource_uri row)
  | LABEL => Some (label row)
  | SCHEME_URI => Some (scheme_uri row)
  | STATUS => Some (status row)
  | INTERNAL_ID => Some (internal_id row)
  | COLOR => Some (color row)
  | MAIN_TYPE => Some (main_type row)
  | ONCOTREE_CODE => Some (oncotree_code row)
  | PRECURSORS => Some (precursors row)
  | PREFERRED_LABEL => Some (preferred_label row)
  | REVOCATIONS => Some (revocations row)
  | PARENT_RESOURCE_URI => Some (parent_resource_uri row)
  | PARENT_LABEL => Some (parent_label row)
  | PARENT_ONCOTREE_CODE => parent_oncotree_code row
  end.

(** [row[c]] *)
Definition row_get (row : Row) (c : column) : M string :=
  match cell row c with
  | Some v => ret v
  | None => (KeyError (column_name c), [])
  end.

Definition all_columns : list column :=
  EXPECTED_HEADER_MODIFIED_FILE.

(** A csv file: its path, the header [reader.fieldnames] and its rows. *)
Record csv_file := {
  path : string;
  fieldnames : list string;
  rows : list Row
}.

(** ** The script *)

(** [confirm_change]: [answer] is the line read by [input]. *)
Definition confirm_change (message : string) (answer : string) : M bool :=
  print (nl ++ message);;
  print "Enter [y]es if the changes were intentional, [n]o if not: ";;
  if mem (lower answer) ["y"; "yes"] then ret true else ret false.

Definition construct_pretty_label_for_row (internal_id code label : string)
  : string :=
  internal_id ++ ": " ++ label ++ " (" ++ code ++ ")".

Definition pretty_label_of (data : Row) : string :=
  construct_pretty_label_for_row
    (internal_id data) (oncotree_code data) (label data).

(** [d[k]] on a [defaultdict(set)] *)
Definition default_get (k : string) (d : PyDict.t PySet.t) : PySet.t :=
  match PyDict.get k d with Some s => s | None => PySet.empty end.

(** [d[k].add(x)] on a [defaultdict(set)] *)
Definition default_add (k x : string) (d : PyDict.t PySet.t)
  : PyDict.t PySet.t :=
  PyDict.set k (PySet.add x (default_get k d)) d.

Definition get_all_precursors (csv : csv_file) : PyDict.t PySet.t :=
  fold_left
    (fun precursor_id_to_internal_ids row =>
       if truthy (precursors row)
       then fold_left
              (fun d precursor_id => default_add precursor_id (internal_id row) d)
              (split (precursors row)) precursor_id_to_internal_ids
       else precursor_id_to_internal_ids)
    (rows csv) [].

Definition get_all_revocations (csv : csv_file) : PyDict.t PySet.t :=
  fold_left
    (fun revocation_id_to_internal_ids row =>
       if truthy (revocations row)
       then fold_left
              (fun d revocation_id =>
                 default_add revocation_id (internal_id row) d)
              (split (revocations row)) revocation_id_to_internal_ids
       else revocation_id_to_internal_ids)
    (rows csv) [].

Definition get_resource_uri_to_internal_ids (csv : csv_file)
  : PyDict.t string :=
  fold_left (fun d row => PyDict.set (resource_uri row) (internal_id row) d)
            (rows csv) [].

Definition get_oncotree_codes_to_internal_ids (csv : csv_file)
  : PyDict.t string :=
  fold_left (fun d row => PyDict.set (oncotree_code row) (internal_id row) d)
            (rows csv) [].

(** [parent_oncotree_code] is [None] where the caller passes [None]. *)
Definition get_parent_internal_id
    (child_internal_id parent_resource_uri : string)
    (parent_oncotree_code : option string)
    (oncotree_codes_to_internal_ids resource_uri_to_internal_ids
       : PyDict.t string) : M string :=
  let by_resource_uri :=
    if negb (truthy parent_resource_uri)
    then sys_exit 1 (ParentReferenceMissing child_internal_id)
    else lookup parent_resource_uri resource_uri_to_internal_ids in
  match parent_oncotree_code with
  | Some code =>
      if truthy code
      then if PyDict.has code oncotree_codes_to_internal_ids
           then lookup code oncotree_codes_to_internal_ids
           else sys_exit 1 (ParentCodeNotFound code)
      else by_resource_uri
  | None => by_resource_uri
  end.

(** The loop visits the entries in the insertion order of the dict. *)
Definition get_oncotree_code_from_internal_id
    (oncotree_codes_to_internal_ids : PyDict.t string) (internal_id : string)
  : M string :=
  match find (fun kv => snd kv =? internal_id) oncotree_codes_to_internal_ids
  with
  | Some (code, _) => ret code
  | None => sys_exit 1 (NoCodeForInternalId internal_id)
  end.

(** *** DeepDiff of two rows

    The result of [DeepDiff(t1, t2, ignore_order=True)] on two dicts of
    strings: a report kind is a key of the result only when it has entries.
    [values_changed] maps the path of each key the two dicts share with
    different values to the pair (old value, new value). *)
Record deep_diff := {
  values_changed : option (PyDict.t (string * string));
  dictionary_item_added : option (list string);
  dictionary_item_removed : option (list string)
}.

Definition diff_path (c : column) : string :=
  "root['" ++ column_name c ++ "']".

Definition some_if_any {A} (l : list A) : option (list A) :=
  match l with [] => None | _ => Some l end.

(** The entry of [values_changed] for one column. *)
Definition changed_under (t1 t2 : Row) (c : column)
  : PyDict.t (string * string) :=
  match cell t1 c, cell t2 c with
  | Some v1, Some v2 => if v1 =? v2 then [] else [(diff_path c, (v1, v2))]
  | _, _ => []
  end.

Definition DeepDiff (t1 t2 : Row) : deep_diff :=
  {| values_changed :=
       some_if_any (flat_map (changed_under t1 t2) all_columns);
     dictionary_item_added :=
       some_if_any
         (flat_map
            (fun c =>
               match cell t1 c, cell t2 c with
               | None, Some _ => [diff_path c]
               | _, _ => []
               end) all_columns);
     dictionary_item_removed :=
       some_if_any
         (flat_map
            (fun c =>
               match cell t1 c, cell t2 c with
               | Some _, None => [diff_path c]
               | _, _ => []
               end) all_columns) |}.

(** [diff['values_changed']] *)
Definition get_values_changed (diff : deep_diff)
  : M (PyDict.t (string * string)) :=
  match values_changed diff with
  | Some d => ret d
  | None => (KeyError "values_changed", [])
  end.

(** *** [confirm_changes] *)

Section ConfirmChanges.

Variable h : hash_order.
Variables original_oncotree modified_oncotree : PyDict.t Row.
Variables precursor_id_to_internal_ids revocation_id_to_internal_ids
  : PyDict.t PySet.t.
Variables original_resource_uri_to_internal_ids
          modified_resource_uri_to_internal_ids : PyDict.t string.
Variable internal_id_to_oncocodes : PyDict.t string.
Variable oncotree_codes_to_internal_ids : PyDict.t string.

Definition original_internal_id_set : PySet.t :=
  PySet.of_list (PyDict.keys original_oncotree).
Definition modified_internal_id_set : PySet.t :=
  PySet.of_list (PyDict.keys modified_oncotree).

Definition removed_internal_ids : PySet.t :=
  PySet.diff original_internal_id_set modified_internal_id_set.
Definition new_internal_ids : PySet.t :=
  PySet.diff modified_internal_id_set original_internal_id_set.
Definition in_both_internal_ids : PySet.t :=
  PySet.inter original_internal_id_set modified_internal_id_set.

(** Lines 154-162. *)
Definition report_removed : M unit :=
  print (nl ++ "Removed internal ids:");;
  if nonempty removed_internal_ids
  then
    for_each (sorted removed_internal_ids)
      (fun internal_id =>
         data <- lookup internal_id original_oncotree;;
         print (tab ++ pretty_label_of data));;
    print (nl ++ "****** All removed Oncotree nodes must be manually deleted from Graphite")
  else print (tab ++ "None").

(** Lines 166-177, the body of the loop over the new ids. *)
Definition report_new_id (internal_id : string) : M unit :=
  data <- lookup internal_id modified_oncotree;;
  let pretty_label := pretty_label_of data in
  if truthy (resource_uri data)
  then sys_exit 1 (NewNodeHasResourceUri pretty_label)
  else
    parent_code <- row_get data PARENT_ONCOTREE_CODE;;
    parent_internal_id <-
      get_parent_internal_id internal_id (parent_resource_uri data)
        (Some parent_code) oncotree_codes_to_internal_ids
        modified_resource_uri_to_internal_ids;;
    parent_data <- lookup parent_internal_id modified_oncotree;;
    let parent_pretty_label :=
      construct_pretty_label_for_row parent_internal_id
        (oncotree_code parent_data) (label parent_data) in
    print (tab ++ pretty_label ++ " has parent " ++ parent_pretty_label).

(** Lines 164-179. *)
Definition report_new : M unit :=
  print (nl ++ "New internal ids:");;
  if nonempty new_internal_ids
  then for_each (sorted new_internal_ids) report_new_id
  else print (tab ++ "None").

Definition code_or_unknown (id : string) : string :=
  match PyDict.get id internal_id_to_oncocodes with
  | Some code => code
  | None => "unknown"
  end.

Definition lineage_line (source_id source_code pretty_label : string)
  : string :=
  tab ++ "'" ++ source_id ++ "' ('" ++ source_code ++ "') -> '"
      ++ pretty_label ++ "'".

(** Lines 183-193, the body of the loop over the precursor ids. *)
Definition report_precursor (precursor_id : string) : M unit :=
  let precursor_code := code_or_unknown precursor_id in
  if mem precursor_id modified_internal_id_set
  then sys_exit 1 (PrecursorStillCurrent precursor_id)
  else
    let precursor_of_set :=
      default_get precursor_id precursor_id_to_internal_ids in
    for_each (iter_ids h precursor_of_set)
      (fun internal_id =>
         data <- lookup internal_id modified_oncotree;;
         print (lineage_line precursor_id precursor_code
                  (pretty_label_of data))).

(** Lines 181-195. *)
Definition report_precursors : M unit :=
  print (nl ++ "Precurors:");;
  if nonempty precursor_id_to_internal_ids
  then for_each (sorted (PyDict.keys precursor_id_to_internal_ids))
         report_precursor
  else print (tab ++ "None").

(** Lines 209-214, the body of the loop over the ids that revoke
    [revocation_id]. *)
Definition report_revoked_by (revocation_id revocation_code : string)
    (internal_id : string) : M unit :=
  if mem internal_id new_internal_ids
  then sys_exit 1 (RevokedByNewConcept revocation_id internal_id)
  else
    data <- lookup internal_id modified_oncotree;;
    print (lineage_line revocation_id revocation_code
             (pretty_label_of data)).

(** Lines 199-214, the body of the loop over the revocation ids. *)
Definition report_revocation (revocation_id : string) : M unit :=
  let revocation_code := code_or_unknown revocation_id in
  if mem revocation_id modified_internal_id_set
  then sys_exit 1 (RevocationStillCurrent revocation_id)
  else if PyDict.has revocation_id precursor_id_to_internal_ids
  then sys_exit 1 (RevocationIsPrecursor revocation_id)
  else
    let revocation_of_set :=
      default_get revocation_id revocation_id_to_internal_ids in
    for_each (iter_ids h revocation_of_set)
      (report_revoked_by revocation_id revocation_code).

(** Lines 197-216. *)
Definition report_revocations : M unit :=
  print (nl ++ "Revocations:");;
  if nonempty revocation_id_to_internal_ids
  then for_each (sorted (PyDict.keys revocation_id_to_internal_ids))
         report_revocation
  else print (tab ++ "None").

(** Lines 181-216: the checks of the precursors and of the revocations. *)
Definition report_lineage : M unit :=
  report_precursors;;
  report_revocations.

Definition change_line (original_pretty_label modified_pretty_label : string)
  : string :=
  tab ++ "'" ++ original_pretty_label ++ "' -> '" ++ modified_pretty_label
      ++ "'".

(** Lines 223-234, the body of the loop over the pairs; the state is
    [found_id_change_with_no_data_change]. *)
Definition report_id_change (found : bool) (pair : string * string)
  : M bool :=
  original_data <- lookup (fst pair) original_oncotree;;
  modified_data <- lookup (snd pair) modified_oncotree;;
  let diff := DeepDiff original_data modified_data in
  changed <- get_values_changed diff;;
  let changed :=
    filter (fun x => negb (fst x =? diff_path INTERNAL_ID)) changed in
  if negb (nonempty changed)
  then
    print (change_line (pretty_label_of original_data)
             (pretty_label_of modified_data));;
    ret true
  else ret found.

(** Lines 218-236. *)
Definition report_id_changes : M unit :=
  print (nl ++ "Internal ids that changed when no other data has changed ... are these really new concepts that cover different sets of cancer cases?");;
  found <- foldM report_id_change
             (iter_pairs h (list_prod removed_internal_ids new_internal_ids))
             false;;
  if negb found then print (tab ++ "None") else ret tt.

(** Lines 260-281: the parent codes of a retained node in the original
    and in the modified file. *)
Definition parent_codes (internal_id : string)
    (original_data modified_data : Row) : M (string * string) :=
  modified_parent_oncotree_code <- row_get modified_data PARENT_ONCOTREE_CODE;;
  modified_parent_oncotree_code <-
    (if negb (truthy modified_parent_oncotree_code)
     then
       modified_parent_internal_id <-
         get_parent_internal_id internal_id
           (parent_resource_uri modified_data)
           (Some modified_parent_oncotree_code)
           oncotree_codes_to_internal_ids
           modified_resource_uri_to_internal_ids;;
       get_oncotree_code_from_internal_id oncotree_codes_to_internal_ids
         modified_parent_internal_id
     else ret modified_parent_oncotree_code);;
  original_parent_internal_id <-
    get_parent_internal_id internal_id (parent_resource_uri original_data)
      None oncotree_codes_to_internal_ids
      original_resource_uri_to_internal_ids;;
  original_parent_oncotree_code <-
    get_oncotree_code_from_internal_id oncotree_codes_to_internal_ids
      original_parent_internal_id;;
  ret (original_parent_oncotree_code, modified_parent_oncotree_code).

Definition parent_change_line
    (original_pretty_label original_parent_oncotree_code
     modified_pretty_label modified_parent_oncotree_code : string) : string :=
  tab ++ "child: '" ++ original_pretty_label ++ "' parent: '"
      ++ original_parent_oncotree_code ++ "' -> child: '"
      ++ modified_pretty_label ++ "' parent: '"
      ++ modified_parent_oncotree_code ++ "'".

(** Lines 242-281, the body of the loop over the retained ids; the state
    is ([code_change_messages], [parent_change_messages]). *)
Definition compare_retained (messages : list string * list string)
    (internal_id : string) : M (list string * list string) :=
  let (code_change_messages, parent_change_messages) := messages in
  original_data <- lookup internal_id original_oncotree;;
  modified_data <- lookup internal_id modified_oncotree;;
  let original_pretty_label := pretty_label_of original_data in
  let modified_pretty_label := pretty_label_of modified_data in
  if strip (resource_uri original_data) =? EmptyString
  then sys_exit 1 (ResourceUriMissing original_pretty_label)
  else if negb (resource_uri original_data =? resource_uri modified_data)
  then sys_exit 1 (ResourceUriChanged modified_pretty_label)
  else
    let code_change_messages :=
      if negb (oncotree_code original_data =? oncotree_code modified_data)
      then code_change_messages
             ++ [change_line original_pretty_label modified_pretty_label]
      else code_change_messages in
    if negb (internal_id =? "ONC000001")
    then
      codes <- parent_codes internal_id original_data modified_data;;
      let (original_parent_oncotree_code, modified_parent_oncotree_code) :=
        codes in
      if negb (original_parent_oncotree_code =? modified_parent_oncotree_code)
      then ret (code_change_messages,
                parent_change_messages
                  ++ [parent_change_line original_pretty_label
                        original_parent_oncotree_code modified_pretty_label
                        modified_parent_oncotree_code])
      else ret (code_change_messages, parent_change_messages)
    else ret (code_change_messages, parent_change_messages).

(** Lines 284-296. *)
Definition report_changes (messages : list string * list string) : M unit :=
  let (code_change_messages, parent_change_messages) := messages in
  print (nl ++ "Oncotree code/label changes with no internal id change.  This is allowed as long as the new code/label covers the exact same set of cancer cases");;
  (if nonempty code_change_messages
   then for_each code_change_messages print
   else print (tab ++ "None"));;
  print (nl ++ "Parent change");;
  (if nonempty parent_change_messages
   then for_each parent_change_messages print
   else print (tab ++ "None")).

(** [answer] is what the curator types at the confirmation prompt. *)
Definition confirm_changes (answer : string) : M unit :=
  report_removed;;
  report_new;;
  report_precursors;;
  report_revocations;;
  report_id_changes;;
  messages <- foldM compare_retained (iter_ids h in_both_internal_ids)
                ([], []);;
  report_changes messages;;
  confirmed <-
    confirm_change
      (nl ++ "Please confirm that all of the above changes are intentional.")
      answer;;
  if negb confirmed then sys_exit 2 NotIntentional else ret tt.

End ConfirmChanges.

Definition output_rdf_file (oncotree : PyDict.t Row) : M unit :=
  print "TODO: output RDF file".

(** Lines 310-315, the body of the loop of [get_oncotree]. *)
Definition load_row (internal_id_to_data : PyDict.t Row) (row : Row)
  : M (PyDict.t Row) :=
  let internal_id := internal_id row in
  let pretty_label := pretty_label_of row in
  (if negb (status row =? "Published")
   then print ("WARNING: do not know what to do with node '"
                 ++ pretty_label ++ "' which has a status of '"
                 ++ status row ++ "', excluding it from the output file")
   else ret tt);;
  ret (PyDict.set internal_id row internal_id_to_data).

Definition get_oncotree (csv : csv_file) : M (PyDict.t Row) :=
  foldM load_row (rows csv) [].

Definition field_is_required (field field_name internal_id csv_file : string)
  : M unit :=
  if negb (truthy field)
  then sys_exit 1 (RequiredFieldEmpty field_name internal_id)
  else ret tt.

Definition field_is_unique (field field_name : string) (column_set : PySet.t)
    (internal_id csv_file : string) : M unit :=
  if negb (field =? EmptyString) && mem field column_set
  then sys_exit 1 (NotUnique field_name field)
  else ret tt.

Definition parent_resource_uri_and_label_are_valid
    (parent_resource_uri parent_label : string)
    (child_to_parent_resource_uris child_uri_to_child_label
       child_to_parent_labels : PyDict.t string) : M bool :=
  if PyDict.has parent_label child_to_parent_labels
  then if PyDict.has parent_label child_to_parent_resource_uris
       then label_of_uri <- lookup parent_label child_uri_to_child_label;;
            ret (label_of_uri =? parent_label)
       else ret false
  else ret false.

(** *** [validate_csv_file] *)

(** The dicts and sets filled by the first pass over the rows. *)
Record validation_state := {
  child_to_parent_resource_uris : PyDict.t string;
  child_to_parent_labels : PyDict.t string;
  child_uri_to_child_label : PyDict.t string;
  resource_uri_set : PySet.t;
  internal_id_set : PySet.t;
  oncotree_code_set : PySet.t
}.

Definition initial_validation_state : validation_state :=
  {| child_to_parent_resource_uris := [];
     child_to_parent_labels := [];
     child_uri_to_child_label := [];
     resource_uri_set := PySet.empty;
     internal_id_set := PySet.empty;
     oncotree_code_set := PySet.empty |}.

Definition required_fields_of (row : Row) : list column :=
  if oncotree_code row =? "TISSUE"
  then TISSUE_NODE_REQUIRED_FIELDS else REQUIRED_FIELDS.

(** Lines 355-357. *)
Definition save_relationships (st : validation_state) (row : Row)
  : validation_state :=
  {| child_to_parent_resource_uris :=
       PyDict.set (resource_uri row) (parent_resource_uri row)
         (child_to_parent_resource_uris st);
     child_to_parent_labels :=
       PyDict.set (label row) (parent_label row) (child_to_parent_labels st);
     child_uri_to_child_label :=
       PyDict.set (resource_uri row) (label row) (child_uri_to_child_label st);
     resource_uri_set := resource_uri_set st;
     internal_id_set := internal_id_set st;
     oncotree_code_set := oncotree_code_set st |}.

(** Lines 369-371. *)
Definition add_key_fields (st : validation_state) (row : Row)
  : validation_state :=
  {| child_to_parent_resource_uris := child_to_parent_resource_uris st;
     child_to_parent_labels := child_to_parent_labels st;
     child_uri_to_child_label := child_uri_to_child_label st;
     resource_uri_set := PySet.add (resource_uri row) (resource_uri_set st);
     internal_id_set := PySet.add (internal_id row) (internal_id_set st);
     oncotree_code_set :=
       PySet.add (oncotree_code row) (oncotree_code_set st) |}.

(** Lines 360-362. *)
Definition check_required_fields (csv_file : string) (row : Row) : M unit :=
  for_each (required_fields_of row)
    (fun field =>
       value <- row_get row field;;
       field_is_required value (column_name field) (internal_id row) csv_file).

(** Lines 354-371, the body of the first loop over the rows. *)
Definition check_row (csv_file : string) (st : validation_state) (row : Row)
  : M validation_state :=
  let st := save_relationships st row in
  check_required_fields csv_file row;;
  field_is_unique (resource_uri row) (column_name RESOURCE_URI)
    (resource_uri_set st) (internal_id row) csv_file;;
  field_is_unique (internal_id row) (column_name INTERNAL_ID)
    (internal_id_set st) (oncotree_code row) csv_file;;
  field_is_unique (oncotree_code row) (column_name ONCOTREE_CODE)
    (oncotree_code_set st) (internal_id row) csv_file;;
  ret (add_key_fields st row).

Definition label_mismatch_message (row : Row) : string :=
  internal_id row ++ ": '" ++ label row ++ "' != '" ++ preferred_label row
    ++ "'".

Definition parent_invalid_message (row : Row) : string :=
  internal_id row ++ ": URI '" ++ parent_resource_uri row ++ "' and label '"
    ++ parent_label row ++ "'".

(** Line 386: one of the parent cells of the row is filled. *)
Definition has_parent_field (row : Row) : bool :=
  truthy (parent_resource_uri row) || truthy (parent_label row)
  || match parent_oncotree_code row with
     | Some code => truthy code
     | None => false
     end.

(** Lines 378-388, the body of the second loop over the rows; the state is
    ([label_mismatch_errors], [parent_invalid_errors]). *)
Definition check_links (st : validation_state)
    (errors : list string * list string) (row : Row)
  : M (list string * list string) :=
  let (label_mismatch_errors, parent_invalid_errors) := errors in
  let label_mismatch_errors :=
    if negb (label row =? preferred_label row)
    then label_mismatch_errors ++ [label_mismatch_message row]
    else label_mismatch_errors in
  flagged <-
    (if negb (oncotree_code row =? "TISSUE")
     then parent_resource_uri_and_label_are_valid
            (parent_resource_uri row) (parent_label row)
            (child_to_parent_resource_uris st) (child_uri_to_child_label st)
            (child_to_parent_labels st)
     else ret false);;
  if flagged
  then ret (label_mismatch_errors,
            parent_invalid_errors ++ [parent_invalid_message row])
  else if oncotree_code row =? "TISSUE"
  then
    if has_parent_field row
    then sys_exit 1 TissueHasParent
    else ret (label_mismatch_errors, parent_invalid_errors)
  else ret (label_mismatch_errors, parent_invalid_errors).

(** Lines 390-401. *)
Definition report_validation_errors (csv_file : string)
    (errors : list string * list string) : M unit :=
  let (label_mismatch_errors, parent_invalid_errors) := errors in
  (if nonempty label_mismatch_errors
   then
     print ("ERROR: '" ++ column_name LABEL ++ "' and '"
              ++ column_name PREFERRED_LABEL
              ++ "' columns must be identical.  Mis-matched fields in '"
              ++ csv_file ++ "':");;
     for_each label_mismatch_errors (fun message => print (tab ++ message))
   else ret tt);;
  (if nonempty parent_invalid_errors
   then
     print ("ERROR: Invalid parents found in '" ++ csv_file
              ++ "'.  Either the parent '" ++ column_name PARENT_RESOURCE_URI
              ++ "' or the parent '" ++ column_name PARENT_LABEL
              ++ "' cannot be found in '" ++ csv_file ++ "', or the ('"
              ++ column_name PARENT_RESOURCE_URI ++ "', '"
              ++ column_name PARENT_LABEL
              ++ "') parent pair doesn't match the child  ('"
              ++ column_name RESOURCE_URI ++ "', '" ++ column_name LABEL
              ++ "') child pair.");;
     for_each parent_invalid_errors (fun message => print (tab ++ message))
   else ret tt);;
  if nonempty label_mismatch_errors || nonempty parent_invalid_errors
  then sys_exit 1 ValidationErrors
  else ret tt.

(** Lines 353-371, the first loop over the rows. *)
Definition check_rows (csv_file : string) (rows : list Row)
  : M validation_state :=
  foldM (check_row csv_file) rows initial_validation_state.

Definition validate_csv_file (csv : csv_file) (expected_header : list column)
  : M unit :=
  let actual_header := fieldnames csv in
  let missing_fields :=
    PySet.diff (PySet.of_list (map column_name expected_header))
               (PySet.of_list actual_header) in
  if nonempty missing_fields
  then sys_exit 1 (MissingExpectedFields missing_fields)
  else
    st <- check_rows (path csv) (rows csv);;
    errors <- foldM (check_links st) (rows csv) ([], []);;
    report_validation_errors (path csv) errors.

(** [main], after [get_args]; [internal_id_to_oncocodes] is the table that
    [get_internal_id_to_oncocodes] downloads. *)
Definition main (h : hash_order) (original_file modified_file : csv_file)
    (internal_id_to_oncocodes : PyDict.t string) (answer : string) : M unit :=
  validate_csv_file original_file EXPECTED_HEADER;;
  validate_csv_file modified_file EXPECTED_HEADER_MODIFIED_FILE;;
  original_oncotree <- get_oncotree original_file;;
  modified_oncotree <- get_oncotree modified_file;;
  let precursor_id_to_internal_ids := get_all_precursors modified_file in
  let revocation_id_to_internal_ids := get_all_revocations modified_file in
  let original_resource_uri_to_internal_ids :=
    get_resource_uri_to_internal_ids original_file in
  let modified_resource_uri_to_internal_ids :=
    get_resource_uri_to_internal_ids modified_file in
  let oncotree_codes_to_internal_ids :=
    get_oncotree_codes_to_internal_ids modified_file in
  confirm_changes h original_oncotree modified_oncotree
    precursor_id_to_internal_ids revocation_id_to_internal_ids
    original_resource_uri_to_internal_ids modified_resource_uri_to_internal_ids
    internal_id_to_oncocodes oncotree_codes_to_internal_ids answer;;
  output_rdf_file modified_oncotree.

(** ** The downloaded mapping *)

(** The outcome of [get_internal_id_to_oncocodes]: the dict, the exit after
    a response whose status is not 200, or the [IndexError] of [fields[1]]
    or [fields[2]] on a line with too few fields. *)
Inductive fetched (A : Type) :=
| Fetched (a : A)
| FetchExit (code : nat) (status_code : nat)
| IndexError (index : nat).

Arguments Fetched {A} a.
Arguments FetchExit {A} code status_code.
Arguments IndexError {A} index.

(** The characters at which [str.splitlines] ends a line, for code points
    below 256. *)
Definition is_line_boundary (c : ascii) : bool :=
  let n := nat_of_ascii c in
  (((10 <=? n) && (n <=? 13)) || ((28 <=? n) && (n <=? 30)) || (n =? 133))%nat.

(** [s.splitlines()]: a carriage return followed by a line feed ends one
    line; no empty line follows the last boundary. *)
Fixpoint splitlines_from (cur : string) (s : string) : list string :=
  match s with
  | EmptyString => if truthy cur then [cur] else []
  | String c s' =>
      if is_line_boundary c
      then
        match s' with
        | String c' s'' =>
            if ((nat_of_ascii c =? 13) && (nat_of_ascii c' =? 10))%nat
            then cur :: splitlines_from EmptyString s''
            else cur :: splitlines_from EmptyString s'
        | EmptyString => cur :: splitlines_from EmptyString s'
        end
      else splitlines_from (cur ++ String c EmptyString) s'
  end.

Definition splitlines (s : string) : list string :=
  splitlines_from EmptyString s.

(** Lines 409-412, the loop over the lines of the response. *)
Fixpoint read_triples (lines : list string)
    (internal_id_to_oncocodes : PyDict.t string) : fetched (PyDict.t string) :=
  match lines with
  | [] => Fetched internal_id_to_oncocodes
  | row :: rest =>
      match split row with
      | subject :: predicate :: more =>
          if predicate =? "hasCode"
          then match more with
               | object :: _ =>
                   read_triples rest
                     (PyDict.set subject object internal_id_to_oncocodes)
               | [] => IndexError 2
               end
          else read_triples rest internal_id_to_oncocodes
      | _ => IndexError 1
      end
  end.

(** [status_code] and [text] are the fields of the response of
    [requests.get]. *)
Definition get_internal_id_to_oncocodes (status_code : nat) (text : string)
  : fetched (PyDict.t string) :=
  if negb (status_code =? 200)%nat
  then FetchExit 1 status_code
  else read_triples (splitlines text) [].

(** ** Vocabulary of the statements *)

(** The string has whitespace characters only. *)
Fixpoint blank (s : string) : bool :=
  match s with
  | EmptyString => true
  | String c s' => is_space c && blank s'
  end.

(** Every cell of [row] under [fields] is filled. *)
Definition filled (row : Row) (fields : list column) : bool :=
  forallb (fun c => match cell row c with
                    | Some v => truthy v
                    | None => false
                    end) fields.

(** The value of [row] under a key field is not empty and is the value of
    one of the rows [before] it. *)
Definition repeats (field : Row -> string) (before : list Row) (row : Row)
  : bool :=
  negb (field row =? EmptyString) && mem (field row) (map field before).

(** The header of [csv] has every expected column. *)
Definition header_complete (csv : csv_file) (expected_header : list column)
  : bool :=
  forallb (fun c => mem (column_name c) (fieldnames csv)) expected_header.

(** The two dicts keyed by resource URI have the same keys. *)
Definition links_consistent (st : validation_state) : Prop :=
  forall k, PyDict.has k (child_to_parent_resource_uris st)
            = PyDict.has k (child_uri_to_child_label st).

(** Every key of a node map is the internal id of its row. *)
Definition keyed_by_internal_id (d : PyDict.t Row) : Prop :=
  forall k row, PyDict.get k d = Some row -> internal_id row = k.

(** The errors of the precursor and revocation checks. *)
Definition lineage_error (e : error) : Prop :=
  match e with
  | PrecursorStillCurrent _ | RevocationStillCurrent _
  | RevocationIsPrecursor _ | RevokedByNewConcept _ _ => True
  | _ => False
  end.

(** A computation that ends normally or exits with code 1 and an error
    among [P]; in particular it raises no [KeyError]. *)
Definition ok_or_exit {A} (P : error -> Prop) (m : M A) : Prop :=
  match fst m with
  | Ok _ => True
  | Exit c e => c = 1 /\ P e
  | KeyError _ => False
  end.

(** The three ways in which the check of the revocation id [k] fails. *)
Definition revocation_violation
    (original_oncotree modified_oncotree : PyDict.t Row)
    (precursor_index revocation_index : PyDict.t PySet.t) (k : string)
  : Prop :=
  In k (PyDict.keys modified_oncotree)
  \/ In k (PyDict.keys precursor_index)
  \/ exists i, In i (default_get k revocation_index)
               /\ In i (new_internal_ids original_oncotree modified_oncotree).

(** Some precursor id is a live id, or the check of some revocation id
    fails. *)
Definition lineage_violation
    (original_oncotree modified_oncotree : PyDict.t Row)
    (precursor_index revocation_index : PyDict.t PySet.t) : Prop :=
  (exists k, In k (PyDict.keys precursor_index)
             /\ In k (PyDict.keys modified_oncotree))
  \/ (exists k, In k (PyDict.keys revocation_index)
                /\ revocation_violation original_oncotree modified_oncotree
                     precursor_index revocation_index k).

(** The two rows have the same value under every column they share, the
    internal id apart. *)
Definition same_data (t1 t2 : Row) : bool :=
  forallb (fun c =>
             match c with
             | INTERNAL_ID => true
             | _ => match cell t1 c, cell t2 c with
                    | Some v1, Some v2 => v1 =? v2
                    | _, _ => true
                    end
             end) all_columns.

(** The pairs of rows with the same data among the rows stored under
    [pairs], in the order of [pairs]. *)
Definition candidates_among
    (original_oncotree modified_oncotree : PyDict.t Row)
    (pairs : list (string * string)) : list (Row * Row) :=
  flat_map
    (fun pair =>
       match PyDict.get (fst pair) original_oncotree,
             PyDict.get (snd pair) modified_oncotree with
       | Some original_data, Some modified_data =>
           if same_data original_data modified_data
           then [(original_data, modified_data)] else []
       | _, _ => []
       end) pairs.

(** The pairs (removed row, added row) with the same data, in the order in
    which the loop over the pairs meets them. *)
Definition id_change_candidates (h : hash_order)
    (original_oncotree modified_oncotree : PyDict.t Row) : list (Row * Row) :=
  candidates_among original_oncotree modified_oncotree
    (iter_pairs h
       (list_prod (removed_internal_ids original_oncotree modified_oncotree)
                  (new_internal_ids original_oncotree modified_oncotree))).

Definition candidate_line (candidate : Row * Row) : string :=
  change_line (pretty_label_of (fst candidate))
              (pretty_label_of (snd candidate)).

(** The errors about the resource URI of a new or of a retained node. *)
Definition uri_error (e : error) : Prop :=
  match e with
  | NewNodeHasResourceUri _ | ResourceUriMissing _ | ResourceUriChanged _ =>
      True
  | _ => False
  end.

(** Whenever the computation exits, the exit code and the error satisfy
    [Q]. *)
Definition only_exits {A} (Q : nat -> error -> Prop) (m : M A) : Prop :=
  match fst m with
  | Exit c e => Q c e
  | _ => True
  end.

(** Some new id of the modified snapshot has a resource URI. *)
Definition new_with_uri (original_oncotree modified_oncotree : PyDict.t Row)
  : Prop :=
  exists id data,
    In id (new_internal_ids original_oncotree modified_oncotree)
    /\ PyDict.get id modified_oncotree = Some data
    /\ resource_uri data <> EmptyString.

(** Some retained id has a blank resource URI in the original snapshot, or
    a resource URI that differs between the snapshots. *)
Definition retained_uri_blank_or_changed
    (original_oncotree modified_oncotree : PyDict.t Row) : Prop :=
  exists id original_data modified_data,
    In id (in_both_internal_ids original_oncotree modified_oncotree)
    /\ PyDict.get id original_oncotree = Some original_data
    /\ PyDict.get id modified_oncotree = Some modified_data
    /\ (strip (resource_uri original_data) = EmptyString
        \/ resource_uri original_data <> resource_uri modified_data).

(** The first of [fields] under which the cell of [row] is empty. *)
Definition first_empty (row : Row) (fields : list column) : option column :=
  find (fun c => match cell row c with
                 | Some v => negb (truthy v)
                 | None => false
                 end) fields.

(** The rows whose label and preferred label differ. *)
Definition label_mismatches (l : list Row) : list Row :=
  filter (fun row => negb (label row =? preferred_label row)) l.

(** The last row of [l] whose [key] is [k]. *)
Definition last_with (key : Row -> string) (k : string) (l : list Row)
  : option Row :=
  find (fun row => key row =? k) (rev l).

(** The pretty label of the row stored under [id]. *)
Definition pretty_label_in (d : PyDict.t Row) (id : string) : string :=
  match PyDict.get id d with
  | Some data => pretty_label_of data
  | None => EmptyString
  end.

(** The answer is one that [confirm_change] accepts. *)
Definition accepted (answer : string) : bool :=
  mem (lower answer) ["y"; "yes"].

(** The warning of [get_oncotree] for a row. *)
Definition status_warning (row : Row) : string :=
  "WARNING: do not know what to do with node '" ++ pretty_label_of row
    ++ "' which has a status of '" ++ status row
    ++ "', excluding it from the output file".

(** A line of the response on which reading [fields[1]] or [fields[2]]
    fails. *)
Definition short_line (row : string) : bool :=
  match split row with
  | _ :: predicate :: more =>
      (predicate =? "hasCode") && negb (nonempty more)
  | _ => true
  end.

(** The code that the last line of [lines] with subject [subject] and
    predicate hasCode declares. *)
Fixpoint last_code_of (subject : string) (lines : list string)
  : option string :=
  match lines with
  | [] => None
  | row :: rest =>
      match last_code_of subject rest with
      | Some code => Some code
      | None =>
          match split row with
          | s :: predicate :: object :: _ =>
              if (s =? subject) && (predicate =? "hasCode")
              then Some object else None
          | _ => None
          end
      end
  end.

(** The error belongs to the exits with code 1. *)
Definition exits_with_one (e : error) : Prop :=
  match e with
  | NotIntentional => False
  | _ => True
  end.

(** ** Sample snapshots *)

Module Fixtures.

Definition plain_order : hash_order :=
  {| iter_ids := fun l => l;
     iter_ids_perm := @Permutation_refl string;
     iter_pairs := fun l => l;
     iter_pairs_perm := @Permutation_refl (string * string) |}.

Definition reversed_order : hash_order :=
  {| iter_ids := @rev string;
     iter_ids_perm := fun l => Permutation_sym (Permutation_rev l);
     iter_pairs := @rev (string * string);
     iter_pairs_perm := fun l => Permutation_sym (Permutation_rev l) |}.

Definition header : list string := map column_name EXPECTED_HEADER.
Definition header_modified : list string :=
  map column_name EXPECTED_HEADER_MODIFIED_FILE.

(** A published row of the original schema. *)
Definition node (id code name uri parent_uri parent_name : string) : Row :=
  {| resource_uri := uri; label := name;
     scheme_uri := "http://data.mskcc.org/ontologies/oncotree";
     status := "Published"; internal_id := id; color := "Gray";
     main_type := "Other"; oncotree_code := code;
     precursors := EmptyString; preferred_label := name;
     revocations := EmptyString; parent_resource_uri := parent_uri;
     parent_label := parent_name; parent_oncotree_code := None |}.

(** The same row in the modified schema, with its parent code cell. *)
Definition with_parent_code (row : Row) (code : string) : Row :=
  {| resource_uri := resource_uri row; label := label row;
     scheme_uri := scheme_uri row; status := status row;
     internal_id := internal_id row; color := color row;
     main_type := main_type row; oncotree_code := oncotree_code row;
     precursors := precursors row; preferred_label := preferred_label row;
     revocations := revocations row;
     parent_resource_uri := parent_resource_uri row;
     parent_label := parent_label row; parent_oncotree_code := Some code |}.

Definition with_status (row : Row) (s : string) : Row :=
  {| resource_uri := resource_uri row; label := label row;
     scheme_uri := scheme_uri row; status := s;
     internal_id := internal_id row; color := color row;
     main_type := main_type row; oncotree_code := oncotree_code row;
     precursors := precursors row; preferred_label := preferred_label row;
     revocations := revocations row;
     parent_resource_uri := parent_resource_uri row;
     parent_label := parent_label row;
     parent_oncotree_code := parent_oncotree_code row |}.

Definition with_lineage (row : Row) (pre rev : string) : Row :=
  {| resource_uri := resource_uri row; label := label row;
     scheme_uri := scheme_uri row; status := status row;
     internal_id := internal_id row; color := color row;
     main_type := main_type row; oncotree_code := oncotree_code row;
     precursors := pre; preferred_label := preferred_label row;
     revocations := rev;
     parent_resource_uri := parent_resource_uri row;
     parent_label := parent_label row;
     parent_oncotree_code := parent_oncotree_code row |}.

Definition original (rows : list Row) : csv_file :=
  {| path := "original.csv"; fieldnames := header; rows := rows |}.

Definition modified (rows : list Row) : csv_file :=
  {| path := "modified.csv"; fieldnames := header_modified; rows := rows |}.

Definition tissue : Row :=
  node "ONC000001" "TISSUE" "Tissue" "http://data/ONC000001"
       EmptyString EmptyString.
Definition lung : Row :=
  node "ONC000002" "LUNG" "Lung" "http://data/ONC000002"
       "http://data/ONC000001" "Tissue".
Definition skin : Row :=
  node "ONC000003" "SKIN" "Skin" "http://data/ONC000003"
       "http://data/ONC000001" "Tissue".

(** A row whose parent reference matches no row. *)
Definition orphan : Row :=
  node "ONC000004" "BONE" "Bone" "http://data/ONC000004"
       "http://data/ONC000099" "Nowhere".

(** A row whose permanent identifier is also its label, and a child of
    it. *)
Definition self_named : Row :=
  node "ONC000005" "EYE" "Eye" "Eye" "http://data/ONC000001" "Tissue".
Definition self_named_child : Row :=
  node "ONC000006" "UM" "Uveal Melanoma" "http://data/ONC000006"
       "Eye" "Eye".

Definition draft_lung : Row := with_status lung "Draft".

(** A retained row whose permanent identifier is a single space. *)
Definition blank_uri_lung : Row :=
  node "ONC000002" "LUNG" "Lung" " " "http://data/ONC000001" "Tissue".

(** A root row under another internal id. *)
Definition renumbered_tissue : Row :=
  node "ONC000009" "TISSUE" "Tissue" "http://data/ONC000009"
       EmptyString EmptyString.

Definition lung_recoded : Row :=
  node "ONC000002" "LUNG2" "Lung" "http://data/ONC000002"
       "http://data/ONC000001" "Tissue".
Definition skin_recoded : Row :=
  node "ONC000003" "SKIN2" "Skin" "http://data/ONC000003"
       "http://data/ONC000001" "Tissue".

(** Rows that repeat a key field of [lung]. *)
Definition same_uri_as_lung : Row :=
  node "ONC000007" "BRAIN" "Brain" "http://data/ONC000002"
       "http://data/ONC000001" "Tissue".
Definition same_id_as_lung : Row :=
  node "ONC000002" "BRAIN" "Brain" "http://data/ONC000007"
       "http://data/ONC000001" "Tissue".
Definition same_code_as_lung : Row :=
  node "ONC000007" "LUNG" "Brain" "http://data/ONC000007"
       "http://data/ONC000001" "Tissue".

(** Two rows without a permanent identifier yet. *)
Definition unminted_brain : Row :=
  node "ONC000007" "BRAIN" "Brain" EmptyString
       "http://data/ONC000001" "Tissue".
Definition unminted_bowel : Row :=
  node "ONC000008" "BOWEL" "Bowel" EmptyString
       "http://data/ONC000001" "Tissue".

(** A root row with a parent cell filled, and a root row that has only
    the cells required of the root. *)
Definition tissue_with_parent : Row :=
  node "ONC000001" "TISSUE" "Tissue" "http://data/ONC000001"
       EmptyString "Lung".
Definition bare_tissue : Row :=
  {| resource_uri := "http://data/ONC000001"; label := "Tissue";
     scheme_uri := "http://data.mskcc.org/ontologies/oncotree";
     status := "Published"; internal_id := "ONC000001";
     color := EmptyString; main_type := EmptyString;
     oncotree_code := "TISSUE"; precursors := EmptyString;
     preferred_label := "Tissue"; revocations := EmptyString;
     parent_resource_uri := EmptyString; parent_label := EmptyString;
     parent_oncotree_code := None |}.

(** A modified row that names the live row [lung] as its precursor, and one
    that names retired ids only. *)
Definition skin_after_lung : Row :=
  with_lineage (with_parent_code skin EmptyString) "ONC000002" EmptyString.
Definition skin_after_retired : Row :=
  with_lineage (with_parent_code skin EmptyString) "ONC000010 ONC000011"
               "ONC000012".

(** A removed row and an added row that differ in the internal id only,
    and an added row that differs from it in the label as well. *)
Definition retired_bone : Row :=
  node "ONC000020" "BONE" "Bone" EmptyString "http://data/ONC000001" "Tissue".
Definition renumbered_bone : Row :=
  with_parent_code
    (node "ONC000021" "BONE" "Bone" EmptyString "http://data/ONC000001"
          "Tissue") "TISSUE".
Definition renamed_bone : Row :=
  with_parent_code
    (node "ONC000022" "BONE" "Bone, NOS" EmptyString "http://data/ONC000001"
          "Tissue") "TISSUE".

(** A new row that already carries a permanent identifier. *)
Definition minted_bone : Row :=
  with_parent_code
    (node "ONC000021" "BONE" "Bone" "http://data/ONC000021"
          "http://data/ONC000001" "Tissue") "TISSUE".

Definition in_modified (rows : list Row) : list Row :=
  map (fun row => with_parent_code row EmptyString) rows.

(** A row that has no color and repeats the resource URI of [lung]. *)
Definition colorless_copy_of_lung : Row :=
  {| resource_uri := "http://data/ONC000002"; label := "Brain";
     scheme_uri := "http://data.mskcc.org/ontologies/oncotree";
     status := "Published"; internal_id := "ONC000007";
     color := EmptyString; main_type := "Other"; oncotree_code := "BRAIN";
     precursors := EmptyString; preferred_label := "Brain";
     revocations := EmptyString;
     parent_resource_uri := "http://data/ONC000001";
     parent_label := "Tissue"; parent_oncotree_code := None |}.

(** Rows whose label and preferred label differ. *)
Definition mislabelled_lung : Row :=
  {| resource_uri := "http://data/ONC000002"; label := "Lung";
     scheme_uri := "http://data.mskcc.org/ontologies/oncotree";
     status := "Published"; internal_id := "ONC000002";
     color := "Gray"; main_type := "Other"; oncotree_code := "LUNG";
     precursors := EmptyString; preferred_label := "Lungs";
     revocations := EmptyString;
     parent_resource_uri := "http://data/ONC000001";
     parent_label := "Tissue"; parent_oncotree_code := None |}.
Definition mislabelled_skin : Row :=
  {| resource_uri := "http://data/ONC000003"; label := "Skin";
     scheme_uri := "http://data.mskcc.org/ontologies/oncotree";
     status := "Published"; internal_id := "ONC000003";
     color := "Gray"; main_type := "Other"; oncotree_code := "SKIN";
     precursors := EmptyString; preferred_label := "skin";
     revocations := EmptyString;
     parent_resource_uri := "http://data/ONC000001";
     parent_label := "Tissue"; parent_oncotree_code := None |}.

(** A new row without a permanent identifier, placed under [lung]. *)
Definition new_under_lung : Row :=
  with_parent_code
    (node "ONC000030" "NSCLC" "Non-Small Cell Lung Cancer" EmptyString
          "http://data/ONC000002" "Lung") "LUNG".

(** An added row with the data of [retired_bone] under a new internal id,
    placed under [lung] by the parent code column. *)
Definition rehomed_bone : Row :=
  with_parent_code
    (node "ONC000023" "BONE" "Bone" EmptyString "http://data/ONC000001"
          "Tissue") "LUNG".

End Fixtures.

(** * Properties *)

(** ** Strings, sets and dicts *)

Lemma truthy_false_iff (s : string) : truthy s = false <-> s = EmptyString.
Proof. destruct s; simpl; split; congruence. Qed.

Lemma truthy_true_iff (s : string) : truthy s = true <-> s <> EmptyString.
Proof. destruct s; simpl; split; congruence. Qed.

Lemma mem_In (x : string) (l : list string) : mem x l = true <-> In x l.
Proof.
  induction l as [|y l IH]; simpl.
  - split; [discriminate | tauto].
  - rewrite orb_true_iff, IH, String.eqb_eq. split; intros [E|E]; auto.
Qed.

Lemma mem_false_iff (x : string) (l : list string) :
  mem x l = false <-> ~ In x l.
Proof.
  rewrite <- mem_In. destruct (mem x l); split; congruence.
Qed.

Lemma In_insert_sorted (x y : string) (l : list string) :
  In y (insert_sorted x l) <-> y = x \/ In y l.
Proof.
  induction l as [|z l IH]; simpl.
  - split; intros [E|E]; auto.
  - destruct (x <=? z)%string; simpl; [|rewrite IH]; split; intuition auto.
Qed.

Lemma In_sorted (y : string) (l : list string) : In y (sorted l) <-> In y l.
Proof.
  induction l as [|x l IH]; simpl; [tauto|].
  rewrite In_insert_sorted, IH. split; intros [E|E]; auto.
Qed.

Lemma insert_sorted_perm (x : string) (l : list string) :
  Permutation (insert_sorted x l) (x :: l).
Proof.
  induction l as [|y l IH]; simpl; [reflexivity|].
  destruct (x <=? y)%string; [reflexivity|].
  rewrite IH. apply perm_swap.
Qed.

Lemma sorted_perm (l : list string) : Permutation (sorted l) l.
Proof.
  induction l as [|x l IH]; simpl; [reflexivity|].
  rewrite insert_sorted_perm, IH. reflexivity.
Qed.

Lemma insert_sorted_Sorted (x : string) (l : list string) :
  Sorted (fun a b => (a <=? b)%string = true) l ->
  Sorted (fun a b => (a <=? b)%string = true) (insert_sorted x l).
Proof.
  induction l as [|y l IH]; simpl; intros H.
  - repeat constructor.
  - destruct (x <=? y)%string eqn:E.
    + constructor; [exact H | constructor; exact E].
    + inversion H as [|? ? Hl Hhd]; subst. constructor; [apply IH, Hl|].
      assert (Hyx : (y <=? x)%string = true).
      { destruct (String.leb_total x y); congruence. }
      destruct l as [|z l]; simpl.
      * constructor. exact Hyx.
      * destruct (x <=? z)%string; constructor;
          [exact Hyx | inversion Hhd; assumption].
Qed.

(** [sorted] lists its argument in ascending order. *)
Lemma sorted_Sorted (l : list string) :
  Sorted (fun a b => (a <=? b)%string = true) (sorted l).
Proof.
  induction l as [|x l IH]; simpl; [constructor|].
  apply insert_sorted_Sorted, IH.
Qed.

Lemma rstrip_empty_iff (s : string) :
  rstrip s = EmptyString <-> blank s = true.
Proof.
  induction s as [|c s IH]; simpl; [tauto|].
  rewrite andb_true_iff, <- IH.
  destruct (rstrip s); destruct (is_space c); split;
    try tauto; try discriminate; intros [? ?]; discriminate.
Qed.

Lemma blank_lstrip (s : string) : blank (lstrip s) = blank s.
Proof.
  induction s as [|c s IH]; simpl; [reflexivity|].
  destruct (is_space c) eqn:E; simpl; [exact IH | rewrite E; reflexivity].
Qed.

(** [s.strip()] is empty exactly when [s] has whitespace only. *)
Lemma strip_empty_iff (s : string) :
  strip s = EmptyString <-> blank s = true.
Proof. unfold strip. rewrite rstrip_empty_iff, blank_lstrip. tauto. Qed.

Lemma In_of_list (x : string) (l : list string) :
  In x (PySet.of_list l) <-> In x l.
Proof.
  induction l as [|y l IH]; simpl; [tauto|].
  destruct (mem y l) eqn:E; simpl; rewrite IH; [|tauto].
  apply mem_In in E. split; [auto | intros [->|H]; auto].
Qed.

Lemma In_diff (x : string) (a b : PySet.t) :
  In x (PySet.diff a b) <-> In x a /\ ~ In x b.
Proof.
  unfold PySet.diff. rewrite filter_In, negb_true_iff, mem_false_iff. tauto.
Qed.

Lemma In_inter (x : string) (a b : PySet.t) :
  In x (PySet.inter a b) <-> In x a /\ In x b.
Proof. unfold PySet.inter. rewrite filter_In, mem_In. tauto. Qed.

Lemma In_add (x y : string) (s : PySet.t) :
  In x (PySet.add y s) <-> x = y \/ In x s.
Proof.
  unfold PySet.add. destruct (mem y s) eqn:E.
  - apply mem_In in E. split; [auto | intros [->|H]; auto].
  - rewrite in_app_iff; simpl. intuition auto.
Qed.

Lemma In_iter_ids (h : hash_order) (x : string) (l : list string) :
  In x (iter_ids h l) <-> In x l.
Proof.
  split; apply Permutation_in;
    [apply iter_ids_perm | apply Permutation_sym, iter_ids_perm].
Qed.

Lemma In_iter_pairs (h : hash_order) (p : string * string) l :
  In p (iter_pairs h l) <-> In p l.
Proof.
  split; apply Permutation_in;
    [apply iter_pairs_perm | apply Permutation_sym, iter_pairs_perm].
Qed.

Lemma get_In_keys {V} (k : string) (d : PyDict.t V) :
  PyDict.has k d = true <-> In k (PyDict.keys d).
Proof.
  unfold PyDict.has, PyDict.keys.
  induction d as [|[k' v] d IH]; simpl.
  - split; [discriminate | tauto].
  - destruct (String.eqb_spec k k') as [->|N]; [tauto|].
    rewrite IH. split; [auto | intros [E|E]; [congruence | auto]].
Qed.

Lemma has_get {V} (k : string) (d : PyDict.t V) :
  PyDict.has k d = true -> exists v, PyDict.get k d = Some v.
Proof. unfold PyDict.has. destruct (PyDict.get k d); eauto; discriminate. Qed.

Lemma get_set {V} (k k' : string) (v : V) (d : PyDict.t V) :
  PyDict.get k (PyDict.set k' v d)
  = if k =? k' then Some v else PyDict.get k d.
Proof.
  induction d as [|[k0 v0] d IH]; simpl.
  - reflexivity.
  - destruct (String.eqb_spec k' k0) as [->|N]; simpl.
    + destruct (k =? k0); reflexivity.
    + rewrite IH. destruct (String.eqb_spec k k0) as [->|N'].
      * destruct (String.eqb_spec k0 k'); congruence.
      * reflexivity.
Qed.

Lemma has_set {V} (k k' : string) (v : V) (d : PyDict.t V) :
  PyDict.has k (PyDict.set k' v d) = (k =? k') || PyDict.has k d.
Proof.
  unfold PyDict.has. rewrite get_set. destruct (k =? k'); reflexivity.
Qed.

(** ** Computations *)

Lemma fst_bind {A B} (m : M A) (f : A -> M B) :
  fst (bind m f)
  = match fst m with
    | Ok a => fst (f a)
    | Exit c e => Exit c e
    | KeyError k => KeyError k
    end.
Proof.
  destruct m as [[a|c e|k] out]; simpl; try reflexivity.
  destruct (f a); reflexivity.
Qed.

Lemma snd_bind {A B} (m : M A) (f : A -> M B) :
  snd (bind m f)
  = match fst m with
    | Ok a => snd m ++ snd (f a)
    | _ => snd m
    end.
Proof.
  destruct m as [[a|c e|k] out]; simpl; try reflexivity.
  destruct (f a); reflexivity.
Qed.

Lemma failed_bind_l {A B} (m : M A) (f : A -> M B) :
  failed m -> failed (bind m f).
Proof.
  unfold failed. rewrite fst_bind. destruct (fst m); simpl; tauto.
Qed.

Lemma failed_bind_r {A B} (m : M A) (f : A -> M B) :
  (forall a, failed (f a)) -> failed (bind m f).
Proof.
  unfold failed. intros H. rewrite fst_bind.
  destruct (fst m); simpl; auto. apply H.
Qed.

Lemma foldM_failed {A S} (body : S -> A -> M S) (x : A) (l : list A) :
  In x l -> (forall s, failed (body s x)) ->
  forall s, failed (foldM body l s).
Proof.
  intros Hin Hx. induction l as [|y l IH]; [destruct Hin|].
  intros s. simpl. destruct Hin as [->|Hin].
  - apply failed_bind_l, Hx.
  - apply failed_bind_r. intros a. apply IH, Hin.
Qed.

Lemma foldM_succeeded {A S} (body : S -> A -> M S) (l : list A) :
  (forall x s, In x l -> succeeded (body s x)) ->
  forall s, succeeded (foldM body l s).
Proof.
  induction l as [|y l IH]; intros H s; simpl.
  - exact I.
  - unfold succeeded. rewrite fst_bind.
    pose proof (H y s (or_introl eq_refl)) as Hy. unfold succeeded in Hy.
    destruct (fst (body s y)); try contradiction.
    apply IH. intros x s' Hin. apply H. now right.
Qed.

Lemma foldM_app {A S} (body : S -> A -> M S) (l1 l2 : list A) (s : S) :
  fst (foldM body (l1 ++ l2) s)
  = match fst (foldM body l1 s) with
    | Ok s' => fst (foldM body l2 s')
    | Exit c e => Exit c e
    | KeyError k => KeyError k
    end.
Proof.
  revert s. induction l1 as [|y l1 IH]; intros s; simpl; [reflexivity|].
  rewrite !fst_bind. destruct (fst (body s y)); auto.
Qed.

(** ** Parent resolution *)

(** C10: a non-empty parent code is resolved through the code map alone and
    is fatal when the map lacks it; with no parent code an empty parent URI
    is fatal; otherwise the parent is looked up in the URI map. *)
Theorem C10_parent_resolution_precedence :
  forall (child uri : string) (code : option string)
         (codes uris : PyDict.t string),
    (forall c, code = Some c -> c <> EmptyString ->
       get_parent_internal_id child uri code codes uris
       = match PyDict.get c codes with
         | Some id => (Ok id, [])
         | None => (Exit 1 (ParentCodeNotFound c), [])
         end)
    /\ (code = None \/ code = Some EmptyString -> uri = EmptyString ->
        get_parent_internal_id child uri code codes uris
        = (Exit 1 (ParentReferenceMissing child), []))
    /\ (code = None \/ code = Some EmptyString -> uri <> EmptyString ->
        get_parent_internal_id child uri code codes uris = lookup uri uris).
Proof.
  intros child uri code codes uris. repeat split.
  - intros c -> Hc. unfold get_parent_internal_id.
    apply truthy_true_iff in Hc. rewrite Hc.
    unfold PyDict.has, lookup. destruct (PyDict.get c codes); reflexivity.
  - intros Hcode ->. unfold get_parent_internal_id.
    destruct Hcode as [-> | ->]; reflexivity.
  - intros Hcode Huri. unfold get_parent_internal_id.
    apply truthy_true_iff in Huri.
    destruct Hcode as [-> | ->]; simpl; rewrite Huri; reflexivity.
Qed.

Lemma C10_parent_resolution_precedence_witness :
  get_parent_internal_id "ONC000002" "http://data/ONC000009" (Some "TISSUE")
    [("TISSUE", "ONC000001")] [("http://data/ONC000009", "ONC000009")]
  = (Ok "ONC000001", [])
  /\ get_parent_internal_id "ONC000002" EmptyString (Some EmptyString)
       [("TISSUE", "ONC000001")] [("http://data/ONC000001", "ONC000001")]
     = (Exit 1 (ParentReferenceMissing "ONC000002"), [])
  /\ get_parent_internal_id "ONC000002" "http://data/ONC000001" None
       [("TISSUE", "ONC000001")] [("http://data/ONC000001", "ONC000001")]
     = (Ok "ONC000001", []).
Proof.
  split; [|split].
  - apply (proj1 (C10_parent_resolution_precedence
                    "ONC000002" "http://data/ONC000009" (Some "TISSUE")
                    [("TISSUE", "ONC000001")]
                    [("http://data/ONC000009", "ONC000009")])
             "TISSUE" eq_refl).
    discriminate.
  - apply (proj1 (proj2 (C10_parent_resolution_precedence
                    "ONC000002" EmptyString (Some EmptyString)
                    [("TISSUE", "ONC000001")]
                    [("http://data/ONC000001", "ONC000001")]))).
    + right; reflexivity.
    + reflexivity.
  - apply (proj2 (proj2 (C10_parent_resolution_precedence
                    "ONC000002" "http://data/ONC000001" None
                    [("TISSUE", "ONC000001")]
                    [("http://data/ONC000001", "ONC000001")]))).
    + left; reflexivity.
    + discriminate.
Defined.

(** ** Validation of one snapshot *)

Lemma foldM_silent {A S} (body : S -> A -> M S) (l : list A) :
  (forall s x, snd (body s x) = []) -> forall s, snd (foldM body l s) = [].
Proof.
  intros H. induction l as [|y l IH]; intros s; simpl; [reflexivity|].
  rewrite snd_bind, H. destruct (fst (body s y)); simpl; auto.
Qed.

Lemma field_is_required_silent field name id p :
  snd (field_is_required field name id p) = [].
Proof. unfold field_is_required. destruct (truthy field); reflexivity. Qed.

Lemma field_is_unique_silent field name set id p :
  snd (field_is_unique field name set id p) = [].
Proof.
  unfold field_is_unique.
  destruct (negb (field =? EmptyString) && mem field set); reflexivity.
Qed.

Lemma check_required_fields_silent p row :
  snd (check_required_fields p row) = [].
Proof.
  unfold check_required_fields, for_each. apply foldM_silent.
  intros _ c. rewrite snd_bind. unfold row_get.
  destruct (cell row c); simpl; [apply field_is_required_silent | reflexivity].
Qed.

Lemma check_row_silent p st row : snd (check_row p st row) = [].
Proof.
  unfold check_row. rewrite snd_bind, check_required_fields_silent.
  destruct (fst (check_required_fields p row)); [|reflexivity..].
  repeat (rewrite snd_bind, field_is_unique_silent;
          match goal with
          | |- context [fst ?m] => destruct (fst m); [|reflexivity..]
          end).
  reflexivity.
Qed.

Lemma check_rows_silent p l st : snd (foldM (check_row p) l st) = [].
Proof. apply foldM_silent. intros; apply check_row_silent. Qed.

Lemma pair_eta {A B} (m : A * B) : m = (fst m, snd m).
Proof. destruct m; reflexivity. Qed.

Lemma check_required_fields_filled p row :
  filled row (required_fields_of row) = true ->
  fst (check_required_fields p row) = Ok tt.
Proof.
  unfold check_required_fields, for_each, filled.
  induction (required_fields_of row) as [|c l IH]; simpl; [reflexivity|].
  rewrite andb_true_iff. intros [Hc Hl]. rewrite !fst_bind.
  unfold row_get. destruct (cell row c) as [v|]; [|discriminate]. simpl.
  unfold field_is_required. rewrite Hc. simpl. auto.
Qed.

Lemma check_required_fields_empty p row :
  filled row (required_fields_of row) = false ->
  failed (check_required_fields p row).
Proof.
  unfold check_required_fields, for_each, filled.
  induction (required_fields_of row) as [|c l IH]; simpl; [discriminate|].
  rewrite andb_false_iff. intros H. unfold failed. rewrite !fst_bind.
  unfold row_get. destruct (cell row c) as [v|]; simpl; [|exact I].
  unfold field_is_required. destruct (truthy v); simpl; [|exact I].
  destruct H as [H|H]; [discriminate|]. apply IH, H.
Qed.

(** The first duplicate check that fires on a row, in the order of the
    three calls. *)
Lemma check_row_filled p st row :
  filled row (required_fields_of row) = true ->
  fst (check_row p st row)
  = if negb (resource_uri row =? EmptyString)
       && mem (resource_uri row) (resource_uri_set st)
    then Exit 1 (NotUnique (column_name RESOURCE_URI) (resource_uri row))
    else if negb (internal_id row =? EmptyString)
            && mem (internal_id row) (internal_id_set st)
    then Exit 1 (NotUnique (column_name INTERNAL_ID) (internal_id row))
    else if negb (oncotree_code row =? EmptyString)
            && mem (oncotree_code row) (oncotree_code_set st)
    then Exit 1 (NotUnique (column_name ONCOTREE_CODE) (oncotree_code row))
    else Ok (add_key_fields (save_relationships st row) row).
Proof.
  intros H. unfold check_row. rewrite fst_bind.
  rewrite (check_required_fields_filled p row H).
  unfold field_is_unique. simpl resource_uri_set. simpl internal_id_set.
  simpl oncotree_code_set.
  rewrite fst_bind.
  destruct (negb (resource_uri row =? EmptyString)
            && mem (resource_uri row) (resource_uri_set st)); [reflexivity|].
  simpl fst. cbv iota. rewrite fst_bind.
  destruct (negb (internal_id row =? EmptyString)
            && mem (internal_id row) (internal_id_set st)); [reflexivity|].
  simpl fst. cbv iota. rewrite fst_bind.
  destruct (negb (oncotree_code row =? EmptyString)
            && mem (oncotree_code row) (oncotree_code_set st)); reflexivity.
Qed.

Lemma check_row_ok p st row st' :
  fst (check_row p st row) = Ok st' ->
  filled row (required_fields_of row) = true
  /\ st' = add_key_fields (save_relationships st row) row.
Proof.
  intros H.
  destruct (filled row (required_fields_of row)) eqn:F.
  - split; [reflexivity|]. rewrite (check_row_filled p st row F) in H.
    repeat match type of H with
           | (if ?b then _ else _) = _ => destruct b; [discriminate|]
           end.
    congruence.
  - exfalso. pose proof (check_required_fields_empty p row F) as Hf.
    unfold check_row in H. rewrite fst_bind in H. unfold failed in Hf.
    destruct (fst (check_required_fields p row)); [contradiction|discriminate..].
Qed.

(** What the first loop has recorded when it reaches the end of [l]. *)
Lemma check_rows_recorded p l : forall st0 st,
  fst (foldM (check_row p) l st0) = Ok st ->
  (forall x, In x (resource_uri_set st)
             <-> In x (resource_uri_set st0) \/ In x (map resource_uri l))
  /\ (forall x, In x (internal_id_set st)
                <-> In x (internal_id_set st0) \/ In x (map internal_id l))
  /\ (forall x, In x (oncotree_code_set st)
                <-> In x (oncotree_code_set st0) \/ In x (map oncotree_code l))
  /\ ((forall k, PyDict.has k (child_to_parent_resource_uris st0)
                 = PyDict.has k (child_uri_to_child_label st0)) ->
      forall k, PyDict.has k (child_to_parent_resource_uris st)
                = PyDict.has k (child_uri_to_child_label st)).
Proof.
  induction l as [|row l IH]; intros st0 st; simpl.
  - intros [= <-]. split; [|split; [|split]]; intros; try tauto; auto.
  - rewrite fst_bind.
    destruct (fst (check_row p st0 row)) as [st1|c e|k] eqn:E;
      [|discriminate..].
    intros H. apply check_row_ok in E as [_ ->].
    destruct (IH _ _ H) as (Hu & Hi & Hc & Hd). clear IH H.
    split; [|split; [|split]].
    + intros x. rewrite Hu. simpl. rewrite In_add. intuition auto.
    + intros x. rewrite Hi. simpl. rewrite In_add. intuition auto.
    + intros x. rewrite Hc. simpl. rewrite In_add. intuition auto.
    + intros Hk. apply Hd. intros k. simpl. rewrite !has_set, Hk.
      reflexivity.
Qed.

Lemma mem_ext (x : string) (a b : list string) :
  (forall y, In y a <-> In y b) -> mem x a = mem x b.
Proof.
  intros H. destruct (mem x b) eqn:E.
  - apply mem_In, H, mem_In, E.
  - apply mem_false_iff. intros Hin. apply H, mem_In in Hin. congruence.
Qed.

Lemma header_complete_no_missing csv expected_header :
  header_complete csv expected_header = true ->
  PySet.diff (PySet.of_list (map column_name expected_header))
             (PySet.of_list (fieldnames csv)) = [].
Proof.
  unfold header_complete, PySet.diff. rewrite forallb_forall. intros H.
  destruct (filter _ _) as [|x l] eqn:E; [reflexivity|].
  assert (Hx : In x (x :: l)) by (left; reflexivity).
  rewrite <- E in Hx. apply filter_In in Hx as [Hx Hn].
  apply In_of_list, in_map_iff in Hx as (c & <- & Hc).
  apply negb_true_iff, mem_false_iff in Hn.
  exfalso. apply Hn, In_of_list, mem_In, H, Hc.
Qed.

Lemma validate_csv_file_complete csv expected_header :
  header_complete csv expected_header = true ->
  validate_csv_file csv expected_header
  = (st <- check_rows (path csv) (rows csv);;
     errors <- foldM (check_links st) (rows csv) ([], []);;
     report_validation_errors (path csv) errors).
Proof.
  intros H. unfold validate_csv_file.
  rewrite (header_complete_no_missing _ _ H). reflexivity.
Qed.

Lemma check_rows_seen p before st (field : Row -> string)
      (set : validation_state -> PySet.t) row :
  fst (check_rows p before) = Ok st ->
  (forall x, In x (set st) <-> In x [] \/ In x (map field before)) ->
  negb (field row =? EmptyString) && mem (field row) (set st)
  = repeats field before row.
Proof.
  intros _ H. unfold repeats. f_equal. apply mem_ext. intros y.
  rewrite H. simpl. tauto.
Qed.

Lemma validate_stops_in_first_loop csv expected_header c e :
  header_complete csv expected_header = true ->
  fst (check_rows (path csv) (rows csv)) = Exit c e ->
  validate_csv_file csv expected_header = (Exit c e, []).
Proof.
  intros Hh H. rewrite (validate_csv_file_complete _ _ Hh).
  rewrite (pair_eta (bind _ _)), fst_bind, snd_bind, H.
  unfold check_rows. rewrite check_rows_silent. reflexivity.
Qed.

(** C8: the first row that repeats a non-empty resource URI, internal id or
    oncotree code of an earlier row ends the validation at once with the
    uniqueness error, whatever rows follow; a row that repeats none, or only
    empty values, passes the uniqueness checks. *)
Theorem C8_duplicate_key_field_is_fail_fast :
  forall (csv : csv_file) (expected_header : list column)
         (before : list Row) (row : Row) (after : list Row)
         (st : validation_state),
    header_complete csv expected_header = true ->
    rows csv = before ++ row :: after ->
    fst (check_rows (path csv) before) = Ok st ->
    filled row (required_fields_of row) = true ->
    (repeats resource_uri before row = true ->
     validate_csv_file csv expected_header
     = (Exit 1 (NotUnique (column_name RESOURCE_URI) (resource_uri row)), []))
    /\ (repeats resource_uri before row = false ->
        repeats internal_id before row = true ->
        validate_csv_file csv expected_header
        = (Exit 1 (NotUnique (column_name INTERNAL_ID) (internal_id row)), []))
    /\ (repeats resource_uri before row = false ->
        repeats internal_id before row = false ->
        repeats oncotree_code before row = true ->
        validate_csv_file csv expected_header
        = (Exit 1 (NotUnique (column_name ONCOTREE_CODE) (oncotree_code row)),
           []))
    /\ (repeats resource_uri before row = false ->
        repeats internal_id before row = false ->
        repeats oncotree_code before row = false ->
        succeeded (check_rows (path csv) (before ++ [row]))).
Proof.
  intros csv expected_header before row after st Hh Hrows Hbefore Hfilled.
  pose proof (check_rows_recorded _ _ _ _ Hbefore) as (Hu & Hi & Hc & _).
  assert (Hstep : forall rest,
             fst (check_rows (path csv) (before ++ row :: rest))
             = match fst (check_row (path csv) st row) with
               | Ok st' => fst (foldM (check_row (path csv)) rest st')
               | Exit c e => Exit c e
               | KeyError k => KeyError k
               end).
  { intros rest. unfold check_rows in *. rewrite foldM_app, Hbefore.
    simpl. rewrite fst_bind. reflexivity. }
  rewrite (check_row_filled _ _ _ Hfilled) in Hstep.
  rewrite (check_rows_seen _ _ _ resource_uri resource_uri_set row Hbefore Hu),
          (check_rows_seen _ _ _ internal_id internal_id_set row Hbefore Hi),
          (check_rows_seen _ _ _ oncotree_code oncotree_code_set row Hbefore Hc)
    in Hstep.
  split; [|split; [|split]].
  - intros R1. apply validate_stops_in_first_loop; [exact Hh|].
    rewrite Hrows, Hstep, R1. reflexivity.
  - intros R1 R2. apply validate_stops_in_first_loop; [exact Hh|].
    rewrite Hrows, Hstep, R1, R2. reflexivity.
  - intros R1 R2 R3. apply validate_stops_in_first_loop; [exact Hh|].
    rewrite Hrows, Hstep, R1, R2, R3. reflexivity.
  - intros R1 R2 R3. unfold succeeded.
    rewrite Hstep, R1, R2, R3. exact I.
Qed.

Lemma C8_duplicate_key_field_is_fail_fast_witness :
  validate_csv_file
    (Fixtures.original
       [Fixtures.tissue; Fixtures.lung; Fixtures.same_uri_as_lung;
        Fixtures.skin]) EXPECTED_HEADER
  = (Exit 1 (NotUnique "Resource URI" "http://data/ONC000002"), [])
  /\ validate_csv_file
       (Fixtures.original
          [Fixtures.tissue; Fixtures.lung; Fixtures.same_id_as_lung;
           Fixtures.skin]) EXPECTED_HEADER
     = (Exit 1 (NotUnique "clinicalCasesSubset (OncoTree Tumor Type)"
                  "ONC000002"), [])
  /\ validate_csv_file
       (Fixtures.original
          [Fixtures.tissue; Fixtures.lung; Fixtures.same_code_as_lung;
           Fixtures.skin]) EXPECTED_HEADER
     = (Exit 1 (NotUnique "notation (SKOS)" "LUNG"), [])
  /\ succeeded
       (check_rows "original.csv"
          ([Fixtures.tissue; Fixtures.unminted_brain]
             ++ [Fixtures.unminted_bowel])).
Proof.
  split; [|split; [|split]].
  - eapply (C8_duplicate_key_field_is_fail_fast
              (Fixtures.original
                 [Fixtures.tissue; Fixtures.lung; Fixtures.same_uri_as_lung;
                  Fixtures.skin]) EXPECTED_HEADER
              [Fixtures.tissue; Fixtures.lung] Fixtures.same_uri_as_lung
              [Fixtures.skin]); vm_compute; reflexivity.
  - eapply (C8_duplicate_key_field_is_fail_fast
              (Fixtures.original
                 [Fixtures.tissue; Fixtures.lung; Fixtures.same_id_as_lung;
                  Fixtures.skin]) EXPECTED_HEADER
              [Fixtures.tissue; Fixtures.lung] Fixtures.same_id_as_lung
              [Fixtures.skin]); vm_compute; reflexivity.
  - eapply (C8_duplicate_key_field_is_fail_fast
              (Fixtures.original
                 [Fixtures.tissue; Fixtures.lung; Fixtures.same_code_as_lung;
                  Fixtures.skin]) EXPECTED_HEADER
              [Fixtures.tissue; Fixtures.lung] Fixtures.same_code_as_lung
              [Fixtures.skin]); vm_compute; reflexivity.
  - eapply (C8_duplicate_key_field_is_fail_fast
              (Fixtures.original
                 [Fixtures.tissue; Fixtures.unminted_brain;
                  Fixtures.unminted_bowel]) EXPECTED_HEADER
              [Fixtures.tissue; Fixtures.unminted_brain]
              Fixtures.unminted_bowel []); vm_compute; reflexivity.
Defined.

Lemma check_rows_links_consistent p l st :
  fst (check_rows p l) = Ok st -> links_consistent st.
Proof.
  intros H. apply check_rows_recorded in H as (_ & _ & _ & H).
  intros k. apply H. reflexivity.
Qed.

Lemma parent_check_total uri name st :
  links_consistent st ->
  exists b,
    parent_resource_uri_and_label_are_valid uri name
      (child_to_parent_resource_uris st) (child_uri_to_child_label st)
      (child_to_parent_labels st) = (Ok b, []).
Proof.
  intros Hst. unfold parent_resource_uri_and_label_are_valid.
  destruct (PyDict.has name (child_to_parent_labels st));
    [|exists false; reflexivity].
  destruct (PyDict.has name (child_to_parent_resource_uris st)) eqn:E;
    [|exists false; reflexivity].
  rewrite Hst in E. apply has_get in E as [v E].
  unfold lookup. rewrite E. simpl. eexists; reflexivity.
Qed.

Lemma check_links_tissue st errors row :
  oncotree_code row = "TISSUE" ->
  check_links st errors row
  = if has_parent_field row
    then (Exit 1 TissueHasParent, [])
    else (Ok (if negb (label row =? preferred_label row)
              then fst errors ++ [label_mismatch_message row]
              else fst errors, snd errors), []).
Proof.
  intros H. unfold check_links. destruct errors as [lm pi].
  rewrite H. simpl. destruct (has_parent_field row); reflexivity.
Qed.

Lemma check_links_other st errors row :
  links_consistent st ->
  (oncotree_code row =? "TISSUE") = false ->
  exists errors', check_links st errors row = (Ok errors', []).
Proof.
  intros Hst H. unfold check_links. destruct errors as [lm pi].
  rewrite H. simpl negb. cbv iota.
  destruct (parent_check_total (parent_resource_uri row) (parent_label row)
              st Hst) as [b ->].
  simpl. destruct b; eexists; reflexivity.
Qed.

Lemma check_links_rejects_root_with_parent st l :
  links_consistent st ->
  (exists row, In row l /\ oncotree_code row = "TISSUE"
               /\ has_parent_field row = true) ->
  forall errors,
    foldM (check_links st) l errors = (Exit 1 TissueHasParent, []).
Proof.
  intros Hst. induction l as [|r l IH]; intros (row & Hin & Hc & Hp) errors.
  - destruct Hin.
  - simpl. destruct (String.eqb_spec (oncotree_code r) "TISSUE") as [Hr|Hr].
    + rewrite (check_links_tissue st errors r Hr).
      destruct (has_parent_field r) eqn:Hpr; [reflexivity|].
      simpl. destruct Hin as [->|Hin]; [congruence|].
      rewrite IH by eauto. reflexivity.
    + apply String.eqb_neq in Hr.
      destruct (check_links_other st errors r Hst Hr) as [errors' ->].
      simpl. destruct Hin as [->|Hin].
      * rewrite Hc in Hr. discriminate.
      * rewrite IH by eauto. reflexivity.
Qed.

(** C9: a root row with a filled parent cell makes the validation fail, and
    once the first loop has passed it ends the run at that point with the
    root error and nothing printed; a root row with empty parent cells is
    held to the root's required fields only, and a snapshot made of such a
    row passes. *)
Theorem C9_root_row_parent_fields :
  forall (csv : csv_file) (expected_header : list column) (row : Row),
    header_complete csv expected_header = true ->
    In row (rows csv) ->
    oncotree_code row = "TISSUE" ->
    (has_parent_field row = true ->
     failed (validate_csv_file csv expected_header)
     /\ (succeeded (check_rows (path csv) (rows csv)) ->
         validate_csv_file csv expected_header
         = (Exit 1 TissueHasParent, [])))
    /\ (has_parent_field row = false ->
        required_fields_of row = TISSUE_NODE_REQUIRED_FIELDS
        /\ (forall st errors, succeeded (check_links st errors row))
        /\ (rows csv = [row] ->
            filled row TISSUE_NODE_REQUIRED_FIELDS = true ->
            label row = preferred_label row ->
            validate_csv_file csv expected_header = (Ok tt, []))).
Proof.
  intros csv expected_header row Hh Hin Hcode.
  assert (Hreq : required_fields_of row = TISSUE_NODE_REQUIRED_FIELDS).
  { unfold required_fields_of. rewrite Hcode. reflexivity. }
  split.
  - intros Hp.
    assert (Hpass : succeeded (check_rows (path csv) (rows csv)) ->
                    validate_csv_file csv expected_header
                    = (Exit 1 TissueHasParent, [])).
    { unfold succeeded. intros Hok.
      destruct (fst (check_rows (path csv) (rows csv))) as [st| |] eqn:E;
        try contradiction.
      rewrite (validate_csv_file_complete _ _ Hh).
      rewrite (pair_eta (check_rows _ _)), E. unfold check_rows.
      rewrite check_rows_silent.
      unfold bind at 1.
      rewrite (check_links_rejects_root_with_parent st (rows csv)
                 (check_rows_links_consistent _ _ _ E)) by eauto.
      reflexivity. }
    split; [|exact Hpass].
    destruct (fst (check_rows (path csv) (rows csv))) as [st| |] eqn:E.
    + rewrite Hpass; [exact I|]. unfold succeeded. rewrite E. exact I.
    + rewrite (validate_csv_file_complete _ _ Hh).
      apply failed_bind_l. unfold failed. rewrite E. exact I.
    + rewrite (validate_csv_file_complete _ _ Hh).
      apply failed_bind_l. unfold failed. rewrite E. exact I.
  - intros Hp. split; [exact Hreq|]. split.
    + intros st errors. rewrite (check_links_tissue st errors row Hcode), Hp.
      exact I.
    + intros Hrows Hfilled Hlabel.
      rewrite (validate_csv_file_complete _ _ Hh), Hrows.
      rewrite <- Hreq in Hfilled.
      assert (E : check_rows (path csv) [row]
                  = (Ok (add_key_fields
                           (save_relationships initial_validation_state row)
                           row), [])).
      { rewrite (pair_eta (check_rows _ _)). unfold check_rows.
        rewrite check_rows_silent. simpl. rewrite fst_bind.
        rewrite (check_row_filled _ _ _ Hfilled). simpl.
        rewrite !andb_false_r. reflexivity. }
      rewrite E. unfold bind at 1. cbn [foldM].
      rewrite (check_links_tissue _ _ _ Hcode), Hp, Hlabel, String.eqb_refl.
      reflexivity.
Qed.

Lemma C9_root_row_parent_fields_witness :
  (failed (validate_csv_file
             (Fixtures.original [Fixtures.tissue_with_parent; Fixtures.lung])
             EXPECTED_HEADER)
   /\ validate_csv_file
        (Fixtures.original [Fixtures.tissue_with_parent; Fixtures.lung])
        EXPECTED_HEADER
      = (Exit 1 TissueHasParent, []))
  /\ validate_csv_file (Fixtures.original [Fixtures.bare_tissue])
       EXPECTED_HEADER
     = (Ok tt, []).
Proof.
  split.
  - pose proof (proj1 (C9_root_row_parent_fields
                   (Fixtures.original
                      [Fixtures.tissue_with_parent; Fixtures.lung])
                   EXPECTED_HEADER Fixtures.tissue_with_parent
                   eq_refl (or_introl eq_refl) eq_refl) eq_refl) as [H1 H2].
    split; [exact H1 | apply H2; vm_compute; exact I].
  - apply (proj2 (C9_root_row_parent_fields
                    (Fixtures.original [Fixtures.bare_tissue])
                    EXPECTED_HEADER Fixtures.bare_tissue
                    eq_refl (or_introl eq_refl) eq_refl) eq_refl);
      reflexivity.
Defined.

(** C1: evaluation of the parent-link check. The check never reads the
    parent URI. In the snapshot of [tissue], [lung] and [orphan] no row
    carries the parent pair that [orphan] declares, yet nothing is
    accumulated and the validation passes. In the snapshot of [tissue],
    [self_named] and [self_named_child] the parent pair of the child is the
    pair of [self_named], yet the child is reported as an invalid parent and
    the validation fails. *)
Theorem C1_parent_link_check_evaluated :
  (forall uri uri' name a b c,
      parent_resource_uri_and_label_are_valid uri name a b c
      = parent_resource_uri_and_label_are_valid uri' name a b c)
  /\ (forall row,
         In row [Fixtures.tissue; Fixtures.lung; Fixtures.orphan] ->
         (resource_uri row, label row)
         <> (parent_resource_uri Fixtures.orphan,
             parent_label Fixtures.orphan))
  /\ validate_csv_file
       (Fixtures.original [Fixtures.tissue; Fixtures.lung; Fixtures.orphan])
       EXPECTED_HEADER
     = (Ok tt, [])
  /\ (resource_uri Fixtures.self_named, label Fixtures.self_named)
     = (parent_resource_uri Fixtures.self_named_child,
        parent_label Fixtures.self_named_child)
  /\ validate_csv_file
       (Fixtures.original
          [Fixtures.tissue; Fixtures.self_named; Fixtures.self_named_child])
       EXPECTED_HEADER
     = (Exit 1 ValidationErrors,
        ["ERROR: Invalid parents found in 'original.csv'.  Either the parent 'has broader (SKOS) URI' or the parent 'has broader (SKOS)' cannot be found in 'original.csv', or the ('has broader (SKOS) URI', 'has broader (SKOS)') parent pair doesn't match the child  ('Resource URI', 'Primary Concept') child pair.";
         (tab ++ "ONC000006: URI 'Eye' and label 'Eye'")%string]).
Proof.
  split; [|split; [|split; [|split]]].
  - reflexivity.
  - intros row [<-|[<-|[<-|[]]]]; discriminate.
  - vm_compute. reflexivity.
  - reflexivity.
  - vm_compute. reflexivity.
Qed.

(** ** Loading a snapshot *)

Lemma load_row_ok (d : PyDict.t Row) (row : Row) :
  exists out, load_row d row = (Ok (PyDict.set (internal_id row) row d), out).
Proof.
  unfold load_row. destruct (negb (status row =? "Published"));
    eexists; reflexivity.
Qed.

Lemma keyed_set (d : PyDict.t Row) (row : Row) :
  keyed_by_internal_id d ->
  keyed_by_internal_id (PyDict.set (internal_id row) row d).
Proof.
  intros H k r. rewrite get_set.
  destruct (String.eqb_spec k (internal_id row)) as [->|N];
    [intros [= <-]; reflexivity | apply H].
Qed.

Lemma In_keys_set {V} (k k' : string) (v : V) (d : PyDict.t V) :
  In k (PyDict.keys (PyDict.set k' v d)) <-> k = k' \/ In k (PyDict.keys d).
Proof.
  rewrite <- !get_In_keys, has_set, orb_true_iff, String.eqb_eq. tauto.
Qed.

Lemma load_rows_ok (l : list Row) : forall d0,
  exists d out,
    foldM load_row l d0 = (Ok d, out)
    /\ (forall k, In k (PyDict.keys d)
                  <-> In k (PyDict.keys d0) \/ In k (map internal_id l))
    /\ (keyed_by_internal_id d0 -> keyed_by_internal_id d).
Proof.
  induction l as [|r l IH]; intros d0.
  - exists d0, []. simpl. split; [reflexivity|]. split; [tauto|auto].
  - destruct (load_row_ok d0 r) as [out1 E1].
    destruct (IH (PyDict.set (internal_id r) r d0)) as (d & out & E & Hk & Hi).
    exists d, (out1 ++ out). cbn [foldM]. rewrite E1. unfold bind.
    rewrite E. split; [reflexivity|]. split.
    + intros k. rewrite Hk, In_keys_set. simpl. intuition auto.
    + intros H0. apply Hi, keyed_set, H0.
Qed.

(** Loading never fails; the dict has a key for every row, whatever its
    status, and each key maps to a row with that internal id. *)
Lemma get_oncotree_total (csv : csv_file) :
  exists d out,
    get_oncotree csv = (Ok d, out)
    /\ (forall k, In k (PyDict.keys d) <-> In k (map internal_id (rows csv)))
    /\ keyed_by_internal_id d.
Proof.
  destruct (load_rows_ok (rows csv) []) as (d & out & E & Hk & Hi).
  exists d, out. split; [exact E|]. split.
  - intros k. rewrite Hk. simpl. tauto.
  - apply Hi. intros k row. discriminate.
Qed.

(** C2: evaluation of the loader on a snapshot with a row whose status is
    Draft: the warning is printed and the row is stored in the node map all
    the same. *)
Theorem C2_unpublished_row_is_kept :
  get_oncotree (Fixtures.original [Fixtures.tissue; Fixtures.draft_lung])
  = (Ok [("ONC000001", Fixtures.tissue); ("ONC000002", Fixtures.draft_lung)],
     ["WARNING: do not know what to do with node 'ONC000002: Lung (LUNG)' which has a status of 'Draft', excluding it from the output file"]).
Proof. vm_compute. reflexivity. Qed.

(** ** Outcomes of loops *)

Lemma succeeded_bind {A B} (m : M A) (f : A -> M B) :
  succeeded m -> (forall a, succeeded (f a)) -> succeeded (bind m f).
Proof.
  unfold succeeded. intros Hm Hf. rewrite fst_bind.
  destruct (fst m); try contradiction. apply Hf.
Qed.

Lemma ok_or_exit_bind {A B} (P : error -> Prop) (m : M A) (f : A -> M B) :
  ok_or_exit P m -> (forall a, ok_or_exit P (f a)) -> ok_or_exit P (bind m f).
Proof.
  unfold ok_or_exit. intros Hm Hf. rewrite fst_bind.
  destruct (fst m); try contradiction; [apply Hf | exact Hm].
Qed.

Lemma ok_or_exit_foldM {A S} (P : error -> Prop) (body : S -> A -> M S)
      (l : list A) :
  (forall s x, In x l -> ok_or_exit P (body s x)) ->
  forall s, ok_or_exit P (foldM body l s).
Proof.
  induction l as [|y l IH]; intros H s; simpl.
  - exact I.
  - apply ok_or_exit_bind; [apply H; now left|].
    intros a. apply IH. intros s' x Hin. apply H. now right.
Qed.

Lemma ok_or_exit_failed {A} (P : error -> Prop) (m : M A) :
  ok_or_exit P m -> failed m -> exists e, fst m = Exit 1 e /\ P e.
Proof.
  unfold ok_or_exit, failed. destruct (fst m) as [a|c e|k]; try tauto.
  intros [-> He] _. eauto.
Qed.

Lemma ok_or_exit_succeeded {A} (P : error -> Prop) (m : M A) :
  succeeded m -> ok_or_exit P m.
Proof. unfold ok_or_exit, succeeded. destruct (fst m); tauto. Qed.

Lemma lookup_present {V} (k : string) (d : PyDict.t V) :
  In k (PyDict.keys d) -> exists v, lookup k d = (Ok v, []).
Proof.
  intros H. apply get_In_keys, has_get in H as [v H].
  exists v. unfold lookup. rewrite H. reflexivity.
Qed.

Lemma nonempty_In {A} (x : A) (l : list A) : In x l -> nonempty l = true.
Proof. destruct l; [intros [] | reflexivity]. Qed.

Lemma nonempty_keys {V} (k : string) (d : PyDict.t V) :
  In k (PyDict.keys d) -> nonempty d = true.
Proof. destruct d; [intros [] | reflexivity]. Qed.

(** ** The precursor and revocation indexes *)

Lemma default_get_add (k k' x : string) (d : PyDict.t PySet.t) :
  default_get k (default_add k' x d)
  = if k =? k' then PySet.add x (default_get k' d) else default_get k d.
Proof.
  unfold default_add, default_get at 1. rewrite get_set.
  destruct (k =? k'); reflexivity.
Qed.

Lemma declared_by_row (id : string) (ids : list string) :
  forall d k i,
    In i (default_get k
            (fold_left (fun d source_id => default_add source_id id d) ids d))
    -> In i (default_get k d) \/ i = id.
Proof.
  induction ids as [|s ids IH]; intros d k i; simpl; [auto|].
  intros H. apply IH in H as [H|H]; [|auto].
  rewrite default_get_add in H. destruct (String.eqb_spec k s) as [->|N].
  - apply In_add in H as [H|H]; auto.
  - auto.
Qed.

Lemma declared_by_rows (field : Row -> string) (l : list Row) :
  forall d k i,
    In i (default_get k
            (fold_left
               (fun d row =>
                  if truthy (field row)
                  then fold_left
                         (fun d source_id =>
                            default_add source_id (internal_id row) d)
                         (split (field row)) d
                  else d) l d))
    -> In i (default_get k d) \/ In i (map internal_id l).
Proof.
  induction l as [|r l IH]; intros d k i; simpl; [auto|].
  intros H. apply IH in H as [H|H]; [|auto].
  destruct (truthy (field r)); [|auto].
  apply declared_by_row in H as [H|H]; auto.
Qed.

Lemma precursor_successors_are_rows (csv : csv_file) (k i : string) :
  In i (default_get k (get_all_precursors csv)) ->
  In i (map internal_id (rows csv)).
Proof.
  intros H. apply (declared_by_rows precursors) in H as [[]|H]. exact H.
Qed.

Lemma revocation_successors_are_rows (csv : csv_file) (k i : string) :
  In i (default_get k (get_all_revocations csv)) ->
  In i (map internal_id (rows csv)).
Proof.
  intros H. apply (declared_by_rows revocations) in H as [[]|H]. exact H.
Qed.

(** ** The precursor and revocation checks *)

Section Lineage.

Variable h : hash_order.
Variables original_oncotree modified_oncotree : PyDict.t Row.
Variables precursor_index revocation_index : PyDict.t PySet.t.
Variable codes : PyDict.t string.

Hypothesis precursor_successors_live :
  forall k i, In i (default_get k precursor_index) ->
              In i (PyDict.keys modified_oncotree).
Hypothesis revocation_successors_live :
  forall k i, In i (default_get k revocation_index) ->
              In i (PyDict.keys modified_oncotree).

Lemma mem_live (k : string) :
  mem k (modified_internal_id_set modified_oncotree) = true <-> In k (PyDict.keys modified_oncotree).
Proof. unfold modified_internal_id_set. rewrite mem_In, In_of_list. tauto. Qed.

Lemma print_successor_succeeded (source_id source_code i : string) :
  In i (PyDict.keys modified_oncotree) ->
  succeeded (data <- lookup i modified_oncotree;;
             print (lineage_line source_id source_code (pretty_label_of data))).
Proof.
  intros H. destruct (lookup_present i modified_oncotree H) as [v ->].
  exact I.
Qed.

Lemma report_precursor_outcome (k : string) :
  (In k (PyDict.keys modified_oncotree) -> fst (report_precursor h modified_oncotree precursor_index
                       codes k) = Exit 1 (PrecursorStillCurrent k))
  /\ (~ In k (PyDict.keys modified_oncotree) -> succeeded (report_precursor h modified_oncotree
                                  precursor_index codes k)).
Proof.
  unfold report_precursor. split; intros H.
  - apply mem_live in H. rewrite H. reflexivity.
  - rewrite <- mem_live in H. apply not_true_is_false in H. rewrite H.
    apply foldM_succeeded. intros i _ Hi.
    apply print_successor_succeeded. rewrite In_iter_ids in Hi.
    apply (precursor_successors_live _ _ Hi).
Qed.

Lemma report_precursors_outcome :
  ok_or_exit lineage_error
    (report_precursors h modified_oncotree precursor_index codes)
  /\ ((exists k, In k (PyDict.keys precursor_index) /\ In k (PyDict.keys modified_oncotree)) ->
      failed (report_precursors h modified_oncotree precursor_index codes))
  /\ (~ (exists k, In k (PyDict.keys precursor_index) /\ In k (PyDict.keys modified_oncotree)) ->
      succeeded (report_precursors h modified_oncotree precursor_index codes)).
Proof.
  unfold report_precursors. split; [|split].
  - apply ok_or_exit_bind; [exact I|]. intros _.
    destruct (nonempty precursor_index); [|exact I].
    apply ok_or_exit_foldM. intros _ k _.
    destruct (in_dec string_dec k (PyDict.keys modified_oncotree)) as [Hk|Hk].
    + unfold ok_or_exit.
      rewrite (proj1 (report_precursor_outcome k) Hk). split; [reflexivity | exact I].
    + apply ok_or_exit_succeeded, report_precursor_outcome, Hk.
  - intros (k & Hk & Hl). apply failed_bind_r. intros _.
    rewrite (nonempty_keys k _ Hk).
    apply (foldM_failed _ k); [apply In_sorted, Hk|].
    intros _. unfold failed.
    rewrite (proj1 (report_precursor_outcome k) Hl). exact I.
  - intros H. apply succeeded_bind; [exact I|]. intros _.
    destruct (nonempty precursor_index); [|exact I].
    apply foldM_succeeded. intros k _ Hk. rewrite In_sorted in Hk.
    apply report_precursor_outcome. intros Hl. apply H. eauto.
Qed.

Lemma report_revoked_by_outcome (k code i : string) :
  In i (PyDict.keys modified_oncotree) ->
  (In i (new_internal_ids original_oncotree modified_oncotree) ->
   fst (report_revoked_by original_oncotree modified_oncotree k code i)
   = Exit 1 (RevokedByNewConcept k i))
  /\ (~ In i (new_internal_ids original_oncotree modified_oncotree) ->
      succeeded (report_revoked_by original_oncotree modified_oncotree
                   k code i)).
Proof.
  intros Hl. unfold report_revoked_by. split; intros H.
  - apply mem_In in H. rewrite H. reflexivity.
  - apply mem_false_iff in H. rewrite H.
    apply print_successor_succeeded, Hl.
Qed.

Lemma report_revocation_outcome (k : string) :
  ok_or_exit lineage_error
    (report_revocation h original_oncotree modified_oncotree precursor_index
       revocation_index codes k)
  /\ (revocation_violation original_oncotree modified_oncotree
        precursor_index revocation_index k ->
      failed (report_revocation h original_oncotree modified_oncotree
                precursor_index revocation_index codes k))
  /\ (~ revocation_violation original_oncotree modified_oncotree
          precursor_index revocation_index k ->
      succeeded (report_revocation h original_oncotree modified_oncotree
                   precursor_index revocation_index codes k)).
Proof.
  unfold report_revocation, revocation_violation.
  destruct (mem k (modified_internal_id_set modified_oncotree)) eqn:El.
  { split; [split; [reflexivity | exact I]|]. split; [intros _; exact I|].
    intros H. exfalso. apply H. left. apply mem_live, El. }
  assert (Hl : ~ In k (PyDict.keys modified_oncotree)).
  { rewrite <- mem_live. congruence. }
  destruct (PyDict.has k precursor_index) eqn:Ep.
  { split; [split; [reflexivity | exact I]|]. split; [intros _; exact I|].
    intros H. exfalso. apply H. right. left. apply get_In_keys, Ep. }
  assert (Hp : ~ In k (PyDict.keys precursor_index)).
  { rewrite <- get_In_keys. congruence. }
  split; [|split].
  - apply ok_or_exit_foldM. intros _ i Hi. rewrite In_iter_ids in Hi.
    pose proof (revocation_successors_live _ _ Hi) as Hli.
    destruct (in_dec string_dec i (new_internal_ids original_oncotree modified_oncotree)) as [Ha|Ha].
    + unfold ok_or_exit.
      rewrite (proj1 (report_revoked_by_outcome k _ i Hli) Ha). split; [reflexivity | exact I].
    + apply ok_or_exit_succeeded, report_revoked_by_outcome; assumption.
  - intros [H|[H|(i & Hi & Ha)]]; [contradiction..|].
    apply (foldM_failed _ i); [apply In_iter_ids, Hi|].
    intros _. unfold failed.
    rewrite (proj1 (report_revoked_by_outcome k _ i
                      (revocation_successors_live _ _ Hi)) Ha).
    exact I.
  - intros H. apply foldM_succeeded. intros i _ Hi. rewrite In_iter_ids in Hi.
    apply report_revoked_by_outcome.
    + apply (revocation_successors_live _ _ Hi).
    + intros Ha. apply H. right. right. eauto.
Qed.

Lemma report_revocations_outcome :
  ok_or_exit lineage_error
    (report_revocations h original_oncotree modified_oncotree precursor_index
       revocation_index codes)
  /\ ((exists k, In k (PyDict.keys revocation_index)
                 /\ revocation_violation original_oncotree
                      modified_oncotree precursor_index revocation_index k) ->
      failed (report_revocations h original_oncotree modified_oncotree
                precursor_index revocation_index codes))
  /\ (~ (exists k, In k (PyDict.keys revocation_index)
                   /\ revocation_violation original_oncotree
                      modified_oncotree precursor_index revocation_index k) ->
      succeeded (report_revocations h original_oncotree modified_oncotree
                   precursor_index revocation_index codes)).
Proof.
  unfold report_revocations. split; [|split].
  - apply ok_or_exit_bind; [exact I|]. intros _.
    destruct (nonempty revocation_index); [|exact I].
    apply ok_or_exit_foldM. intros _ k _. apply report_revocation_outcome.
  - intros (k & Hk & Hv). apply failed_bind_r. intros _.
    rewrite (nonempty_keys k _ Hk).
    apply (foldM_failed _ k); [apply In_sorted, Hk|].
    intros _. apply report_revocation_outcome, Hv.
  - intros H. apply succeeded_bind; [exact I|]. intros _.
    destruct (nonempty revocation_index); [|exact I].
    apply foldM_succeeded. intros k _ Hk. rewrite In_sorted in Hk.
    apply report_revocation_outcome. intros Hv. apply H. eauto.
Qed.

Lemma report_lineage_outcome :
  ok_or_exit lineage_error
    (report_lineage h original_oncotree modified_oncotree precursor_index
       revocation_index codes)
  /\ ((exists k, In k (PyDict.keys precursor_index) /\ In k (PyDict.keys modified_oncotree))
      \/ (exists k, In k (PyDict.keys revocation_index)
                    /\ revocation_violation original_oncotree
                      modified_oncotree precursor_index revocation_index k) ->
      failed (report_lineage h original_oncotree modified_oncotree
                precursor_index revocation_index codes))
  /\ (~ ((exists k, In k (PyDict.keys precursor_index) /\ In k (PyDict.keys modified_oncotree))
         \/ (exists k, In k (PyDict.keys revocation_index)
                       /\ revocation_violation original_oncotree
                      modified_oncotree precursor_index revocation_index k)) ->
      succeeded (report_lineage h original_oncotree modified_oncotree
                   precursor_index revocation_index codes)).
Proof.
  unfold report_lineage.
  destruct report_precursors_outcome as (P1 & P2 & P3).
  destruct report_revocations_outcome as (R1 & R2 & R3).
  split; [|split].
  - apply ok_or_exit_bind; [exact P1 | intros _; exact R1].
  - intros [H|H].
    + apply failed_bind_l, P2, H.
    + apply failed_bind_r. intros _. apply R2, H.
  - intros H. apply succeeded_bind.
    + apply P3. tauto.
    + intros _. apply R3. tauto.
Qed.

End Lineage.

(** C4: the precursor and revocation checks fail, with exit code 1 and one
    of their four errors, exactly when a precursor id is a live modified id,
    or a revocation id is a live modified id, or a revocation id is also a
    precursor id, or an id that revokes belongs to the added ids; an id that
    revokes and is retained passes its check. *)
Theorem C4_lineage_validation :
  forall (h : hash_order) (original_oncotree : PyDict.t Row)
         (modified_file : csv_file) (modified_oncotree : PyDict.t Row)
         (codes : PyDict.t string),
    fst (get_oncotree modified_file) = Ok modified_oncotree ->
    let precursor_index := get_all_precursors modified_file in
    let revocation_index := get_all_revocations modified_file in
    let live := PyDict.keys modified_oncotree in
    let added := new_internal_ids original_oncotree modified_oncotree in
    let retained := in_both_internal_ids original_oncotree modified_oncotree in
    let run :=
      report_lineage h original_oncotree modified_oncotree precursor_index
        revocation_index codes in
    let violation :=
      (exists k, In k (PyDict.keys precursor_index) /\ In k live)
      \/ (exists k, In k (PyDict.keys revocation_index) /\ In k live)
      \/ (exists k, In k (PyDict.keys revocation_index)
                    /\ In k (PyDict.keys precursor_index))
      \/ (exists k i, In k (PyDict.keys revocation_index)
                      /\ In i (default_get k revocation_index)
                      /\ In i added) in
    (violation -> exists e, fst run = Exit 1 e /\ lineage_error e)
    /\ (~ violation -> succeeded run)
    /\ (forall k i, In i (default_get k revocation_index) ->
                    In i retained ->
                    succeeded
                      (report_revoked_by original_oncotree modified_oncotree
                         k (code_or_unknown codes k) i)).
Proof.
  intros h original_oncotree modified_file modified_oncotree codes Hload
         precursor_index revocation_index live added retained run violation.
  destruct (get_oncotree_total modified_file) as (d & out & E & Hkeys & _).
  rewrite E in Hload. simpl in Hload. injection Hload as ->.
  assert (HP : forall k i, In i (default_get k precursor_index) -> In i live).
  { intros k i Hi. apply Hkeys.
    apply (precursor_successors_are_rows _ _ _ Hi). }
  assert (HR : forall k i, In i (default_get k revocation_index) -> In i live).
  { intros k i Hi. apply Hkeys.
    apply (revocation_successors_are_rows _ _ _ Hi). }
  destruct (report_lineage_outcome h original_oncotree modified_oncotree
              precursor_index revocation_index codes HP HR) as (O1 & O2 & O3).
  assert (Hv : violation
               <-> lineage_violation original_oncotree modified_oncotree
                     precursor_index revocation_index).
  { unfold violation, lineage_violation, revocation_violation. split.
    - intros [H|[(k & Hk & H)|[(k & Hk & H)|(k & i & Hk & Hi & H)]]].
      + left. exact H.
      + right. exists k. auto.
      + right. exists k. auto.
      + right. exists k. split; [exact Hk|]. right. right. eauto.
    - intros [H|(k & Hk & [H|[H|(i & Hi & H)]])].
      + left. exact H.
      + right. left. eauto.
      + right. right. left. eauto.
      + right. right. right. eauto. }
  split; [|split].
  - intros H. apply (ok_or_exit_failed _ _ O1), O2, Hv, H.
  - intros H. apply O3. intros H'. apply H, Hv, H'.
  - intros k i Hi Hret. unfold retained, in_both_internal_ids in Hret.
    apply In_inter in Hret as [Ho Hm].
    apply report_revoked_by_outcome.
    + unfold modified_internal_id_set in Hm. rewrite In_of_list in Hm.
      exact Hm.
    + unfold new_internal_ids. rewrite In_diff. tauto.
Qed.

Lemma C4_lineage_validation_witness :
  exists e,
    fst (report_lineage Fixtures.plain_order
           [("ONC000001", Fixtures.tissue); ("ONC000002", Fixtures.lung);
            ("ONC000003", Fixtures.skin)]
           [("ONC000001", Fixtures.with_parent_code Fixtures.tissue EmptyString);
            ("ONC000002", Fixtures.with_parent_code Fixtures.lung EmptyString);
            ("ONC000003", Fixtures.skin_after_lung)]
           (get_all_precursors
              (Fixtures.modified
                 [Fixtures.with_parent_code Fixtures.tissue EmptyString;
                  Fixtures.with_parent_code Fixtures.lung EmptyString;
                  Fixtures.skin_after_lung]))
           (get_all_revocations
              (Fixtures.modified
                 [Fixtures.with_parent_code Fixtures.tissue EmptyString;
                  Fixtures.with_parent_code Fixtures.lung EmptyString;
                  Fixtures.skin_after_lung]))
           [])
    = Exit 1 e /\ lineage_error e.
Proof.
  assert (Hload :
            fst (get_oncotree
                   (Fixtures.modified
                      [Fixtures.with_parent_code Fixtures.tissue EmptyString;
                       Fixtures.with_parent_code Fixtures.lung EmptyString;
                       Fixtures.skin_after_lung]))
            = Ok [("ONC000001",
                   Fixtures.with_parent_code Fixtures.tissue EmptyString);
                  ("ONC000002",
                   Fixtures.with_parent_code Fixtures.lung EmptyString);
                  ("ONC000003", Fixtures.skin_after_lung)]).
  { vm_compute. reflexivity. }
  pose proof (C4_lineage_validation Fixtures.plain_order
                [("ONC000001", Fixtures.tissue); ("ONC000002", Fixtures.lung);
                 ("ONC000003", Fixtures.skin)]
                _ _ [] Hload) as W.
  cbv zeta in W. destruct W as [W _]. apply W.
  left. exists "ONC000002". split.
  - vm_compute. auto.
  - vm_compute. auto.
Defined.

(** ** Identity-change candidates *)

Lemma nonempty_app {A} (a b : list A) :
  nonempty (a ++ b) = nonempty a || nonempty b.
Proof. destruct a; reflexivity. Qed.

Lemma some_if_any_nonempty {A} (l : list A) :
  nonempty l = true -> some_if_any l = Some l.
Proof. destruct l; [discriminate | reflexivity]. Qed.

Lemma nonempty_flat_map {A B} (f : A -> list B) (x : A) (l : list A) :
  In x l -> nonempty (f x) = true -> nonempty (flat_map f l) = true.
Proof.
  induction l as [|y l IH]; [intros []|].
  intros [->|Hin] Hx; simpl; rewrite nonempty_app.
  - rewrite Hx. reflexivity.
  - rewrite (IH Hin Hx). apply orb_true_r.
Qed.

(** Apart from the internal id, one column at a time. *)
Lemma other_change_under (t1 t2 : Row) (c : column) :
  nonempty (filter (fun x => negb (fst x =? diff_path INTERNAL_ID))
              (changed_under t1 t2 c))
  = negb match c with
         | INTERNAL_ID => true
         | _ => match cell t1 c, cell t2 c with
                | Some v1, Some v2 => v1 =? v2
                | _, _ => true
                end
         end.
Proof.
  unfold changed_under.
  destruct c; cbn [cell];
    try (destruct (parent_oncotree_code t1); [|reflexivity];
         destruct (parent_oncotree_code t2); [|reflexivity]);
    match goal with
    | |- context [if ?a =? ?b then _ else _] => destruct (a =? b)
    end; reflexivity.
Qed.

Lemma other_changes (t1 t2 : Row) (cols : list column) :
  nonempty (filter (fun x => negb (fst x =? diff_path INTERNAL_ID))
              (flat_map (changed_under t1 t2) cols))
  = negb (forallb (fun c =>
                     match c with
                     | INTERNAL_ID => true
                     | _ => match cell t1 c, cell t2 c with
                            | Some v1, Some v2 => v1 =? v2
                            | _, _ => true
                            end
                     end) cols).
Proof.
  induction cols as [|c cols IH]; [reflexivity|].
  cbn [flat_map forallb]. rewrite filter_app, nonempty_app, IH.
  rewrite other_change_under, negb_andb. reflexivity.
Qed.

Lemma internal_id_changed (t1 t2 : Row) :
  internal_id t1 <> internal_id t2 ->
  values_changed (DeepDiff t1 t2)
  = Some (flat_map (changed_under t1 t2) all_columns).
Proof.
  intros H. cbn [DeepDiff values_changed]. apply some_if_any_nonempty.
  apply (nonempty_flat_map _ INTERNAL_ID).
  - cbv. tauto.
  - unfold changed_under. cbn [cell]. apply String.eqb_neq in H.
    rewrite H. reflexivity.
Qed.

(** One turn of the loop over the pairs, on a removed and an added row. *)
Lemma report_id_change_pair (original_oncotree modified_oncotree : PyDict.t Row)
      (found : bool) (r a : string) (o m : Row) :
  PyDict.get r original_oncotree = Some o ->
  PyDict.get a modified_oncotree = Some m ->
  internal_id o <> internal_id m ->
  report_id_change original_oncotree modified_oncotree found (r, a)
  = if same_data o m
    then (Ok true,
          [change_line (pretty_label_of o) (pretty_label_of m)])
    else (Ok found, []).
Proof.
  intros Ho Hm Hid. unfold report_id_change, lookup. cbn [fst snd].
  rewrite Ho. cbn [bind ret]. rewrite Hm. cbn [bind ret].
  unfold get_values_changed. rewrite (internal_id_changed o m Hid).
  cbn [bind ret]. rewrite (other_changes o m all_columns).
  fold (same_data o m). rewrite negb_involutive.
  destruct (same_data o m); reflexivity.
Qed.

Lemma keyed_of_forallb (d : PyDict.t Row) :
  forallb (fun kv => fst kv =? internal_id (snd kv)) d = true ->
  keyed_by_internal_id d.
Proof.
  induction d as [|[k0 r0] d IH]; intros H k row; simpl.
  - discriminate.
  - simpl in H. apply andb_true_iff in H as [H0 H].
    destruct (String.eqb_spec k k0) as [->|N].
    + intros [= <-]. symmetry. apply String.eqb_eq, H0.
    + apply IH, H.
Qed.

Lemma In_all_columns (c : column) : In c all_columns.
Proof. destruct c; cbv; tauto. Qed.

Lemma same_data_spec (t1 t2 : Row) :
  same_data t1 t2 = true
  <-> forall c, c <> INTERNAL_ID ->
                forall v1 v2, cell t1 c = Some v1 -> cell t2 c = Some v2 ->
                              v1 = v2.
Proof.
  unfold same_data. rewrite forallb_forall. split.
  - intros H c Hc v1 v2 E1 E2. specialize (H c (In_all_columns c)).
    rewrite E1, E2 in H. destruct c; try (apply String.eqb_eq, H).
    contradiction.
  - intros H c _. destruct c; try reflexivity;
      (destruct (cell t1 _) as [v1|] eqn:E1; [|reflexivity];
       destruct (cell t2 _) as [v2|] eqn:E2; [|reflexivity];
       apply String.eqb_eq; apply (fun Hc => H _ Hc _ _ E1 E2);
       discriminate).
Qed.

Lemma report_id_change_loop
      (original_oncotree modified_oncotree : PyDict.t Row)
      (l : list (string * string)) :
  keyed_by_internal_id original_oncotree ->
  keyed_by_internal_id modified_oncotree ->
  (forall p, In p l -> In (fst p) (PyDict.keys original_oncotree)
                       /\ In (snd p) (PyDict.keys modified_oncotree)
                       /\ fst p <> snd p) ->
  forall found,
    foldM (report_id_change original_oncotree modified_oncotree) l found
    = (Ok (found
           || nonempty (candidates_among original_oncotree modified_oncotree l)),
       map candidate_line
           (candidates_among original_oncotree modified_oncotree l)).
Proof.
  intros Ko Km. induction l as [|[r a] l IH]; intros Hl found.
  - simpl. rewrite orb_false_r. reflexivity.
  - destruct (Hl (r, a) (or_introl eq_refl)) as (Hr & Ha & Hne).
    cbn [fst snd] in Hr, Ha, Hne.
    apply get_In_keys, has_get in Hr as [o Ho].
    apply get_In_keys, has_get in Ha as [m Hm].
    assert (Hid : internal_id o <> internal_id m).
    { rewrite (Ko _ _ Ho), (Km _ _ Hm). exact Hne. }
    cbn [foldM]. rewrite (report_id_change_pair _ _ found r a o m Ho Hm Hid).
    unfold candidates_among. cbn [flat_map fst snd]. rewrite Ho, Hm.
    fold (candidates_among original_oncotree modified_oncotree l).
    assert (Hl' : forall p, In p l ->
                            In (fst p) (PyDict.keys original_oncotree)
                            /\ In (snd p) (PyDict.keys modified_oncotree)
                            /\ fst p <> snd p).
    { intros p Hp. apply Hl. now right. }
    destruct (same_data o m); cbn [bind]; rewrite (IH Hl').
    + cbn [app nonempty map]. rewrite orb_true_r. reflexivity.
    + reflexivity.
Qed.

Lemma removed_new_pairs (h : hash_order)
      (original_oncotree modified_oncotree : PyDict.t Row) (r a : string) :
  In (r, a)
     (iter_pairs h
        (list_prod (removed_internal_ids original_oncotree modified_oncotree)
                   (new_internal_ids original_oncotree modified_oncotree)))
  <-> In r (removed_internal_ids original_oncotree modified_oncotree)
      /\ In a (new_internal_ids original_oncotree modified_oncotree).
Proof. rewrite In_iter_pairs. apply in_prod_iff. Qed.

Lemma In_removed (original_oncotree modified_oncotree : PyDict.t Row) r :
  In r (removed_internal_ids original_oncotree modified_oncotree)
  <-> In r (PyDict.keys original_oncotree)
      /\ ~ In r (PyDict.keys modified_oncotree).
Proof.
  unfold removed_internal_ids, original_internal_id_set,
    modified_internal_id_set.
  rewrite In_diff, !In_of_list. tauto.
Qed.

Lemma In_new (original_oncotree modified_oncotree : PyDict.t Row) a :
  In a (new_internal_ids original_oncotree modified_oncotree)
  <-> In a (PyDict.keys modified_oncotree)
      /\ ~ In a (PyDict.keys original_oncotree).
Proof.
  unfold new_internal_ids, original_internal_id_set,
    modified_internal_id_set.
  rewrite In_diff, !In_of_list. tauto.
Qed.

Lemma In_in_both (original_oncotree modified_oncotree : PyDict.t Row) x :
  In x (in_both_internal_ids original_oncotree modified_oncotree)
  <-> In x (PyDict.keys original_oncotree)
      /\ In x (PyDict.keys modified_oncotree).
Proof.
  unfold in_both_internal_ids, original_internal_id_set,
    modified_internal_id_set.
  rewrite In_inter, !In_of_list. tauto.
Qed.

(** C5 (as the script has it): the loop over the pairs of a removed and an
    added id never fails; it prints one line for each pair whose rows have
    the same value under every column that both rows have, other than the
    internal id, and for no other pair; a column that only one of the two
    rows has is not compared. When there is no such pair it prints None. *)
Theorem C5_identity_change_candidates :
  forall (h : hash_order) (original_oncotree modified_oncotree : PyDict.t Row),
    keyed_by_internal_id original_oncotree ->
    keyed_by_internal_id modified_oncotree ->
    let candidates :=
      id_change_candidates h original_oncotree modified_oncotree in
    report_id_changes h original_oncotree modified_oncotree
    = (Ok tt,
       (nl ++ "Internal ids that changed when no other data has changed ... are these really new concepts that cover different sets of cancer cases?")%string
         :: match candidates with
            | [] => [(tab ++ "None")%string]
            | _ => map candidate_line candidates
            end)
    /\ (forall o m,
           In (o, m) candidates
           <-> In (internal_id o)
                  (removed_internal_ids original_oncotree modified_oncotree)
               /\ PyDict.get (internal_id o) original_oncotree = Some o
               /\ In (internal_id m)
                     (new_internal_ids original_oncotree modified_oncotree)
               /\ PyDict.get (internal_id m) modified_oncotree = Some m
               /\ (forall c, c <> INTERNAL_ID ->
                             forall v1 v2,
                               cell o c = Some v1 -> cell m c = Some v2 ->
                               v1 = v2)).
Proof.
  intros h original_oncotree modified_oncotree Ko Km candidates. split.
  - unfold report_id_changes. rewrite report_id_change_loop; try assumption.
    + fold (id_change_candidates h original_oncotree modified_oncotree).
      fold candidates. cbn [print bind orb].
      destruct candidates; cbn [nonempty negb print ret app];
        [reflexivity | rewrite app_nil_r; reflexivity].
    + intros [r a] Hp. apply removed_new_pairs in Hp as [Hr Ha].
      apply In_removed in Hr as [Hr Hr']. apply In_new in Ha as [Ha _].
      cbn [fst snd]. repeat split; try assumption. intros ->. contradiction.
  - intros o m. unfold candidates, id_change_candidates, candidates_among.
    rewrite in_flat_map. split.
    + intros ([r a] & Hp & Hin). cbn [fst snd] in Hin.
      apply removed_new_pairs in Hp as [Hr Ha].
      destruct (PyDict.get r original_oncotree) as [o'|] eqn:Ho;
        [|destruct Hin].
      destruct (PyDict.get a modified_oncotree) as [m'|] eqn:Hm;
        [|destruct Hin].
      destruct (same_data o' m') eqn:Hs; [|destruct Hin].
      destruct Hin as [[= -> ->]|[]].
      rewrite (Ko _ _ Ho), (Km _ _ Hm).
      repeat split; try assumption. apply same_data_spec, Hs.
    + intros (Hr & Ho & Ha & Hm & Hs).
      exists (internal_id o, internal_id m). split.
      * apply removed_new_pairs. auto.
      * cbn [fst snd]. rewrite Ho, Hm.
        apply same_data_spec in Hs. rewrite Hs. left. reflexivity.
Qed.

Lemma C5_identity_change_candidates_witness :
  report_id_changes Fixtures.plain_order
    [("ONC000001", Fixtures.tissue); ("ONC000020", Fixtures.retired_bone)]
    [("ONC000001", Fixtures.with_parent_code Fixtures.tissue EmptyString);
     ("ONC000021", Fixtures.renumbered_bone);
     ("ONC000022", Fixtures.renamed_bone)]
  = (Ok tt,
     [(nl ++ "Internal ids that changed when no other data has changed ... are these really new concepts that cover different sets of cancer cases?")%string;
      (tab ++ "'ONC000020: Bone (BONE)' -> 'ONC000021: Bone (BONE)'")%string]).
Proof.
  assert (Ko : keyed_by_internal_id
                 [("ONC000001", Fixtures.tissue);
                  ("ONC000020", Fixtures.retired_bone)]).
  { apply keyed_of_forallb. reflexivity. }
  assert (Km : keyed_by_internal_id
                 [("ONC000001",
                   Fixtures.with_parent_code Fixtures.tissue EmptyString);
                  ("ONC000021", Fixtures.renumbered_bone);
                  ("ONC000022", Fixtures.renamed_bone)]).
  { apply keyed_of_forallb. reflexivity. }
  pose proof (C5_identity_change_candidates Fixtures.plain_order _ _ Ko Km)
    as W.
  cbv zeta in W. destruct W as [W _]. rewrite W. vm_compute. reflexivity.
Defined.

(** The claim C5 as stated fails: in this pair of snapshots, which both
    pass the validation, the removed row ONC000020 has no parent code cell
    and the added row ONC000023 has the parent code LUNG, so the two rows
    differ in a field other than the internal id; every column the two rows
    share has the same value, and the run, which ends normally, prints the
    pair as a candidate. *)
Lemma C5_parent_code_is_not_compared :
  parent_oncotree_code Fixtures.retired_bone = None
  /\ parent_oncotree_code Fixtures.rehomed_bone = Some "LUNG"
  /\ parent_oncotree_code Fixtures.retired_bone
     <> parent_oncotree_code Fixtures.rehomed_bone
  /\ same_data Fixtures.retired_bone Fixtures.rehomed_bone = true
  /\ validate_csv_file
       (Fixtures.original
          [Fixtures.tissue; Fixtures.lung; Fixtures.retired_bone])
       EXPECTED_HEADER = (Ok tt, [])
  /\ validate_csv_file
       (Fixtures.modified
          (Fixtures.in_modified [Fixtures.tissue; Fixtures.lung]
             ++ [Fixtures.rehomed_bone]))
       EXPECTED_HEADER_MODIFIED_FILE = (Ok tt, [])
  /\ fst (main Fixtures.plain_order
            (Fixtures.original
               [Fixtures.tissue; Fixtures.lung; Fixtures.retired_bone])
            (Fixtures.modified
               (Fixtures.in_modified [Fixtures.tissue; Fixtures.lung]
                  ++ [Fixtures.rehomed_bone]))
            [] "y")
     = Ok tt
  /\ In (tab ++ "'ONC000020: Bone (BONE)' -> 'ONC000023: Bone (BONE)'")%string
        (snd (main Fixtures.plain_order
                (Fixtures.original
                   [Fixtures.tissue; Fixtures.lung; Fixtures.retired_bone])
                (Fixtures.modified
                   (Fixtures.in_modified [Fixtures.tissue; Fixtures.lung]
                      ++ [Fixtures.rehomed_bone]))
                [] "y")).
Proof.
  split; [reflexivity|]. split; [reflexivity|].
  split; [discriminate|]. split; [vm_compute; reflexivity|].
  split; [vm_compute; reflexivity|]. split; [vm_compute; reflexivity|].
  split; [vm_compute; reflexivity|].
  vm_compute. tauto.
Qed.

(** ** Retained nodes *)

Lemma bind_ret {A B} (a : A) (f : A -> M B) : bind (ret a) f = f a.
Proof. unfold bind, ret. destruct (f a). reflexivity. Qed.

Lemma lookup_some {V} (k : string) (d : PyDict.t V) (v : V) :
  PyDict.get k d = Some v -> lookup k d = ret v.
Proof. unfold lookup. intros ->. reflexivity. Qed.

(** The guard of the parent comparison: for a retained id whose resource
    URI passes the two checks, the parent codes of the two snapshots are
    compared unless the id is the literal ONC000001, whatever the oncotree
    code of the row; a row with no parent reference under another id ends
    the run. *)
Lemma compare_retained_parent_guard :
  forall (original_oncotree modified_oncotree : PyDict.t Row)
         (original_uris modified_uris codes : PyDict.t string)
         (messages : list string * list string) (id : string) (o m : Row),
    PyDict.get id original_oncotree = Some o ->
    PyDict.get id modified_oncotree = Some m ->
    strip (resource_uri o) <> EmptyString ->
    resource_uri o = resource_uri m ->
    let code_messages :=
      if negb (oncotree_code o =? oncotree_code m)
      then fst messages
             ++ [change_line (pretty_label_of o) (pretty_label_of m)]
      else fst messages in
    let run :=
      compare_retained original_oncotree modified_oncotree original_uris
        modified_uris codes messages id in
    (id = "ONC000001" -> run = (Ok (code_messages, snd messages), []))
    /\ (id <> "ONC000001" ->
        fst run
        = match fst (parent_codes original_uris modified_uris codes id o m)
          with
          | Ok (original_parent, modified_parent) =>
              Ok (code_messages,
                  if negb (original_parent =? modified_parent)
                  then snd messages
                         ++ [parent_change_line (pretty_label_of o)
                               original_parent (pretty_label_of m)
                               modified_parent]
                  else snd messages)
          | Exit c e => Exit c e
          | KeyError k => KeyError k
          end)
    /\ (id <> "ONC000001" ->
        parent_oncotree_code m = Some EmptyString ->
        parent_resource_uri m = EmptyString ->
        fst run = Exit 1 (ParentReferenceMissing id)).
Proof.
  intros original_oncotree modified_oncotree original_uris modified_uris
         codes [code_msgs parent_msgs] id o m Ho Hm Hblank Hsame
         code_messages run.
  assert (Hrun : run
                 = if negb (id =? "ONC000001")
                   then
                     pair <- parent_codes original_uris modified_uris codes
                               id o m;;
                     let (original_parent, modified_parent) := pair in
                     if negb (original_parent =? modified_parent)
                     then ret (code_messages,
                               parent_msgs
                                 ++ [parent_change_line (pretty_label_of o)
                                       original_parent (pretty_label_of m)
                                       modified_parent])
                     else ret (code_messages, parent_msgs)
                   else ret (code_messages, parent_msgs)).
  { unfold run, compare_retained.
    rewrite (lookup_some _ _ _ Ho), bind_ret, (lookup_some _ _ _ Hm), bind_ret.
    apply String.eqb_neq in Hblank. rewrite Hblank.
    rewrite <- Hsame, String.eqb_refl. cbn [negb].
    destruct (negb (id =? "ONC000001")); reflexivity. }
  split; [|split].
  - intros ->. rewrite Hrun. reflexivity.
  - intros Hid. apply String.eqb_neq in Hid. rewrite Hrun, Hid.
    cbn [negb]. rewrite fst_bind.
    destruct (fst (parent_codes original_uris modified_uris codes id o m))
      as [[oc mc]|c e|k]; try reflexivity.
    destruct (negb (oc =? mc)); reflexivity.
  - intros Hid Hcode Huri. apply String.eqb_neq in Hid. rewrite Hrun, Hid.
    cbn [negb]. rewrite fst_bind. unfold parent_codes, row_get.
    cbn [cell]. rewrite Hcode, bind_ret. cbn [truthy negb].
    unfold get_parent_internal_id. rewrite Huri. reflexivity.
Qed.

Lemma compare_retained_parent_guard_example :
  compare_retained
    [("ONC000001", Fixtures.tissue); ("ONC000002", Fixtures.lung)]
    [("ONC000001", Fixtures.with_parent_code Fixtures.tissue EmptyString);
     ("ONC000002", Fixtures.with_parent_code Fixtures.lung EmptyString)]
    [] [] [] ([], []) "ONC000001"
  = (Ok ([], []), [])
  /\ fst (compare_retained
            [("ONC000009", Fixtures.renumbered_tissue)]
            [("ONC000009",
              Fixtures.with_parent_code Fixtures.renumbered_tissue EmptyString)]
            [("http://data/ONC000009", "ONC000009")]
            [("http://data/ONC000009", "ONC000009")]
            [("TISSUE", "ONC000009")] ([], []) "ONC000009")
     = Exit 1 (ParentReferenceMissing "ONC000009").
Proof.
  split.
  - refine (proj1 (compare_retained_parent_guard
                     [("ONC000001", Fixtures.tissue);
                      ("ONC000002", Fixtures.lung)]
                     [("ONC000001",
                       Fixtures.with_parent_code Fixtures.tissue EmptyString);
                      ("ONC000002",
                       Fixtures.with_parent_code Fixtures.lung EmptyString)]
                     [] [] [] ([], []) "ONC000001" Fixtures.tissue
                     (Fixtures.with_parent_code Fixtures.tissue EmptyString)
                     eq_refl eq_refl _ eq_refl) eq_refl).
    intros E. vm_compute in E. discriminate E.
  - refine (proj2 (proj2 (compare_retained_parent_guard
                     [("ONC000009", Fixtures.renumbered_tissue)]
                     [("ONC000009",
                       Fixtures.with_parent_code Fixtures.renumbered_tissue
                         EmptyString)]
                     [("http://data/ONC000009", "ONC000009")]
                     [("http://data/ONC000009", "ONC000009")]
                     [("TISSUE", "ONC000009")] ([], []) "ONC000009"
                     Fixtures.renumbered_tissue
                     (Fixtures.with_parent_code Fixtures.renumbered_tissue
                        EmptyString)
                     eq_refl eq_refl _ eq_refl)) _ eq_refl eq_refl).
    + intros E. vm_compute in E. discriminate E.
    + intros E. discriminate E.
Defined.

(** C6: evaluation of the run on a pair of snapshots whose root row, with
    oncotree code TISSUE and no parent cell filled, has the internal id
    ONC000009. Both snapshots pass the validation, which requires the parent
    cells of that row to be empty; the root is then not exempt: the run ends
    in the parent comparison of that row, for want of a parent reference.
    With the same row under the internal id ONC000001 the run ends
    normally. *)
Theorem C6_root_under_another_id_is_compared :
  oncotree_code Fixtures.renumbered_tissue = "TISSUE"
  /\ has_parent_field Fixtures.renumbered_tissue = false
  /\ validate_csv_file (Fixtures.original [Fixtures.renumbered_tissue])
       EXPECTED_HEADER = (Ok tt, [])
  /\ validate_csv_file
       (Fixtures.modified (Fixtures.in_modified [Fixtures.renumbered_tissue]))
       EXPECTED_HEADER_MODIFIED_FILE = (Ok tt, [])
  /\ fst (main Fixtures.plain_order
            (Fixtures.original [Fixtures.renumbered_tissue])
            (Fixtures.modified
               (Fixtures.in_modified [Fixtures.renumbered_tissue]))
            [] "y")
     = Exit 1 (ParentReferenceMissing "ONC000009")
  /\ fst (main Fixtures.plain_order
            (Fixtures.original [Fixtures.tissue])
            (Fixtures.modified (Fixtures.in_modified [Fixtures.tissue]))
            [] "y")
     = Ok tt.
Proof. repeat split; vm_compute; reflexivity. Qed.

(** ** Resource URIs across the two snapshots *)

Lemma only_exits_bind {A B} (Q : nat -> error -> Prop) (m : M A)
      (f : A -> M B) :
  only_exits Q m -> (forall a, only_exits Q (f a)) -> only_exits Q (bind m f).
Proof.
  unfold only_exits. intros Hm Hf. rewrite fst_bind.
  destruct (fst m); [apply Hf | exact Hm | exact I].
Qed.

Lemma only_exits_foldM {A S} (Q : nat -> error -> Prop) (body : S -> A -> M S)
      (l : list A) :
  (forall s x, In x l -> only_exits Q (body s x)) ->
  forall s, only_exits Q (foldM body l s).
Proof.
  induction l as [|y l IH]; intros H s; simpl.
  - exact I.
  - apply only_exits_bind; [apply H; now left|].
    intros a. apply IH. intros s' x Hin. apply H. now right.
Qed.

Lemma only_exits_lookup {V} (Q : nat -> error -> Prop) (k : string)
      (d : PyDict.t V) : only_exits Q (lookup k d).
Proof. unfold only_exits, lookup. destruct (PyDict.get k d); exact I. Qed.

Lemma only_exits_weaken {A} (Q Q' : nat -> error -> Prop) (m : M A) :
  (forall c e, Q c e -> Q' c e) -> only_exits Q m -> only_exits Q' m.
Proof. unfold only_exits. intros H. destruct (fst m); auto. Qed.

(** The errors of parent resolution are not about the resource URI of the
    node. *)
Lemma get_parent_internal_id_exits child uri code codes uris :
  only_exits (fun _ e => ~ uri_error e)
    (get_parent_internal_id child uri code codes uris).
Proof.
  unfold get_parent_internal_id, only_exits.
  assert (H : match fst (if negb (truthy uri)
                         then sys_exit 1 (ParentReferenceMissing child)
                         else lookup uri uris)
              with Exit _ e => ~ uri_error e | _ => True end).
  { destruct (truthy uri); simpl; [|tauto]. apply only_exits_lookup. }
  destruct code as [c|]; [|exact H].
  destruct (truthy c); [|exact H].
  destruct (PyDict.has c codes); [apply only_exits_lookup | simpl; tauto].
Qed.

Lemma get_oncotree_code_from_internal_id_exits codes id :
  only_exits (fun _ e => ~ uri_error e)
    (get_oncotree_code_from_internal_id codes id).
Proof.
  unfold get_oncotree_code_from_internal_id, only_exits.
  destruct (find _ codes) as [[code v]|]; simpl; tauto.
Qed.

Lemma row_get_exits (Q : nat -> error -> Prop) row c :
  only_exits Q (row_get row c).
Proof. unfold only_exits, row_get. destruct (cell row c); exact I. Qed.

Lemma parent_codes_exits original_uris modified_uris codes id o m :
  only_exits (fun _ e => ~ uri_error e)
    (parent_codes original_uris modified_uris codes id o m).
Proof.
  unfold parent_codes.
  apply only_exits_bind; [apply row_get_exits|]. intros code.
  apply only_exits_bind.
  - destruct (negb (truthy code)); [|exact I].
    apply only_exits_bind; [apply get_parent_internal_id_exits|].
    intros pid. apply get_oncotree_code_from_internal_id_exits.
  - intros mcode.
    apply only_exits_bind; [apply get_parent_internal_id_exits|].
    intros pid.
    apply only_exits_bind; [apply get_oncotree_code_from_internal_id_exits|].
    intros ocode. exact I.
Qed.

Section ResourceUriRules.

Variable h : hash_order.
Variables original_oncotree modified_oncotree : PyDict.t Row.
Variables precursor_index revocation_index : PyDict.t PySet.t.
Variables original_uris modified_uris : PyDict.t string.
Variable internal_id_to_oncocodes : PyDict.t string.
Variable codes : PyDict.t string.

Lemma report_removed_exits :
  only_exits (fun _ e => ~ uri_error e)
    (report_removed original_oncotree modified_oncotree).
Proof.
  unfold report_removed. apply only_exits_bind; [exact I|]. intros _.
  destruct (nonempty _); [|exact I].
  apply only_exits_bind; [|intros _; exact I].
  apply only_exits_foldM. intros _ x _.
  apply only_exits_bind; [apply only_exits_lookup | intros data; exact I].
Qed.

Lemma report_new_id_exits (id : string) :
  In id (new_internal_ids original_oncotree modified_oncotree) ->
  only_exits
    (fun c e => uri_error e ->
                c = 1 /\ new_with_uri original_oncotree modified_oncotree)
    (report_new_id modified_oncotree modified_uris codes id).
Proof.
  intros Hid. unfold report_new_id, lookup.
  destruct (PyDict.get id modified_oncotree) as [data|] eqn:E; [|exact I].
  rewrite bind_ret. destruct (truthy (resource_uri data)) eqn:T.
  - intros _. split; [reflexivity|]. exists id, data.
    apply truthy_true_iff in T. auto.
  - apply only_exits_bind; [apply row_get_exits|]. intros code.
    apply only_exits_bind.
    + eapply only_exits_weaken; [|apply get_parent_internal_id_exits].
      simpl. tauto.
    + intros pid.
      apply only_exits_bind; [apply only_exits_lookup | intros d; exact I].
Qed.

Lemma report_new_exits :
  only_exits
    (fun c e => uri_error e ->
                c = 1 /\ new_with_uri original_oncotree modified_oncotree)
    (report_new original_oncotree modified_oncotree modified_uris codes).
Proof.
  unfold report_new. apply only_exits_bind; [exact I|]. intros _.
  destruct (nonempty _); [|exact I].
  apply only_exits_foldM. intros _ x Hx. rewrite In_sorted in Hx.
  apply report_new_id_exits, Hx.
Qed.

Lemma report_new_failed :
  new_with_uri original_oncotree modified_oncotree ->
  failed (report_new original_oncotree modified_oncotree modified_uris codes).
Proof.
  intros (id & data & Hid & Hget & Huri). unfold report_new.
  apply failed_bind_r. intros _. rewrite (nonempty_In id _ Hid).
  apply (foldM_failed _ id); [apply In_sorted, Hid|]. intros _.
  unfold report_new_id. rewrite (lookup_some _ _ _ Hget), bind_ret.
  apply truthy_true_iff in Huri. rewrite Huri. exact I.
Qed.

Lemma report_precursors_exits :
  only_exits (fun _ e => ~ uri_error e)
    (report_precursors h modified_oncotree precursor_index
       internal_id_to_oncocodes).
Proof.
  unfold report_precursors. apply only_exits_bind; [exact I|]. intros _.
  destruct (nonempty _); [|exact I].
  apply only_exits_foldM. intros _ k _. unfold report_precursor.
  destruct (mem k _); [unfold only_exits; simpl; tauto|].
  apply only_exits_foldM. intros _ i _.
  apply only_exits_bind; [apply only_exits_lookup | intros d; exact I].
Qed.

Lemma report_revocations_exits :
  only_exits (fun _ e => ~ uri_error e)
    (report_revocations h original_oncotree modified_oncotree precursor_index
       revocation_index internal_id_to_oncocodes).
Proof.
  unfold report_revocations. apply only_exits_bind; [exact I|]. intros _.
  destruct (nonempty _); [|exact I].
  apply only_exits_foldM. intros _ k _. unfold report_revocation.
  destruct (mem k _); [unfold only_exits; simpl; tauto|].
  destruct (PyDict.has k _); [unfold only_exits; simpl; tauto|].
  apply only_exits_foldM. intros _ i _. unfold report_revoked_by.
  destruct (mem i _); [unfold only_exits; simpl; tauto|].
  apply only_exits_bind; [apply only_exits_lookup | intros d; exact I].
Qed.

Lemma report_id_changes_exits :
  only_exits (fun _ e => ~ uri_error e)
    (report_id_changes h original_oncotree modified_oncotree).
Proof.
  unfold report_id_changes. apply only_exits_bind; [exact I|]. intros _.
  apply only_exits_bind.
  - apply only_exits_foldM. intros found p _. unfold report_id_change.
    apply only_exits_bind; [apply only_exits_lookup|]. intros o.
    apply only_exits_bind; [apply only_exits_lookup|]. intros m.
    apply only_exits_bind.
    + unfold only_exits, get_values_changed.
      destruct (values_changed _); exact I.
    + intros d. destruct (negb _); exact I.
  - intros found. destruct (negb found); exact I.
Qed.

Lemma compare_retained_exits (messages : list string * list string)
      (id : string) :
  In id (in_both_internal_ids original_oncotree modified_oncotree) ->
  only_exits
    (fun c e =>
       uri_error e ->
       c = 1
       /\ retained_uri_blank_or_changed original_oncotree modified_oncotree)
    (compare_retained original_oncotree modified_oncotree original_uris
       modified_uris codes messages id).
Proof.
  intros Hid. unfold compare_retained, lookup. destruct messages as [cm pm].
  destruct (PyDict.get id original_oncotree) as [o|] eqn:Eo; [|exact I].
  rewrite bind_ret.
  destruct (PyDict.get id modified_oncotree) as [m|] eqn:Em; [|exact I].
  rewrite bind_ret.
  destruct (String.eqb_spec (strip (resource_uri o)) EmptyString) as [Hb|Hb].
  { intros _. split; [reflexivity|]. exists id, o, m. auto. }
  destruct (String.eqb_spec (resource_uri o) (resource_uri m)) as [Hs|Hs].
  2:{ intros _. split; [reflexivity|]. exists id, o, m. auto. }
  cbn [negb]. destruct (negb (id =? "ONC000001")); [|exact I].
  apply only_exits_bind.
  - eapply only_exits_weaken; [|apply parent_codes_exits]. simpl. tauto.
  - intros [oc mc]. destruct (negb (oc =? mc)); exact I.
Qed.

Lemma compare_retained_failed (messages : list string * list string)
      (id : string) (o m : Row) :
  PyDict.get id original_oncotree = Some o ->
  PyDict.get id modified_oncotree = Some m ->
  strip (resource_uri o) = EmptyString
  \/ resource_uri o <> resource_uri m ->
  failed (compare_retained original_oncotree modified_oncotree original_uris
            modified_uris codes messages id).
Proof.
  intros Ho Hm H. unfold compare_retained. destruct messages as [cm pm].
  rewrite (lookup_some _ _ _ Ho), bind_ret, (lookup_some _ _ _ Hm), bind_ret.
  destruct (String.eqb_spec (strip (resource_uri o)) EmptyString) as [Hb|Hb];
    [exact I|].
  destruct (String.eqb_spec (resource_uri o) (resource_uri m)) as [Hs|Hs];
    [|exact I].
  tauto.
Qed.

Lemma report_changes_exits (messages : list string * list string) :
  only_exits (fun _ e => ~ uri_error e) (report_changes messages).
Proof.
  unfold report_changes. destruct messages as [cm pm].
  apply only_exits_bind; [exact I|]. intros _.
  apply only_exits_bind.
  - destruct (nonempty cm); [|exact I].
    apply only_exits_foldM. intros; exact I.
  - intros _. apply only_exits_bind; [exact I|]. intros _.
    destruct (nonempty pm); [|exact I].
    apply only_exits_foldM. intros; exact I.
Qed.

End ResourceUriRules.

(** C3 (as the script has it): the run fails when a new id carries a
    resource URI, and when a retained id has a resource URI that is empty
    or all whitespace in the original snapshot or that differs between the
    snapshots; and a run that ends with one of the three resource URI
    errors ends with exit code 1 in one of these cases. *)
Theorem C3_resource_uri_rules :
  forall (h : hash_order) (original_oncotree modified_oncotree : PyDict.t Row)
         (precursor_index revocation_index : PyDict.t PySet.t)
         (original_uris modified_uris internal_id_to_oncocodes codes
            : PyDict.t string) (answer : string),
    let run :=
      confirm_changes h original_oncotree modified_oncotree precursor_index
        revocation_index original_uris modified_uris internal_id_to_oncocodes
        codes answer in
    (new_with_uri original_oncotree modified_oncotree -> failed run)
    /\ (retained_uri_blank_or_changed original_oncotree modified_oncotree ->
        failed run)
    /\ (forall c e,
           fst run = Exit c e -> uri_error e ->
           c = 1
           /\ (new_with_uri original_oncotree modified_oncotree
               \/ retained_uri_blank_or_changed original_oncotree
                    modified_oncotree)).
Proof.
  intros h original_oncotree modified_oncotree precursor_index
         revocation_index original_uris modified_uris internal_id_to_oncocodes
         codes answer run.
  split; [|split].
  - intros H. unfold run, confirm_changes.
    apply failed_bind_r. intros _. apply failed_bind_l.
    apply report_new_failed, H.
  - intros (id & o & m & Hid & Ho & Hm & H). unfold run, confirm_changes.
    do 5 (apply failed_bind_r; intros _). apply failed_bind_l.
    apply (foldM_failed _ id); [apply In_iter_ids, Hid|].
    intros s. apply (compare_retained_failed _ _ _ _ _ s id o m Ho Hm H).
  - assert (O : only_exits
                  (fun c e =>
                     uri_error e ->
                     c = 1
                     /\ (new_with_uri original_oncotree modified_oncotree
                         \/ retained_uri_blank_or_changed original_oncotree
                              modified_oncotree)) run).
    { unfold run, confirm_changes.
      apply only_exits_bind.
      { eapply only_exits_weaken; [|apply report_removed_exits].
        simpl. tauto. }
      intros _. apply only_exits_bind.
      { eapply only_exits_weaken; [|apply report_new_exits].
        simpl. tauto. }
      intros _. apply only_exits_bind.
      { eapply only_exits_weaken; [|apply report_precursors_exits].
        simpl. tauto. }
      intros _. apply only_exits_bind.
      { eapply only_exits_weaken; [|apply report_revocations_exits].
        simpl. tauto. }
      intros _. apply only_exits_bind.
      { eapply only_exits_weaken; [|apply report_id_changes_exits].
        simpl. tauto. }
      intros _. apply only_exits_bind.
      { apply only_exits_foldM. intros s x Hx. rewrite In_iter_ids in Hx.
        eapply only_exits_weaken; [|apply compare_retained_exits, Hx].
        simpl. tauto. }
      intros messages. apply only_exits_bind.
      { eapply only_exits_weaken; [|apply report_changes_exits].
        simpl. tauto. }
      intros _. apply only_exits_bind.
      { unfold confirm_change.
        apply only_exits_bind; [exact I|]. intros _.
        apply only_exits_bind; [exact I|]. intros _.
        destruct (mem _ _); exact I. }
      intros confirmed. destruct confirmed; [exact I|].
      unfold only_exits. simpl. tauto. }
    intros c e Hrun. unfold only_exits in O. rewrite Hrun in O. exact O.
Qed.

Lemma C3_resource_uri_rules_witness :
  failed
    (confirm_changes Fixtures.plain_order
       [("ONC000001", Fixtures.tissue)]
       [("ONC000001", Fixtures.with_parent_code Fixtures.tissue EmptyString);
        ("ONC000021", Fixtures.minted_bone)]
       [] [] [("http://data/ONC000001", "ONC000001")]
       [("http://data/ONC000001", "ONC000001");
        ("http://data/ONC000021", "ONC000021")]
       [] [("TISSUE", "ONC000001"); ("BONE", "ONC000021")] "y")
  /\ failed
       (confirm_changes Fixtures.plain_order
          [("ONC000001", Fixtures.tissue);
           ("ONC000002", Fixtures.blank_uri_lung)]
          [("ONC000001",
            Fixtures.with_parent_code Fixtures.tissue EmptyString);
           ("ONC000002",
            Fixtures.with_parent_code Fixtures.blank_uri_lung EmptyString)]
          [] [] [("http://data/ONC000001", "ONC000001"); (" ", "ONC000002")]
          [("http://data/ONC000001", "ONC000001"); (" ", "ONC000002")]
          [] [("TISSUE", "ONC000001"); ("LUNG", "ONC000002")] "y").
Proof.
  split.
  - apply (proj1 (C3_resource_uri_rules Fixtures.plain_order
                    [("ONC000001", Fixtures.tissue)]
                    [("ONC000001",
                      Fixtures.with_parent_code Fixtures.tissue EmptyString);
                     ("ONC000021", Fixtures.minted_bone)]
                    [] [] [("http://data/ONC000001", "ONC000001")]
                    [("http://data/ONC000001", "ONC000001");
                     ("http://data/ONC000021", "ONC000021")]
                    [] [("TISSUE", "ONC000001"); ("BONE", "ONC000021")] "y")).
    exists "ONC000021", Fixtures.minted_bone.
    split; [vm_compute; auto|]. split; [reflexivity | discriminate].
  - apply (proj1 (proj2 (C3_resource_uri_rules Fixtures.plain_order
                    [("ONC000001", Fixtures.tissue);
                     ("ONC000002", Fixtures.blank_uri_lung)]
                    [("ONC000001",
                      Fixtures.with_parent_code Fixtures.tissue EmptyString);
                     ("ONC000002",
                      Fixtures.with_parent_code Fixtures.blank_uri_lung
                        EmptyString)]
                    [] []
                    [("http://data/ONC000001", "ONC000001");
                     (" ", "ONC000002")]
                    [("http://data/ONC000001", "ONC000001");
                     (" ", "ONC000002")]
                    [] [("TISSUE", "ONC000001"); ("LUNG", "ONC000002")]
                    "y"))).
    exists "ONC000002", Fixtures.blank_uri_lung,
      (Fixtures.with_parent_code Fixtures.blank_uri_lung EmptyString).
    split; [vm_compute; auto|]. split; [reflexivity|].
    split; [reflexivity|]. left. reflexivity.
Defined.

(** The claim C3 as stated fails: in this pair of snapshots, which both
    pass the validation, there is no new id, and the one retained row other
    than the root has the same non-empty resource URI, a single space, in
    both snapshots; the run ends with the error for a missing resource
    URI. *)
Lemma C3_blank_resource_uri_is_fatal :
  validate_csv_file
    (Fixtures.original [Fixtures.tissue; Fixtures.blank_uri_lung])
    EXPECTED_HEADER = (Ok tt, [])
  /\ validate_csv_file
       (Fixtures.modified
          (Fixtures.in_modified [Fixtures.tissue; Fixtures.blank_uri_lung]))
       EXPECTED_HEADER_MODIFIED_FILE = (Ok tt, [])
  /\ new_internal_ids
       [("ONC000001", Fixtures.tissue); ("ONC000002", Fixtures.blank_uri_lung)]
       [("ONC000001", Fixtures.with_parent_code Fixtures.tissue EmptyString);
        ("ONC000002",
         Fixtures.with_parent_code Fixtures.blank_uri_lung EmptyString)]
     = []
  /\ (forall row,
         In row [Fixtures.tissue; Fixtures.blank_uri_lung] ->
         resource_uri row <> EmptyString
         /\ resource_uri (Fixtures.with_parent_code row EmptyString)
            = resource_uri row)
  /\ fst (main Fixtures.plain_order
            (Fixtures.original [Fixtures.tissue; Fixtures.blank_uri_lung])
            (Fixtures.modified
               (Fixtures.in_modified
                  [Fixtures.tissue; Fixtures.blank_uri_lung]))
            [] "y")
     = Exit 1 (ResourceUriMissing "ONC000002: Lung (LUNG)").
Proof.
  split; [vm_compute; reflexivity|].
  split; [vm_compute; reflexivity|].
  split; [vm_compute; reflexivity|].
  split; [|vm_compute; reflexivity].
  intros row [<-|[<-|[]]]; split; (discriminate || reflexivity).
Qed.

(** ** Order of the report *)

(** C7: evaluation of the run on one pair of snapshots under two iteration
    orders of the set of retained ids. Both snapshots have the rows tissue,
    lung and skin, and the codes of lung and skin change. The removed, new
    and retained sets do not depend on the order, but the code-change lines
    come out in the order of the iteration: ascending by id under one
    order, descending under the other, and the two reports differ. *)
Theorem C7_code_changes_follow_set_order :
  let original_file :=
    Fixtures.original [Fixtures.tissue; Fixtures.lung; Fixtures.skin] in
  let modified_file :=
    Fixtures.modified
      (Fixtures.in_modified
         [Fixtures.tissue; Fixtures.lung_recoded; Fixtures.skin_recoded]) in
  let lung_line :=
    (tab ++ "'ONC000002: Lung (LUNG)' -> 'ONC000002: Lung (LUNG2)'")%string in
  let skin_line :=
    (tab ++ "'ONC000003: Skin (SKIN)' -> 'ONC000003: Skin (SKIN2)'")%string in
  let report h := snd (main h original_file modified_file [] "y") in
  fst (main Fixtures.plain_order original_file modified_file [] "y") = Ok tt
  /\ fst (main Fixtures.reversed_order original_file modified_file [] "y")
     = Ok tt
  /\ filter (fun line => mem line [lung_line; skin_line])
            (report Fixtures.plain_order)
     = [lung_line; skin_line]
  /\ filter (fun line => mem line [lung_line; skin_line])
            (report Fixtures.reversed_order)
     = [skin_line; lung_line]
  /\ report Fixtures.plain_order <> report Fixtures.reversed_order.
Proof.
  cbv zeta. split; [vm_compute; reflexivity|].
  split; [vm_compute; reflexivity|].
  split; [vm_compute; reflexivity|].
  split; [vm_compute; reflexivity|].
  vm_compute. discriminate.
Qed.

(** * Further properties *)

(** ** The header and the required fields *)

(** X1: a header that lacks an expected column ends the validation before
    any row is read, with exit code 1 and nothing printed; the columns named
    are exactly the expected columns that the header lacks. *)
Theorem X1_missing_header_is_fatal :
  forall (csv : csv_file) (expected_header : list column),
    header_complete csv expected_header = false ->
    exists missing,
      validate_csv_file csv expected_header
      = (Exit 1 (MissingExpectedFields missing), [])
      /\ missing <> []
      /\ (forall name,
             In name missing
             <-> In name (map column_name expected_header)
                 /\ ~ In name (fieldnames csv)).
Proof.
  intros csv expected_header H.
  set (missing := PySet.diff
                    (PySet.of_list (map column_name expected_header))
                    (PySet.of_list (fieldnames csv))).
  assert (Hin : forall name,
             In name missing
             <-> In name (map column_name expected_header)
                 /\ ~ In name (fieldnames csv)).
  { intros name. unfold missing. rewrite In_diff, !In_of_list. tauto. }
  assert (Hne : nonempty missing = true).
  { unfold header_complete in H.
    assert (Hex : exists c, In c expected_header
                            /\ mem (column_name c) (fieldnames csv) = false).
    { clear -H. induction expected_header as [|c l IH]; [discriminate|].
      simpl in H. apply andb_false_iff in H as [H|H].
      - exists c. split; [now left | exact H].
      - destruct (IH H) as (c' & Hc' & Hm). exists c'. split; [now right|].
        exact Hm. }
    destruct Hex as (c & Hc & Hm).
    apply (nonempty_In (column_name c)). apply Hin. split.
    - apply in_map, Hc.
    - apply mem_false_iff, Hm. }
  exists missing. split; [|split; [|exact Hin]].
  - unfold validate_csv_file. fold missing. rewrite Hne. reflexivity.
  - intros E. rewrite E in Hne. discriminate.
Qed.

Lemma X1_missing_header_is_fatal_witness :
  exists missing,
    validate_csv_file
      {| path := "modified.csv"; fieldnames := Fixtures.header;
         rows := [Fixtures.tissue] |}
      EXPECTED_HEADER_MODIFIED_FILE
    = (Exit 1 (MissingExpectedFields missing), [])
    /\ missing <> []
    /\ (forall name,
           In name missing
           <-> In name (map column_name EXPECTED_HEADER_MODIFIED_FILE)
               /\ ~ In name Fixtures.header).
Proof.
  apply (X1_missing_header_is_fatal
           {| path := "modified.csv"; fieldnames := Fixtures.header;
              rows := [Fixtures.tissue] |}
           EXPECTED_HEADER_MODIFIED_FILE).
  vm_compute. reflexivity.
Defined.

Lemma required_cells_present (row : Row) (c : column) :
  In c (required_fields_of row) -> exists v, cell row c = Some v.
Proof.
  unfold required_fields_of. destruct (oncotree_code row =? "TISSUE");
    cbv [TISSUE_NODE_REQUIRED_FIELDS REQUIRED_FIELDS In];
    intros H; repeat (destruct H as [<-|H]; [eexists; reflexivity|]);
    destruct H.
Qed.

Lemma first_empty_reported (p : string) (row : Row) (fields : list column)
      (c : column) :
  (forall c', In c' fields -> exists v, cell row c' = Some v) ->
  first_empty row fields = Some c ->
  fst (for_each fields
         (fun field =>
            value <- row_get row field;;
            field_is_required value (column_name field) (internal_id row) p))
  = Exit 1 (RequiredFieldEmpty (column_name c) (internal_id row)).
Proof.
  unfold first_empty, for_each.
  induction fields as [|f fields IH]; intros Hcells; simpl; [discriminate|].
  destruct (Hcells f (or_introl eq_refl)) as [v Hv].
  rewrite fst_bind. unfold row_get at 1. rewrite Hv, bind_ret.
  unfold field_is_required at 1.
  destruct (truthy v); simpl.
  - intros H. apply IH; [|exact H]. intros c' Hc'. apply Hcells. now right.
  - intros [= <-]. reflexivity.
Qed.

(** X2: the first required field that a row leaves empty ends the
    validation at that row with exit code 1, naming that field and the
    internal id of the row, before the uniqueness checks of the row and
    whatever rows follow. *)
Theorem X2_first_empty_required_field_is_fatal :
  forall (csv : csv_file) (expected_header : list column)
         (before : list Row) (row : Row) (after : list Row) (c : column),
    header_complete csv expected_header = true ->
    rows csv = before ++ row :: after ->
    succeeded (check_rows (path csv) before) ->
    first_empty row (required_fields_of row) = Some c ->
    validate_csv_file csv expected_header
    = (Exit 1 (RequiredFieldEmpty (column_name c) (internal_id row)), []).
Proof.
  intros csv expected_header before row after c Hh Hrows Hbefore Hc.
  apply validate_stops_in_first_loop; [exact Hh|].
  unfold succeeded in Hbefore. unfold check_rows in *.
  rewrite Hrows, foldM_app.
  destruct (fst (foldM (check_row (path csv)) before initial_validation_state))
    as [st| |]; try contradiction.
  cbn [foldM]. rewrite fst_bind. unfold check_row. rewrite fst_bind.
  unfold check_required_fields.
  rewrite (first_empty_reported (path csv) row _ c
             (required_cells_present row) Hc).
  reflexivity.
Qed.

Lemma X2_first_empty_required_field_is_fatal_witness :
  validate_csv_file
    (Fixtures.original
       [Fixtures.tissue; Fixtures.lung; Fixtures.colorless_copy_of_lung;
        Fixtures.skin]) EXPECTED_HEADER
  = (Exit 1 (RequiredFieldEmpty "color (OncoTree Tumor Type)" "ONC000007"),
     []).
Proof.
  apply (X2_first_empty_required_field_is_fatal
           (Fixtures.original
              [Fixtures.tissue; Fixtures.lung; Fixtures.colorless_copy_of_lung;
               Fixtures.skin]) EXPECTED_HEADER
           [Fixtures.tissue; Fixtures.lung] Fixtures.colorless_copy_of_lung
           [Fixtures.skin] COLOR).
  - vm_compute. reflexivity.
  - reflexivity.
  - vm_compute. exact I.
  - vm_compute. reflexivity.
Defined.

(** ** The first loop as a whole *)

Lemma truthy_eqb (s : string) : negb (s =? EmptyString) = truthy s.
Proof. destruct s; reflexivity. Qed.

Lemma NoDup_snoc {A} (a : list A) (x : A) :
  NoDup (a ++ [x]) <-> NoDup a /\ ~ In x a.
Proof.
  split.
  - intros H. apply (Permutation_NoDup (l' := x :: a)) in H.
    + inversion H; subst. tauto.
    + apply Permutation_sym, Permutation_cons_append.
  - intros [Ha Hx]. apply (Permutation_NoDup (l := x :: a)).
    + apply Permutation_cons_append.
    + constructor; assumption.
Qed.

Lemma distinct_snoc (field : Row -> string) (l : list Row) (r : Row) :
  NoDup (filter truthy (map field (l ++ [r])))
  <-> NoDup (filter truthy (map field l)) /\ repeats field l r = false.
Proof.
  rewrite map_app, filter_app. unfold repeats. rewrite truthy_eqb.
  cbn [map filter]. destruct (truthy (field r)) eqn:T; cbn [negb andb].
  - rewrite NoDup_snoc, filter_In, T, mem_false_iff. tauto.
  - rewrite app_nil_r. tauto.
Qed.

Lemma check_row_succeeded_iff (p : string) (l : list Row)
      (st : validation_state) (r : Row) :
  fst (check_rows p l) = Ok st ->
  succeeded (check_row p st r)
  <-> filled r (required_fields_of r) = true
      /\ repeats resource_uri l r = false
      /\ repeats internal_id l r = false
      /\ repeats oncotree_code l r = false.
Proof.
  intros Hl.
  pose proof (check_rows_recorded _ _ _ _ Hl) as (Hu & Hi & Hc & _).
  destruct (filled r (required_fields_of r)) eqn:F.
  - unfold succeeded. rewrite (check_row_filled p st r F).
    rewrite (check_rows_seen _ _ _ resource_uri resource_uri_set r Hl Hu),
            (check_rows_seen _ _ _ internal_id internal_id_set r Hl Hi),
            (check_rows_seen _ _ _ oncotree_code oncotree_code_set r Hl Hc).
    destruct (repeats resource_uri l r); [simpl; intuition discriminate|].
    destruct (repeats internal_id l r); [simpl; intuition discriminate|].
    destruct (repeats oncotree_code l r); simpl; intuition discriminate.
  - split; [|intros [H _]; discriminate].
    intros H. exfalso. pose proof (check_required_fields_empty p r F) as Hf.
    unfold succeeded, check_row in H. rewrite fst_bind in H.
    unfold failed in Hf.
    destruct (fst (check_required_fields p r)); contradiction.
Qed.

Lemma check_rows_snoc (p : string) (l : list Row) (r : Row) :
  succeeded (check_rows p (l ++ [r]))
  <-> exists st, fst (check_rows p l) = Ok st
                 /\ succeeded (check_row p st r).
Proof.
  unfold succeeded, check_rows. rewrite foldM_app.
  destruct (fst (foldM (check_row p) l initial_validation_state))
    as [st| |] eqn:E.
  - cbn [foldM]. rewrite fst_bind. split.
    + intros H. exists st. split; [reflexivity|].
      destruct (fst (check_row p st r)); [exact I | contradiction..].
    + intros (st' & [= <-] & H).
      destruct (fst (check_row p st r)); [exact I | contradiction..].
  - split; [contradiction | intros (st & H & _); discriminate].
  - split; [contradiction | intros (st & H & _); discriminate].
Qed.

(** What a snapshot that passes the first loop satisfies. *)
Lemma check_rows_distinct (p : string) (l : list Row) :
  succeeded (check_rows p l) ->
  (forall row, In row l -> filled row (required_fields_of row) = true)
  /\ NoDup (filter truthy (map resource_uri l))
  /\ NoDup (filter truthy (map internal_id l))
  /\ NoDup (filter truthy (map oncotree_code l)).
Proof.
  induction l as [|r l IH] using rev_ind.
  - intros _. repeat split; try constructor. intros row [].
  - rewrite check_rows_snoc, !distinct_snoc. intros (st & Hl & Hr).
    apply (check_row_succeeded_iff p l st r Hl) in Hr as (Hf & R1 & R2 & R3).
    assert (Hok : succeeded (check_rows p l)).
    { unfold succeeded. rewrite Hl. exact I. }
    apply IH in Hok as (Hall & N1 & N2 & N3).
    repeat split; try assumption.
    intros row Hin. apply in_app_iff in Hin as [Hin|[<-|[]]]; auto.
Qed.

(** X3: the first loop over the rows ends normally exactly when every row
    fills its required fields and no non-empty resource URI, internal id or
    oncotree code occurs in two rows. *)
Theorem X3_first_loop_passes_iff :
  forall (p : string) (l : list Row),
    succeeded (check_rows p l)
    <-> (forall row, In row l -> filled row (required_fields_of row) = true)
        /\ NoDup (filter truthy (map resource_uri l))
        /\ NoDup (filter truthy (map internal_id l))
        /\ NoDup (filter truthy (map oncotree_code l)).
Proof.
  intros p l. split; [apply check_rows_distinct|].
  induction l as [|r l IH] using rev_ind.
  - intros _. exact I.
  - rewrite check_rows_snoc, !distinct_snoc.
    intros (Hall & [N1 R1] & [N2 R2] & [N3 R3]).
    assert (Hok : succeeded (check_rows p l)).
    { apply IH. repeat split; try assumption.
      intros row Hin. apply Hall, in_app_iff. now left. }
    unfold succeeded in Hok.
    destruct (fst (check_rows p l)) as [st| |] eqn:E; try contradiction.
    exists st. split; [reflexivity|].
    apply (check_row_succeeded_iff p l st r E).
    repeat split; try assumption.
    apply Hall, in_app_iff. right. now left.
Qed.

(** ** The second loop and the accumulated errors *)

Lemma for_each_print {A} (g : A -> string) (l : list A) :
  for_each l (fun x => print (g x)) = (Ok tt, map g l).
Proof.
  unfold for_each. induction l as [|x l IH]; [reflexivity|].
  cbn [foldM map bind print]. rewrite IH. reflexivity.
Qed.

Lemma check_links_other_accumulates (st : validation_state)
      (lm pi : list string) (row : Row) :
  links_consistent st ->
  (oncotree_code row =? "TISSUE") = false ->
  exists more,
    check_links st (lm, pi) row
    = (Ok (lm ++ map label_mismatch_message (label_mismatches [row]),
           pi ++ more), []).
Proof.
  intros Hst H. unfold check_links, label_mismatches. rewrite H.
  cbn [negb filter map].
  destruct (parent_check_total (parent_resource_uri row) (parent_label row)
              st Hst) as [b ->].
  change (Ok b, @nil string) with (ret b). rewrite bind_ret.
  destruct b; destruct (negb (label row =? preferred_label row));
    cbn [map]; rewrite ?H, ?app_nil_r.
  - exists [parent_invalid_message row]. reflexivity.
  - exists [parent_invalid_message row]. reflexivity.
  - exists []. rewrite app_nil_r. reflexivity.
  - exists []. rewrite app_nil_r. reflexivity.
Qed.

Lemma check_links_accumulates (st : validation_state) (l : list Row) :
  links_consistent st ->
  (forall row, In row l -> oncotree_code row = "TISSUE" ->
               has_parent_field row = false) ->
  forall lm pi,
  exists more,
    foldM (check_links st) l (lm, pi)
    = (Ok (lm ++ map label_mismatch_message (label_mismatches l),
           pi ++ more), []).
Proof.
  intros Hst. induction l as [|r l IH]; intros Hroot lm pi.
  - exists []. cbn. rewrite !app_nil_r. reflexivity.
  - assert (Hroot' : forall row, In row l -> oncotree_code row = "TISSUE" ->
                                 has_parent_field row = false).
    { intros row Hin. apply Hroot. now right. }
    cbn [foldM].
    assert (Hone : exists more,
               check_links st (lm, pi) r
               = (Ok (lm ++ map label_mismatch_message (label_mismatches [r]),
                      pi ++ more), [])).
    { destruct (String.eqb_spec (oncotree_code r) "TISSUE") as [Hr|Hr].
      - rewrite (check_links_tissue st (lm, pi) r Hr).
        rewrite (Hroot r (or_introl eq_refl) Hr).
        exists []. unfold label_mismatches. cbn [fst snd filter map].
        destruct (negb (label r =? preferred_label r));
          cbn [map]; rewrite ?app_nil_r; reflexivity.
      - apply String.eqb_neq in Hr.
        apply (check_links_other_accumulates st lm pi r Hst Hr). }
    destruct Hone as [more1 ->].
    destruct (IH Hroot'
                 (lm ++ map label_mismatch_message (label_mismatches [r]))
                 (pi ++ more1)) as [more2 E].
    exists (more1 ++ more2). unfold bind. rewrite E.
    unfold label_mismatches. cbn [filter].
    destruct (negb (label r =? preferred_label r));
      cbn [map app]; rewrite <- ?app_assoc, ?app_nil_r; reflexivity.
Qed.

Lemma report_validation_errors_outcome (p : string) (lm pi : list string) :
  fst (report_validation_errors p (lm, pi))
  = (if nonempty lm || nonempty pi then Exit 1 ValidationErrors else Ok tt)
  /\ (forall m, In m lm ->
                In (tab ++ m)%string (snd (report_validation_errors p (lm, pi)))).
Proof.
  unfold report_validation_errors.
  rewrite !for_each_print.
  destruct lm as [|m0 lm]; destruct pi as [|q0 pi];
    cbn [nonempty orb bind print ret sys_exit fst snd app map];
    (split; [reflexivity|]); intros m Hin.
  - destruct Hin.
  - destruct Hin.
  - right.
    destruct Hin as [<-|Hin]; [left; reflexivity | right].
    apply in_app_iff. left. apply in_map, Hin.
  - right.
    destruct Hin as [<-|Hin]; [left; reflexivity | right].
    apply in_app_iff. left. apply in_map, Hin.
Qed.

(** X4: when the first loop has passed and no root row has a parent cell
    filled, the second loop accumulates the label mismatch of every row
    whose label and preferred label differ, in file order; if there is one
    the validation ends with exit code 1 after printing all of them. *)
Theorem X4_label_mismatches_are_accumulated :
  forall (csv : csv_file) (expected_header : list column),
    header_complete csv expected_header = true ->
    succeeded (check_rows (path csv) (rows csv)) ->
    (forall row, In row (rows csv) -> oncotree_code row = "TISSUE" ->
                 has_parent_field row = false) ->
    exists parent_invalid_errors,
      validate_csv_file csv expected_header
      = report_validation_errors (path csv)
          (map label_mismatch_message (label_mismatches (rows csv)),
           parent_invalid_errors)
      /\ (label_mismatches (rows csv) <> [] ->
          fst (validate_csv_file csv expected_header)
          = Exit 1 ValidationErrors
          /\ forall row,
               In row (label_mismatches (rows csv)) ->
               In (tab ++ label_mismatch_message row)%string
                  (snd (validate_csv_file csv expected_header)))
      /\ (label_mismatches (rows csv) = [] -> parent_invalid_errors = [] ->
          validate_csv_file csv expected_header = (Ok tt, [])).
Proof.
  intros csv expected_header Hh Hok Hroot.
  unfold succeeded in Hok.
  destruct (fst (check_rows (path csv) (rows csv))) as [st| |] eqn:E;
    try contradiction.
  destruct (check_links_accumulates st (rows csv)
              (check_rows_links_consistent _ _ _ E) Hroot [] [])
    as [more Hloop].
  cbn [app] in Hloop.
  assert (Hv : validate_csv_file csv expected_header
               = report_validation_errors (path csv)
                   (map label_mismatch_message (label_mismatches (rows csv)),
                    more)).
  { rewrite (validate_csv_file_complete _ _ Hh).
    rewrite (pair_eta (check_rows _ _)), E. unfold check_rows.
    rewrite check_rows_silent. unfold bind at 1. rewrite Hloop.
    unfold bind at 1.
    destruct (report_validation_errors _ _). reflexivity. }
  exists more. split; [exact Hv|]. split.
  - intros Hne. rewrite Hv.
    destruct (report_validation_errors_outcome (path csv)
                (map label_mismatch_message (label_mismatches (rows csv)))
                more) as [Hfst Hsnd].
    split.
    + rewrite Hfst.
      destruct (label_mismatches (rows csv)); [contradiction | reflexivity].
    + intros row Hin. apply Hsnd, in_map, Hin.
  - intros Hnone ->. rewrite Hv, Hnone. reflexivity.
Qed.

Lemma X4_label_mismatches_are_accumulated_witness :
  fst (validate_csv_file
         (Fixtures.original
            [Fixtures.tissue; Fixtures.mislabelled_lung;
             Fixtures.mislabelled_skin]) EXPECTED_HEADER)
  = Exit 1 ValidationErrors
  /\ forall row,
       In row [Fixtures.mislabelled_lung; Fixtures.mislabelled_skin] ->
       In (tab ++ label_mismatch_message row)%string
          (snd (validate_csv_file
                  (Fixtures.original
                     [Fixtures.tissue; Fixtures.mislabelled_lung;
                      Fixtures.mislabelled_skin]) EXPECTED_HEADER)).
Proof.
  assert (Hh : header_complete
                 (Fixtures.original
                    [Fixtures.tissue; Fixtures.mislabelled_lung;
                     Fixtures.mislabelled_skin]) EXPECTED_HEADER = true).
  { vm_compute. reflexivity. }
  assert (Hok : succeeded
                  (check_rows "original.csv"
                     [Fixtures.tissue; Fixtures.mislabelled_lung;
                      Fixtures.mislabelled_skin])).
  { vm_compute. exact I. }
  assert (Hroot : forall row,
             In row [Fixtures.tissue; Fixtures.mislabelled_lung;
                     Fixtures.mislabelled_skin] ->
             oncotree_code row = "TISSUE" -> has_parent_field row = false).
  { intros row [<-|[<-|[<-|[]]]] H; (reflexivity || discriminate H). }
  destruct (X4_label_mismatches_are_accumulated _ _ Hh Hok Hroot)
    as (pe & _ & H & _).
  apply H. vm_compute. discriminate.
Defined.

(** ** The maps built from a snapshot *)

Lemma last_with_snoc (key : Row -> string) (k : string) (l : list Row)
      (r : Row) :
  last_with key k (l ++ [r])
  = if key r =? k then Some r else last_with key k l.
Proof. unfold last_with. rewrite rev_app_distr. reflexivity. Qed.

Lemma get_built {V} (key : Row -> string) (value : Row -> V) (k : string)
      (l : list Row) :
  forall d0,
    PyDict.get k (fold_left (fun d row => PyDict.set (key row) (value row) d)
                            l d0)
    = match last_with key k l with
      | Some r => Some (value r)
      | None => PyDict.get k d0
      end.
Proof.
  induction l as [|r l IH] using rev_ind; intros d0; [reflexivity|].
  rewrite fold_left_app, last_with_snoc. cbn [fold_left].
  rewrite get_set, (String.eqb_sym k). destruct (key r =? k); [reflexivity|].
  apply IH.
Qed.

Lemma last_with_none_iff (key : Row -> string) (k : string) (l : list Row) :
  last_with key k l = None <-> ~ In k (map key l).
Proof.
  unfold last_with. rewrite in_map_iff. split.
  - intros E (r & Hk & Hin). apply in_rev in Hin.
    pose proof (find_none _ _ E r Hin) as Hn. cbn in Hn.
    rewrite Hk, String.eqb_refl in Hn. discriminate.
  - intros H. destruct (find _ (rev l)) as [r|] eqn:E; [|reflexivity].
    exfalso. apply find_some in E as [Hin Hk]. apply H. exists r.
    split; [apply String.eqb_eq, Hk | apply in_rev, Hin].
Qed.

Lemma has_built {V} (key : Row -> string) (value : Row -> V) (k : string)
      (l : list Row) :
  PyDict.has k (fold_left (fun d row => PyDict.set (key row) (value row) d)
                          l [])
  = true <-> In k (map key l).
Proof.
  unfold PyDict.has. rewrite get_built.
  destruct (last_with key k l) as [r|] eqn:E.
  - split; [intros _|reflexivity].
    destruct (in_dec string_dec k (map key l)) as [H|H]; [exact H|].
    apply last_with_none_iff in H. congruence.
  - apply last_with_none_iff in E. simpl. split; [discriminate | tauto].
Qed.

(** X5: in the map from resource URI to internal id and in the map from
    oncotree code to internal id, a key maps to the internal id of the last
    row of the snapshot that has it, and the keys are the values that some
    row has. *)
Theorem X5_last_row_wins :
  forall (csv : csv_file) (k : string),
    PyDict.get k (get_resource_uri_to_internal_ids csv)
    = option_map internal_id (last_with resource_uri k (rows csv))
    /\ PyDict.get k (get_oncotree_codes_to_internal_ids csv)
       = option_map internal_id (last_with oncotree_code k (rows csv))
    /\ (PyDict.has k (get_resource_uri_to_internal_ids csv) = true
        <-> In k (map resource_uri (rows csv)))
    /\ (PyDict.has k (get_oncotree_codes_to_internal_ids csv) = true
        <-> In k (map oncotree_code (rows csv))).
Proof.
  intros csv k.
  unfold get_resource_uri_to_internal_ids, get_oncotree_codes_to_internal_ids.
  split; [|split; [|split]].
  - rewrite get_built. destruct (last_with resource_uri k (rows csv));
      reflexivity.
  - rewrite get_built. destruct (last_with oncotree_code k (rows csv));
      reflexivity.
  - apply has_built.
  - apply has_built.
Qed.

Lemma filled_key_fields (row : Row) :
  filled row (required_fields_of row) = true ->
  truthy (internal_id row) = true /\ truthy (oncotree_code row) = true.
Proof.
  unfold required_fields_of, filled.
  destruct (oncotree_code row =? "TISSUE");
    cbn [TISSUE_NODE_REQUIRED_FIELDS REQUIRED_FIELDS forallb cell];
    rewrite !andb_true_iff; tauto.
Qed.

Lemma last_with_unique (key : Row -> string) (l : list Row) (r : Row) :
  NoDup (filter truthy (map key l)) ->
  In r l -> truthy (key r) = true ->
  last_with key (key r) l = Some r.
Proof.
  induction l as [|x l IH] using rev_ind; intros Hn Hin Ht; [destruct Hin|].
  apply distinct_snoc in Hn as [Hn Hx]. rewrite last_with_snoc.
  apply in_app_iff in Hin as [Hin|[->|[]]].
  - destruct (String.eqb_spec (key x) (key r)) as [E|E]; [|auto].
    exfalso. unfold repeats in Hx. rewrite truthy_eqb, E, Ht in Hx.
    cbn [andb] in Hx. apply mem_false_iff in Hx. apply Hx.
    apply in_map, Hin.
  - rewrite String.eqb_refl. reflexivity.
Qed.

Lemma filter_all {A} (f : A -> bool) (l : list A) :
  (forall x, In x l -> f x = true) -> filter f l = l.
Proof.
  induction l as [|x l IH]; intros H; [reflexivity|].
  cbn [filter]. rewrite (H x (or_introl eq_refl)), IH; [reflexivity|].
  intros y Hy. apply H. now right.
Qed.

(** In a snapshot that passes the first loop the internal ids and the
    oncotree codes are pairwise distinct. *)
Lemma check_rows_keys_distinct (p : string) (l : list Row) :
  succeeded (check_rows p l) ->
  NoDup (map internal_id l) /\ NoDup (map oncotree_code l).
Proof.
  intros H. apply check_rows_distinct in H as (Hall & _ & Ni & Nc).
  rewrite filter_all in Ni, Nc.
  - tauto.
  - intros x Hx. apply in_map_iff in Hx as (r & <- & Hr).
    apply filled_key_fields, Hall, Hr.
  - intros x Hx. apply in_map_iff in Hx as (r & <- & Hr).
    apply filled_key_fields, Hall, Hr.
Qed.

Lemma set_fresh {V} (k : string) (v : V) (d : PyDict.t V) :
  ~ In k (PyDict.keys d) -> PyDict.set k v d = d ++ [(k, v)].
Proof.
  induction d as [|[k0 v0] d IH]; intros H; [reflexivity|].
  cbn [PyDict.set app]. cbn in H.
  destruct (String.eqb_spec k k0) as [->|N]; [tauto|].
  rewrite IH; [reflexivity | tauto].
Qed.

Lemma built_fresh (key value : Row -> string) (l : list Row) :
  NoDup (map key l) ->
  fold_left (fun d row => PyDict.set (key row) (value row) d) l []
  = map (fun row => (key row, value row)) l.
Proof.
  induction l as [|r l IH] using rev_ind; intros H; [reflexivity|].
  rewrite map_app in H. apply NoDup_snoc in H as [Hl Hr].
  rewrite fold_left_app. cbn [fold_left]. rewrite (IH Hl), map_app.
  apply set_fresh. unfold PyDict.keys. rewrite map_map. exact Hr.
Qed.

Lemma find_by_value (key value : Row -> string) (l : list Row) (r : Row) :
  NoDup (map value l) -> In r l ->
  find (fun kv => snd kv =? value r) (map (fun row => (key row, value row)) l)
  = Some (key r, value r).
Proof.
  induction l as [|x l IH]; intros Hn Hin; [destruct Hin|].
  cbn [map find snd]. inversion Hn as [|? ? Hx Hl]; subst.
  destruct (String.eqb_spec (value x) (value r)) as [E|E].
  - destruct Hin as [->|Hin]; [reflexivity|].
    exfalso. apply Hx. rewrite E. apply in_map, Hin.
  - destruct Hin as [->|Hin]; [congruence|]. apply IH; assumption.
Qed.

Lemma In_set {V} (kv : string * V) (k : string) (v : V) (d : PyDict.t V) :
  In kv (PyDict.set k v d) -> kv = (k, v) \/ In kv d.
Proof.
  induction d as [|[k0 v0] d IH]; cbn [PyDict.set].
  - intros [<-|[]]. now left.
  - destruct (String.eqb_spec k k0) as [->|N]; cbn [In].
    + intros [<-|H]; auto.
    + intros [<-|H]; [auto|]. apply IH in H as [H|H]; auto.
Qed.

Lemma built_values (key value : Row -> string) (l : list Row) kv :
  In kv (fold_left (fun d row => PyDict.set (key row) (value row) d) l []) ->
  In (snd kv) (map value l).
Proof.
  induction l as [|r l IH] using rev_ind; [intros []|].
  rewrite fold_left_app, map_app, in_app_iff. cbn [fold_left].
  intros H. apply In_set in H as [->|H]; [right; now left | left; auto].
Qed.

(** X6: in a snapshot that passes the first loop, looking up the oncotree
    code of the internal id of a row in the map from codes to internal ids
    gives back the code of that row; for an internal id that no row has the
    lookup ends the run with exit code 1. *)
Theorem X6_code_of_internal_id_round_trip :
  forall (p : string) (csv : csv_file),
    (succeeded (check_rows p (rows csv)) ->
     forall row,
       In row (rows csv) ->
       get_oncotree_code_from_internal_id
         (get_oncotree_codes_to_internal_ids csv) (internal_id row)
       = (Ok (oncotree_code row), []))
    /\ (forall id,
           ~ In id (map internal_id (rows csv)) ->
           get_oncotree_code_from_internal_id
             (get_oncotree_codes_to_internal_ids csv) id
           = (Exit 1 (NoCodeForInternalId id), [])).
Proof.
  intros p csv. split.
  - intros Hok row Hin.
    apply check_rows_keys_distinct in Hok as [Ni Nc].
    unfold get_oncotree_code_from_internal_id,
      get_oncotree_codes_to_internal_ids.
    rewrite (built_fresh oncotree_code internal_id _ Nc).
    rewrite (find_by_value oncotree_code internal_id _ row Ni Hin).
    reflexivity.
  - intros id Hid. unfold get_oncotree_code_from_internal_id.
    destruct (find _ (get_oncotree_codes_to_internal_ids csv))
      as [[code v]|] eqn:E; [|reflexivity].
    exfalso. apply find_some in E as [Hin Hv]. cbn in Hv.
    apply String.eqb_eq in Hv. subst v.
    apply (built_values oncotree_code internal_id) in Hin. exact (Hid Hin).
Qed.

Lemma X6_code_of_internal_id_round_trip_witness :
  get_oncotree_code_from_internal_id
    (get_oncotree_codes_to_internal_ids
       (Fixtures.original [Fixtures.tissue; Fixtures.lung; Fixtures.skin]))
    "ONC000002"
  = (Ok "LUNG", [])
  /\ get_oncotree_code_from_internal_id
       (get_oncotree_codes_to_internal_ids
          (Fixtures.original [Fixtures.tissue; Fixtures.lung; Fixtures.skin]))
       "ONC000099"
     = (Exit 1 (NoCodeForInternalId "ONC000099"), []).
Proof.
  destruct (X6_code_of_internal_id_round_trip "original.csv"
              (Fixtures.original
                 [Fixtures.tissue; Fixtures.lung; Fixtures.skin]))
    as [H1 H2].
  split.
  - apply (H1 ltac:(vm_compute; exact I) Fixtures.lung).
    right. left. reflexivity.
  - apply H2. intros [H|[H|[H|[]]]]; discriminate H.
Defined.

(** X7: in a snapshot that passes the first loop, a row that has a
    resource URI is resolved as a parent to its own internal id, both
    through its oncotree code and, when no parent code is given, through
    its resource URI. *)
Theorem X7_parent_by_code_and_by_uri_agree :
  forall (p : string) (csv : csv_file) (child : string) (parent : Row),
    succeeded (check_rows p (rows csv)) ->
    In parent (rows csv) ->
    resource_uri parent <> EmptyString ->
    let codes := get_oncotree_codes_to_internal_ids csv in
    let uris := get_resource_uri_to_internal_ids csv in
    get_parent_internal_id child (resource_uri parent)
      (Some (oncotree_code parent)) codes uris
    = (Ok (internal_id parent), [])
    /\ get_parent_internal_id child (resource_uri parent)
         (Some EmptyString) codes uris
       = (Ok (internal_id parent), [])
    /\ get_parent_internal_id child (resource_uri parent) None codes uris
       = (Ok (internal_id parent), []).
Proof.
  intros p csv child parent Hok Hin Huri codes uris.
  apply check_rows_distinct in Hok as (Hall & Nu & _ & Nc).
  destruct (filled_key_fields parent (Hall parent Hin)) as [_ Hcode].
  apply truthy_true_iff in Huri.
  assert (Hc : PyDict.get (oncotree_code parent) codes
               = Some (internal_id parent)).
  { unfold codes, get_oncotree_codes_to_internal_ids.
    rewrite get_built, (last_with_unique oncotree_code _ parent Nc Hin Hcode).
    reflexivity. }
  assert (Hu : PyDict.get (resource_uri parent) uris
               = Some (internal_id parent)).
  { unfold uris, get_resource_uri_to_internal_ids.
    rewrite get_built, (last_with_unique resource_uri _ parent Nu Hin Huri).
    reflexivity. }
  unfold get_parent_internal_id, PyDict.has, lookup.
  rewrite Hcode, Hc, Huri, Hu. cbn. auto.
Qed.

Lemma X7_parent_by_code_and_by_uri_agree_witness :
  get_parent_internal_id "ONC000002" "http://data/ONC000001" (Some "TISSUE")
    (get_oncotree_codes_to_internal_ids
       (Fixtures.original [Fixtures.tissue; Fixtures.lung; Fixtures.skin]))
    (get_resource_uri_to_internal_ids
       (Fixtures.original [Fixtures.tissue; Fixtures.lung; Fixtures.skin]))
  = (Ok "ONC000001", [])
  /\ get_parent_internal_id "ONC000002" "http://data/ONC000001" None
       (get_oncotree_codes_to_internal_ids
          (Fixtures.original [Fixtures.tissue; Fixtures.lung; Fixtures.skin]))
       (get_resource_uri_to_internal_ids
          (Fixtures.original [Fixtures.tissue; Fixtures.lung; Fixtures.skin]))
     = (Ok "ONC000001", []).
Proof.
  assert (Hok : succeeded
                  (check_rows "original.csv"
                     (rows (Fixtures.original
                              [Fixtures.tissue; Fixtures.lung;
                               Fixtures.skin])))).
  { vm_compute. exact I. }
  assert (Huri : resource_uri Fixtures.tissue <> EmptyString).
  { discriminate. }
  pose proof (X7_parent_by_code_and_by_uri_agree "original.csv"
                (Fixtures.original
                   [Fixtures.tissue; Fixtures.lung; Fixtures.skin])
                "ONC000002" Fixtures.tissue Hok (or_introl eq_refl) Huri)
    as W.
  cbv zeta in W. destruct W as (W1 & _ & W3). split; [exact W1 | exact W3].
Defined.

(** ** A parent URI that no row carries *)

(** X8: for a retained id other than ONC000001 whose resource URI passes
    the two checks, when the modified row has an empty parent code and a
    parent URI that no row of the modified snapshot carries, the comparison
    ends with an uncaught KeyError on that URI and prints no diagnostic. *)
Theorem X8_unknown_parent_uri_raises_key_error :
  forall (original_oncotree modified_oncotree : PyDict.t Row)
         (original_uris codes : PyDict.t string) (modified_file : csv_file)
         (messages : list string * list string) (id : string) (o m : Row),
    PyDict.get id original_oncotree = Some o ->
    PyDict.get id modified_oncotree = Some m ->
    strip (resource_uri o) <> EmptyString ->
    resource_uri o = resource_uri m ->
    id <> "ONC000001" ->
    parent_oncotree_code m = Some EmptyString ->
    parent_resource_uri m <> EmptyString ->
    ~ In (parent_resource_uri m) (map resource_uri (rows modified_file)) ->
    compare_retained original_oncotree modified_oncotree original_uris
      (get_resource_uri_to_internal_ids modified_file) codes messages id
    = (KeyError (parent_resource_uri m), []).
Proof.
  intros original_oncotree modified_oncotree original_uris codes modified_file
         [cm pm] id o m Ho Hm Hblank Hsame Hid Hcode Huri Habsent.
  unfold compare_retained.
  rewrite (lookup_some _ _ _ Ho), bind_ret, (lookup_some _ _ _ Hm), bind_ret.
  apply String.eqb_neq in Hblank, Hid. rewrite Hblank, Hid.
  rewrite <- Hsame, String.eqb_refl. cbn [negb].
  unfold parent_codes, row_get. cbn [cell]. rewrite Hcode, bind_ret.
  cbn [truthy negb]. unfold get_parent_internal_id.
  apply truthy_true_iff in Huri. rewrite Huri. cbn [truthy negb].
  assert (Hget : PyDict.get (parent_resource_uri m)
                   (get_resource_uri_to_internal_ids modified_file) = None).
  { destruct (PyDict.get (parent_resource_uri m)
                (get_resource_uri_to_internal_ids modified_file)) eqn:E;
      [|reflexivity].
    exfalso.
    apply Habsent. apply (has_built resource_uri internal_id).
    unfold PyDict.has. unfold get_resource_uri_to_internal_ids in E.
    rewrite E. reflexivity. }
  unfold lookup. rewrite Hget. reflexivity.
Qed.

Lemma X8_unknown_parent_uri_raises_key_error_witness :
  compare_retained
    [("ONC000004", Fixtures.orphan)]
    [("ONC000004", Fixtures.with_parent_code Fixtures.orphan EmptyString)]
    [] 
    (get_resource_uri_to_internal_ids
       (Fixtures.modified
          (Fixtures.in_modified [Fixtures.tissue; Fixtures.orphan])))
    [] ([], []) "ONC000004"
  = (KeyError "http://data/ONC000099", []).
Proof.
  apply (X8_unknown_parent_uri_raises_key_error
           [("ONC000004", Fixtures.orphan)]
           [("ONC000004", Fixtures.with_parent_code Fixtures.orphan EmptyString)]
           [] []
           (Fixtures.modified
              (Fixtures.in_modified [Fixtures.tissue; Fixtures.orphan]))
           ([], []) "ONC000004" Fixtures.orphan
           (Fixtures.with_parent_code Fixtures.orphan EmptyString)).
  - reflexivity.
  - reflexivity.
  - intros E. vm_compute in E. discriminate E.
  - reflexivity.
  - discriminate.
  - reflexivity.
  - discriminate.
  - intros [H|[H|[]]]; discriminate H.
Defined.

(** ** The removed section of the report *)

Lemma for_each_pretty (d : PyDict.t Row) (l : list string) :
  (forall id, In id l -> In id (PyDict.keys d)) ->
  for_each l (fun id => data <- lookup id d;;
                        print (tab ++ pretty_label_of data))
  = (Ok tt, map (fun id => (tab ++ pretty_label_in d id)%string) l).
Proof.
  unfold for_each. induction l as [|x l IH]; intros H; [reflexivity|].
  destruct (lookup_present x d (H x (or_introl eq_refl))) as [v Hv].
  cbn [foldM map]. rewrite Hv.
  assert (Hg : PyDict.get x d = Some v).
  { unfold lookup in Hv. destruct (PyDict.get x d); [|discriminate].
    injection Hv as ->. reflexivity. }
  unfold pretty_label_in at 1. rewrite Hg. cbn [bind print].
  rewrite IH; [reflexivity|].
  intros id Hid. apply H. now right.
Qed.

(** X10: the removed section never fails; under its heading it lists the
    rows of the ids that the original snapshot has and the modified one
    lacks, each once and in ascending order of the id, followed by the
    reminder to delete them, or None when there is no such id. *)
Theorem X10_removed_section :
  forall (original_oncotree modified_oncotree : PyDict.t Row),
    let removed := removed_internal_ids original_oncotree modified_oncotree in
    report_removed original_oncotree modified_oncotree
    = (Ok tt,
       (nl ++ "Removed internal ids:")%string
         :: (if nonempty removed
             then map (fun id =>
                         (tab ++ pretty_label_in original_oncotree id)%string)
                      (sorted removed)
                    ++ [(nl ++ "****** All removed Oncotree nodes must be manually deleted from Graphite")%string]
             else [(tab ++ "None")%string]))
    /\ Sorted (fun a b => (a <=? b)%string = true) (sorted removed)
    /\ NoDup (sorted removed)
    /\ (forall id,
           In id (sorted removed)
           <-> In id (PyDict.keys original_oncotree)
               /\ ~ In id (PyDict.keys modified_oncotree)).
Proof.
  intros original_oncotree modified_oncotree removed.
  assert (Hin : forall id,
             In id (sorted removed)
             <-> In id (PyDict.keys original_oncotree)
                 /\ ~ In id (PyDict.keys modified_oncotree)).
  { intros id. rewrite In_sorted. apply In_removed. }
  split; [|split; [apply sorted_Sorted | split; [|exact Hin]]].
  - unfold report_removed. fold removed.
    destruct (nonempty removed); [|reflexivity].
    rewrite for_each_pretty; [reflexivity|].
    intros id Hid. apply Hin, Hid.
  - apply (Permutation_NoDup (l := removed)).
    + apply Permutation_sym, sorted_perm.
    + unfold removed, removed_internal_ids, PySet.diff.
      apply NoDup_filter. unfold original_internal_id_set.
      generalize (PyDict.keys original_oncotree). intros l.
      induction l as [|x l IH]; cbn [PySet.of_list]; [constructor|].
      destruct (mem x l) eqn:E; [exact IH|].
      constructor; [|exact IH]. rewrite In_of_list. apply mem_false_iff, E.
Qed.

(** ** Exit codes and the confirmation *)

Lemma get_parent_internal_id_exits_one child uri code codes uris :
  only_exits (fun c e => c = 1 /\ exits_with_one e)
    (get_parent_internal_id child uri code codes uris).
Proof.
  unfold get_parent_internal_id, only_exits.
  destruct code as [c|]; [destruct (truthy c)|].
  - destruct (PyDict.has c codes); [apply only_exits_lookup | cbn; auto].
  - destruct (truthy uri); cbn; [apply only_exits_lookup | auto].
  - destruct (truthy uri); cbn; [apply only_exits_lookup | auto].
Qed.

Lemma get_oncotree_code_from_internal_id_exits_one codes id :
  only_exits (fun c e => c = 1 /\ exits_with_one e)
    (get_oncotree_code_from_internal_id codes id).
Proof.
  unfold get_oncotree_code_from_internal_id, only_exits.
  destruct (find _ codes) as [[code v]|]; cbn; auto.
Qed.

Ltac exits_one :=
  repeat first
    [ exact I
    | apply only_exits_lookup
    | apply row_get_exits
    | apply get_parent_internal_id_exits_one
    | apply get_oncotree_code_from_internal_id_exits_one
    | (apply only_exits_bind; [|intros ?])
    | (apply only_exits_foldM; intros ? ? ?)
    | match goal with
      | |- only_exits _ (if ?b then _ else _) => destruct b
      | |- only_exits _ (let (_, _) := ?p in _) => destruct p
      | |- only_exits _ (match ?x with _ => _ end) => destruct x
      end
    | (unfold only_exits; cbn [fst sys_exit]; split; [reflexivity | exact I]) ].

Lemma confirm_change_value (message answer : string) :
  confirm_change message answer
  = (Ok (accepted answer),
     [(nl ++ message)%string;
      "Enter [y]es if the changes were intentional, [n]o if not: "]).
Proof.
  unfold confirm_change, accepted.
  destruct (mem (lower answer) ["y"; "yes"]); reflexivity.
Qed.

Lemma confirm_changes_rejected
      (h : hash_order) (original_oncotree modified_oncotree : PyDict.t Row)
      (precursor_index revocation_index : PyDict.t PySet.t)
      (original_uris modified_uris internal_id_to_oncocodes codes
         : PyDict.t string) (answer : string) :
  accepted answer = false ->
  failed (confirm_changes h original_oncotree modified_oncotree
            precursor_index revocation_index original_uris modified_uris
            internal_id_to_oncocodes codes answer).
Proof.
  intros H. unfold confirm_changes.
  do 7 (apply failed_bind_r; intros ?).
  rewrite confirm_change_value, H. exact I.
Qed.

(** X9: reconciliation ends with exit code 2 only through the refusal at
    the confirmation prompt, and every other exit has code 1; an answer
    other than y or yes in any letter case never lets the run end
    normally. *)
Theorem X9_exit_codes_of_reconciliation :
  forall (h : hash_order) (original_oncotree modified_oncotree : PyDict.t Row)
         (precursor_index revocation_index : PyDict.t PySet.t)
         (original_uris modified_uris internal_id_to_oncocodes codes
            : PyDict.t string) (answer : string),
    let run :=
      confirm_changes h original_oncotree modified_oncotree precursor_index
        revocation_index original_uris modified_uris internal_id_to_oncocodes
        codes answer in
    (accepted answer = false -> failed run)
    /\ (forall c e,
           fst run = Exit c e ->
           (c = 1 /\ e <> NotIntentional)
           \/ (c = 2 /\ e = NotIntentional /\ accepted answer = false)).
Proof.
  intros h original_oncotree modified_oncotree precursor_index
         revocation_index original_uris modified_uris internal_id_to_oncocodes
         codes answer run.
  split; [apply confirm_changes_rejected|].
  assert (O : only_exits
                (fun c e =>
                   (c = 1 /\ exits_with_one e)
                   \/ (c = 2 /\ e = NotIntentional /\ accepted answer = false))
                run).
  { unfold run, confirm_changes.
    do 7 (apply only_exits_bind;
            [ eapply only_exits_weaken;
              [ intros c0 e0 H0; left; exact H0
              | unfold report_removed, report_new, report_new_id,
                  report_precursors, report_precursor, report_revocations,
                  report_revocation, report_revoked_by, report_id_changes,
                  report_id_change, get_values_changed, compare_retained,
                  parent_codes, report_changes;
                exits_one ]
            | intros ? ]).
    rewrite confirm_change_value.
    destruct (accepted answer) eqn:E; [exact I|].
    right. auto. }
  intros c e Hrun. unfold only_exits in O. rewrite Hrun in O.
  destruct O as [[-> He]|O]; [left | right; exact O].
  split; [reflexivity|]. intros ->. exact He.
Qed.

Lemma X9_exit_codes_of_reconciliation_witness :
  failed
    (confirm_changes Fixtures.plain_order
       [("ONC000001", Fixtures.tissue)]
       [("ONC000001", Fixtures.with_parent_code Fixtures.tissue EmptyString)]
       [] [] [("http://data/ONC000001", "ONC000001")]
       [("http://data/ONC000001", "ONC000001")]
       [] [("TISSUE", "ONC000001")] "no").
Proof.
  apply (proj1 (X9_exit_codes_of_reconciliation Fixtures.plain_order
                  [("ONC000001", Fixtures.tissue)]
                  [("ONC000001",
                    Fixtures.with_parent_code Fixtures.tissue EmptyString)]
                  [] [] [("http://data/ONC000001", "ONC000001")]
                  [("http://data/ONC000001", "ONC000001")]
                  [] [("TISSUE", "ONC000001")] "no")).
  reflexivity.
Defined.

(** ** The whole run *)

Lemma ends_with_bind {A B} (x : string) (m : M A) (f : A -> M B) :
  (forall a, succeeded (f a) -> exists l, snd (f a) = l ++ [x]) ->
  succeeded (bind m f) -> exists l, snd (bind m f) = l ++ [x].
Proof.
  unfold succeeded. intros Hf. rewrite fst_bind, snd_bind.
  destruct (fst m) as [a| |]; try contradiction.
  intros H. destruct (Hf a H) as [l ->]. exists (snd m ++ l).
  apply app_assoc.
Qed.

Lemma bind_ok {A B} (a : A) (f : A -> M B) : bind (Ok a, []) f = f a.
Proof. exact (bind_ret a f). Qed.

Lemma check_links_silent (st : validation_state)
      (errors : list string * list string) (row : Row) :
  snd (check_links st errors row) = [].
Proof.
  unfold check_links. destruct errors as [lm pi].
  destruct (oncotree_code row =? "TISSUE"); cbn [negb].
  - rewrite bind_ret. destruct (has_parent_field row); reflexivity.
  - unfold parent_resource_uri_and_label_are_valid, lookup.
    destruct (PyDict.has _ (child_to_parent_labels st));
      [|rewrite bind_ret; reflexivity].
    destruct (PyDict.has _ (child_to_parent_resource_uris st));
      [|rewrite bind_ret; reflexivity].
    destruct (PyDict.get _ (child_uri_to_child_label st)) as [v|];
      [|reflexivity].
    rewrite !bind_ret. destruct (v =? parent_label row); reflexivity.
Qed.

(** X11: the script ends normally only if both snapshots pass the
    validation against their expected headers and the answer at the prompt
    is y or yes; the last line it prints is then the one of
    [output_rdf_file]. *)
Theorem X11_main_ends_normally_only_if :
  forall (h : hash_order) (original_file modified_file : csv_file)
         (internal_id_to_oncocodes : PyDict.t string) (answer : string),
    succeeded (main h original_file modified_file internal_id_to_oncocodes
                 answer) ->
    validate_csv_file original_file EXPECTED_HEADER = (Ok tt, [])
    /\ validate_csv_file modified_file EXPECTED_HEADER_MODIFIED_FILE
       = (Ok tt, [])
    /\ accepted answer = true
    /\ exists report,
         snd (main h original_file modified_file internal_id_to_oncocodes
                answer)
         = report ++ ["TODO: output RDF file"].
Proof.
  intros h original_file modified_file internal_id_to_oncocodes answer H.
  assert (Hv : forall csv expected,
             succeeded (validate_csv_file csv expected) ->
             validate_csv_file csv expected = (Ok tt, [])).
  { intros csv expected. unfold succeeded, validate_csv_file.
    destruct (nonempty _); [contradiction|].
    rewrite (pair_eta (bind _ _)) at 2. rewrite fst_bind, snd_bind.
    fold (check_rows (path csv) (rows csv)).
    destruct (fst (check_rows (path csv) (rows csv))) as [st| |] eqn:E;
      try contradiction.
    unfold check_rows at 1. rewrite check_rows_silent.
    rewrite fst_bind, snd_bind.
    destruct (fst (foldM (check_links st) (rows csv) ([], [])))
      as [[lm pi]| |] eqn:E2; try contradiction.
    assert (Hs : snd (foldM (check_links st) (rows csv) ([], [])) = []).
    { apply foldM_silent. intros errors row. apply check_links_silent. }
    rewrite Hs.
    destruct (report_validation_errors_outcome (path csv) lm pi) as [Hf _].
    rewrite Hf. destruct lm, pi; cbn; try contradiction. reflexivity. }
  unfold main in *.
  assert (H1 : succeeded (validate_csv_file original_file EXPECTED_HEADER)).
  { unfold succeeded in *. rewrite fst_bind in H.
    destruct (fst (validate_csv_file original_file EXPECTED_HEADER));
      [exact I | contradiction..]. }
  apply Hv in H1. rewrite H1 in *. rewrite bind_ok in *.
  assert (H2 : succeeded
                 (validate_csv_file modified_file
                    EXPECTED_HEADER_MODIFIED_FILE)).
  { unfold succeeded in *. rewrite fst_bind in H.
    destruct (fst (validate_csv_file modified_file
                     EXPECTED_HEADER_MODIFIED_FILE));
      [exact I | contradiction..]. }
  apply Hv in H2. rewrite H2 in *. rewrite bind_ok in *.
  split; [reflexivity|]. split; [reflexivity|]. split.
  - destruct (accepted answer) eqn:E; [reflexivity|]. exfalso.
    destruct (get_oncotree_total original_file) as (d1 & o1 & E1 & _).
    destruct (get_oncotree_total modified_file) as (d2 & o2 & E2 & _).
    unfold succeeded in H. rewrite E1 in H. cbn [bind] in H.
    rewrite E2 in H. cbn [bind] in H.
    pose proof (confirm_changes_rejected h d1 d2
                  (get_all_precursors modified_file)
                  (get_all_revocations modified_file)
                  (get_resource_uri_to_internal_ids original_file)
                  (get_resource_uri_to_internal_ids modified_file)
                  internal_id_to_oncocodes
                  (get_oncotree_codes_to_internal_ids modified_file)
                  answer E) as Hf.
    unfold failed in Hf.
    destruct (confirm_changes _ _ _ _ _ _ _ _ _ _) as [[[]| |] oc];
      cbn in *; contradiction.
  - revert H. apply ends_with_bind. intros d1 H. revert H.
    apply ends_with_bind. intros d2 H. revert H.
    apply ends_with_bind. intros _ _. exists []. reflexivity.
Qed.

Lemma X11_main_ends_normally_only_if_witness :
  accepted "Yes" = true
  /\ exists report,
       snd (main Fixtures.plain_order
              (Fixtures.original
                 [Fixtures.tissue; Fixtures.lung; Fixtures.skin])
              (Fixtures.modified
                 (Fixtures.in_modified
                    [Fixtures.tissue; Fixtures.lung_recoded;
                     Fixtures.skin_recoded])) [] "Yes")
       = report ++ ["TODO: output RDF file"].
Proof.
  assert (H : succeeded
                (main Fixtures.plain_order
                   (Fixtures.original
                      [Fixtures.tissue; Fixtures.lung; Fixtures.skin])
                   (Fixtures.modified
                      (Fixtures.in_modified
                         [Fixtures.tissue; Fixtures.lung_recoded;
                          Fixtures.skin_recoded])) [] "Yes")).
  { vm_compute. exact I. }
  destruct (X11_main_ends_normally_only_if _ _ _ _ _ H) as (_ & _ & Ha & Hr).
  split; [exact Ha | exact Hr].
Defined.

(** ** The node map of a snapshot *)

Lemma load_rows_value (l : list Row) : forall d0,
  foldM load_row l d0
  = (Ok (fold_left (fun d row => PyDict.set (internal_id row) row d) l d0),
     map status_warning
         (filter (fun row => negb (status row =? "Published")) l)).
Proof.
  induction l as [|r l IH]; intros d0; [reflexivity|].
  cbn [foldM fold_left filter]. unfold load_row at 1.
  destruct (negb (status r =? "Published")); cbn [bind print ret map];
    rewrite IH; reflexivity.
Qed.

(** X12: loading a snapshot never fails; it prints one warning for each
    row whose status is not Published, in file order, and the node map
    holds, under each internal id, the last row of the snapshot with that
    id, whatever the status of the row. *)
Theorem X12_node_map_of_a_snapshot :
  forall (csv : csv_file),
    exists d,
      get_oncotree csv
      = (Ok d,
         map status_warning
             (filter (fun row => negb (status row =? "Published")) (rows csv)))
      /\ (forall k, PyDict.get k d = last_with internal_id k (rows csv))
      /\ (forall k, In k (PyDict.keys d)
                    <-> In k (map internal_id (rows csv))).
Proof.
  intros csv. eexists. split; [apply load_rows_value|]. split.
  - intros k. rewrite (get_built internal_id (fun row => row)).
    destruct (last_with internal_id k (rows csv)); reflexivity.
  - intros k. rewrite <- get_In_keys.
    apply (has_built internal_id (fun row => row)).
Qed.

(** ** The three sets of internal ids *)

(** X13: every internal id of the original snapshot is either removed or
    retained, every internal id of the modified snapshot is either new or
    retained, and no id is in two of the three sets. *)
Theorem X13_ids_are_classified_once :
  forall (original_oncotree modified_oncotree : PyDict.t Row) (id : string),
    let removed := removed_internal_ids original_oncotree modified_oncotree in
    let added := new_internal_ids original_oncotree modified_oncotree in
    let retained := in_both_internal_ids original_oncotree modified_oncotree in
    (In id (PyDict.keys original_oncotree)
     <-> In id removed \/ In id retained)
    /\ (In id (PyDict.keys modified_oncotree)
        <-> In id added \/ In id retained)
    /\ ~ (In id removed /\ In id retained)
    /\ ~ (In id added /\ In id retained)
    /\ ~ (In id removed /\ In id added).
Proof.
  intros original_oncotree modified_oncotree id removed added retained.
  unfold removed, added, retained.
  rewrite In_removed, In_new, In_in_both.
  destruct (in_dec string_dec id (PyDict.keys original_oncotree));
    destruct (in_dec string_dec id (PyDict.keys modified_oncotree)); tauto.
Qed.

(** ** The precursor and revocation indexes, in full *)

Lemma keys_default_add (k s id : string) (d : PyDict.t PySet.t) :
  In k (PyDict.keys (default_add s id d)) <-> k = s \/ In k (PyDict.keys d).
Proof. unfold default_add. apply In_keys_set. Qed.

Lemma declared_by_row_iff (id : string) (ids : list string) :
  forall d k i,
    (In i (default_get k
             (fold_left (fun d source_id => default_add source_id id d) ids d))
     <-> In i (default_get k d) \/ (i = id /\ In k ids))
    /\ (In k (PyDict.keys
                (fold_left (fun d source_id => default_add source_id id d)
                           ids d))
        <-> In k (PyDict.keys d) \/ In k ids).
Proof.
  induction ids as [|s ids IH]; intros d k i; cbn [fold_left In].
  - tauto.
  - destruct (IH (default_add s id d) k i) as [-> ->].
    rewrite default_get_add, keys_default_add.
    destruct (String.eqb_spec k s) as [->|N].
    + rewrite In_add. intuition auto.
    + intuition congruence.
Qed.

Lemma truthy_split_fold {D} (f : D -> string -> D) (s : string) (d : D) :
  (if truthy s then fold_left f (split s) d else d)
  = fold_left f (split s) d.
Proof. destruct s; reflexivity. Qed.

Lemma declared_by_rows_iff (field : Row -> string) (l : list Row) :
  forall d k i,
    let index :=
      fold_left
        (fun d row =>
           if truthy (field row)
           then fold_left
                  (fun d source_id =>
                     default_add source_id (internal_id row) d)
                  (split (field row)) d
           else d) l d in
    (In i (default_get k index)
     <-> In i (default_get k d)
         \/ exists row, In row l /\ internal_id row = i
                        /\ In k (split (field row)))
    /\ (In k (PyDict.keys index)
        <-> In k (PyDict.keys d)
            \/ exists row, In row l /\ In k (split (field row))).
Proof.
  induction l as [|r l IH]; intros d k i; cbn [fold_left In].
  - split; split; try tauto; intros [H|(row & [] & _)]; exact H.
  - rewrite truthy_split_fold.
    destruct (IH (fold_left
                    (fun d source_id => default_add source_id (internal_id r) d)
                    (split (field r)) d) k i) as [H1 H2].
    cbv zeta in H1, H2. cbv zeta. rewrite H1, H2.
    destruct (declared_by_row_iff (internal_id r) (split (field r)) d k i)
      as [-> ->].
    split.
    + split.
      * intros [[H|[Hi H]]|(row & Hin & Hid & Hk)].
        -- left. exact H.
        -- right. exists r. auto.
        -- right. exists row. auto.
      * intros [H|(row & [Hr|Hin] & Hid & Hk)].
        -- left. left. exact H.
        -- subst row. left. right. auto.
        -- right. exists row. auto.
    + split.
      * intros [[H|H]|(row & Hin & Hk)].
        -- left. exact H.
        -- right. exists r. auto.
        -- right. exists row. auto.
      * intros [H|(row & [Hr|Hin] & Hk)].
        -- left. left. exact H.
        -- subst row. left. right. exact Hk.
        -- right. exists row. auto.
Qed.

(** X14: in the precursor index a foreign id is a key exactly when some row
    of the snapshot names it in its precursors cell, and it maps to the
    internal ids of exactly the rows that name it; the revocation index is
    built from the revocations cell in the same way. *)
Theorem X14_lineage_indexes :
  forall (csv : csv_file) (k i : string),
    (In k (PyDict.keys (get_all_precursors csv))
     <-> exists row, In row (rows csv) /\ In k (split (precursors row)))
    /\ (In i (default_get k (get_all_precursors csv))
        <-> exists row, In row (rows csv) /\ internal_id row = i
                        /\ In k (split (precursors row)))
    /\ (In k (PyDict.keys (get_all_revocations csv))
        <-> exists row, In row (rows csv) /\ In k (split (revocations row)))
    /\ (In i (default_get k (get_all_revocations csv))
        <-> exists row, In row (rows csv) /\ internal_id row = i
                        /\ In k (split (revocations row))).
Proof.
  intros csv k i.
  destruct (declared_by_rows_iff precursors (rows csv) [] k i) as [P1 P2].
  destruct (declared_by_rows_iff revocations (rows csv) [] k i) as [R1 R2].
  cbv zeta in P1, P2, R1, R2.
  unfold get_all_precursors, get_all_revocations.
  rewrite P1, P2, R1, R2. cbn. tauto.
Qed.

(** ** The downloaded table *)

Lemma read_triples_outcome (lines : list string) :
  forall d0,
    (existsb short_line lines = true ->
     exists index, read_triples lines d0 = IndexError index)
    /\ (existsb short_line lines = false ->
        exists d,
          read_triples lines d0 = Fetched d
          /\ forall subject,
               PyDict.get subject d
               = match last_code_of subject lines with
                 | Some code => Some code
                 | None => PyDict.get subject d0
                 end).
Proof.
  induction lines as [|row rest IH]; intros d0.
  - split; [discriminate|]. intros _. exists d0. split; reflexivity.
  - cbn [existsb read_triples last_code_of]. unfold short_line at 1 3.
    destruct (split row) as [|s [|p more]].
    + split; [intros _; eexists; reflexivity | discriminate].
    + split; [intros _; eexists; reflexivity | discriminate].
    + destruct (p =? "hasCode") eqn:Ep.
      * destruct more as [|o more].
        -- split; [intros _; eexists; reflexivity | discriminate].
        -- cbn [nonempty negb andb orb].
           destruct (IH (PyDict.set s o d0)) as [I1 I2].
           split; [exact I1|]. intros H.
           destruct (I2 H) as (d & -> & Hd). exists d.
           split; [reflexivity|]. intros subject. rewrite Hd.
           destruct (last_code_of subject rest); [reflexivity|].
           rewrite get_set, andb_true_r, (String.eqb_sym subject).
           destruct (s =? subject); reflexivity.
      * cbn [andb orb]. destruct (IH d0) as [I1 I2].
        split; [exact I1|]. intros H.
        destruct (I2 H) as (d & -> & Hd). exists d.
        split; [reflexivity|]. intros subject. rewrite Hd.
        destruct (last_code_of subject rest); [reflexivity|].
        destruct more; [reflexivity|]. rewrite andb_false_r. reflexivity.
Qed.

(** X15: a response whose status is not 200 ends the run with exit code 1
    whatever its text. With status 200 the table is read line by line: a
    line with fewer than two fields, as an empty line, or a hasCode line
    with no third field, raises IndexError; otherwise each subject maps to
    the third field of the last hasCode line that names it, and the lines
    with another predicate are ignored. *)
Theorem X15_downloaded_table :
  forall (status_code : nat) (text : string),
    (status_code <> 200 ->
     get_internal_id_to_oncocodes status_code text = FetchExit 1 status_code)
    /\ (status_code = 200 ->
        existsb short_line (splitlines text) = true ->
        exists index,
          get_internal_id_to_oncocodes status_code text = IndexError index)
    /\ (status_code = 200 ->
        existsb short_line (splitlines text) = false ->
        exists d,
          get_internal_id_to_oncocodes status_code text = Fetched d
          /\ forall subject,
               PyDict.get subject d = last_code_of subject (splitlines text)).
Proof.
  intros status_code text. unfold get_internal_id_to_oncocodes.
  split; [|split].
  - intros H. apply Nat.eqb_neq in H. rewrite H. reflexivity.
  - intros -> H. cbn [Nat.eqb negb].
    apply (read_triples_outcome (splitlines text) []), H.
  - intros -> H. cbn [Nat.eqb negb].
    destruct (proj2 (read_triples_outcome (splitlines text) []) H)
      as (d & E & Hd).
    exists d. split; [exact E|]. intros subject. rewrite Hd.
    destruct (last_code_of subject (splitlines text)); reflexivity.
Qed.

Lemma X15_downloaded_table_witness :
  get_internal_id_to_oncocodes 404 "Not Found" = FetchExit 1 404
  /\ (exists index,
         get_internal_id_to_oncocodes 200
           ("ONC000001 hasCode TISSUE" ++ nl ++ nl ++ "ONC000002 hasCode LUNG")
         = IndexError index)
  /\ (exists d,
         get_internal_id_to_oncocodes 200
           ("ONC000001 hasCode TISSUE" ++ nl ++ "ONC000001 hasLabel Tissue"
              ++ nl ++ "ONC000001 hasCode TISSUE2" ++ nl)
         = Fetched d
         /\ PyDict.get "ONC000001" d = Some "TISSUE2").
Proof.
  split; [|split].
  - apply (proj1 (X15_downloaded_table 404 "Not Found")). discriminate.
  - apply (proj1 (proj2 (X15_downloaded_table 200
             ("ONC000001 hasCode TISSUE" ++ nl ++ nl
                ++ "ONC000002 hasCode LUNG"))));
      [reflexivity | vm_compute; reflexivity].
  - destruct (proj2 (proj2 (X15_downloaded_table 200
             ("ONC000001 hasCode TISSUE" ++ nl ++ "ONC000001 hasLabel Tissue"
                ++ nl ++ "ONC000001 hasCode TISSUE2" ++ nl)))
             eq_refl ltac:(vm_compute; reflexivity)) as (d & E & Hd).
    exists d. split; [exact E|]. rewrite Hd. vm_compute. reflexivity.
Defined.

(** ** The new section of the report *)

(** X16: with the node map and the two maps built from a modified snapshot
    that passes the first loop, the new section prints, for a row without a
    resource URI whose parent code is the oncotree code of a row of the
    snapshot, the one line that names the row and that parent, and does not
    fail on it. *)
Theorem X16_new_node_is_listed_with_its_parent :
  forall (p : string) (csv : csv_file) (d : PyDict.t Row) (row parent : Row),
    succeeded (check_rows p (rows csv)) ->
    fst (get_oncotree csv) = Ok d ->
    In row (rows csv) ->
    In parent (rows csv) ->
    resource_uri row = EmptyString ->
    parent_oncotree_code row = Some (oncotree_code parent) ->
    report_new_id d (get_resource_uri_to_internal_ids csv)
      (get_oncotree_codes_to_internal_ids csv) (internal_id row)
    = (Ok tt,
       [(tab ++ pretty_label_of row ++ " has parent "
             ++ pretty_label_of parent)%string]).
Proof.
  intros p csv d row parent Hok Hd Hrow Hparent Huri Hcode.
  apply check_rows_distinct in Hok as (Hall & _ & Ni & Nc).
  unfold get_oncotree in Hd. rewrite load_rows_value in Hd.
  cbn [fst] in Hd. injection Hd as <-.
  assert (Hget : forall r, In r (rows csv) ->
             PyDict.get (internal_id r)
               (fold_left (fun d row => PyDict.set (internal_id row) row d)
                          (rows csv) [])
             = Some r).
  { intros r Hr. rewrite (get_built internal_id (fun row => row)).
    rewrite (last_with_unique internal_id _ r Ni Hr); [reflexivity|].
    apply filled_key_fields, Hall, Hr. }
  destruct (filled_key_fields parent (Hall parent Hparent)) as [_ Htc].
  assert (Hc : PyDict.get (oncotree_code parent)
                 (get_oncotree_codes_to_internal_ids csv)
               = Some (internal_id parent)).
  { unfold get_oncotree_codes_to_internal_ids.
    rewrite get_built, (last_with_unique oncotree_code _ parent Nc Hparent Htc).
    reflexivity. }
  unfold report_new_id.
  rewrite (lookup_some _ _ _ (Hget row Hrow)), bind_ret, Huri.
  cbn [truthy]. unfold row_get. cbn [cell]. rewrite Hcode, bind_ret.
  unfold get_parent_internal_id, PyDict.has. rewrite Htc, Hc.
  rewrite (lookup_some _ _ _ Hc), bind_ret.
  rewrite (lookup_some _ _ _ (Hget parent Hparent)), bind_ret.
  reflexivity.
Qed.

Lemma X16_new_node_is_listed_with_its_parent_witness :
  report_new_id
    [("ONC000001", Fixtures.with_parent_code Fixtures.tissue EmptyString);
     ("ONC000002", Fixtures.with_parent_code Fixtures.lung EmptyString);
     ("ONC000030", Fixtures.new_under_lung)]
    (get_resource_uri_to_internal_ids
       (Fixtures.modified
          [Fixtures.with_parent_code Fixtures.tissue EmptyString;
           Fixtures.with_parent_code Fixtures.lung EmptyString;
           Fixtures.new_under_lung]))
    (get_oncotree_codes_to_internal_ids
       (Fixtures.modified
          [Fixtures.with_parent_code Fixtures.tissue EmptyString;
           Fixtures.with_parent_code Fixtures.lung EmptyString;
           Fixtures.new_under_lung]))
    "ONC000030"
  = (Ok tt,
     [(tab ++ "ONC000030: Non-Small Cell Lung Cancer (NSCLC) has parent ONC000002: Lung (LUNG)")%string]).
Proof.
  assert (Hok : succeeded
                  (check_rows "modified.csv"
                     (rows (Fixtures.modified
                              [Fixtures.with_parent_code Fixtures.tissue
                                 EmptyString;
                               Fixtures.with_parent_code Fixtures.lung
                                 EmptyString;
                               Fixtures.new_under_lung])))).
  { vm_compute. exact I. }
  assert (Hd : fst (get_oncotree
                      (Fixtures.modified
                         [Fixtures.with_parent_code Fixtures.tissue EmptyString;
                          Fixtures.with_parent_code Fixtures.lung EmptyString;
                          Fixtures.new_under_lung]))
               = Ok [("ONC000001",
                      Fixtures.with_parent_code Fixtures.tissue EmptyString);
                     ("ONC000002",
                      Fixtures.with_parent_code Fixtures.lung EmptyString);
                     ("ONC000030", Fixtures.new_under_lung)]).
  { vm_compute. reflexivity. }
  apply (X16_new_node_is_listed_with_its_parent "modified.csv" _ _
           Fixtures.new_under_lung
           (Fixtures.with_parent_code Fixtures.lung EmptyString) Hok Hd).
  - right. right. left. reflexivity.
  - right. left. reflexivity.
  - reflexivity.
  - reflexivity.
Defined.
